(** * The agent core: startup and shutdown of an ordered list of plugins

    A shallow embedding of [core.Agent] (NewAgent, Start, Stop, initPlugins,
    handleAfterInit) with explicit state passing.  The Go heap and the
    environment the agent runs in are one record, [State]; every method of
    the agent is a function on it.  A run-time panic (an index out of range)
    is the result [None]. *)

From Stdlib Require Import ZArith List String Ascii Bool Arith Lia Sorted.
Import ListNotations.
Local Open Scope string_scope.
Local Open Scope list_scope.

Set Implicit Arguments.

(** ** Values of the Go runtime used by the agent *)

(** A Go [error] is identified with the text its [Error()] method returns;
    the nil error is [None]. *)
Definition error := string.

(** [err == nil]. *)
Definition isNil (e : option error) : bool :=
  match e with None => true | Some _ => false end.

(** [time.Duration] is an int64 count of nanoseconds. *)
Definition Duration := Z.

Definition maxDuration : Duration := (2 ^ 63 - 1)%Z.
Definition minDuration : Duration := (- 2 ^ 63)%Z.

(** int64 addition wraps around. *)
Definition wrap64 (z : Z) : Z := ((z + 2 ^ 63) mod 2 ^ 64 - 2 ^ 63)%Z.
Definition Duration_add (a b : Duration) : Duration := wrap64 (a + b).

(** [time.Since] on monotonic clock readings: the difference, saturated to
    the range of a Duration. *)
Definition time_Sub (t u : Z) : Duration :=
  Z.max minDuration (Z.min maxDuration (t - u)).

(** The verbs the agent's format strings use are [%s] and [%v]; every
    operand is passed already rendered ([PluginName] and [error] by their
    text, a Duration by [Duration.String]). *)
Definition isVerb (c : ascii) : bool :=
  (Ascii.eqb c "s" || Ascii.eqb c "v")%bool.

Fixpoint Sprintf (format : string) (args : list string) : string :=
  match format with
  | EmptyString => EmptyString
  | String a tl =>
      if Ascii.eqb a "%" then
        match tl with
        | EmptyString => "%!(NOVERB)"
        | String c rest =>
            if isVerb c then
              match args with
              | arg :: args' => (arg ++ Sprintf rest args')%string
              | [] => ("%!" ++ String c "(MISSING)" ++ Sprintf rest [])%string
              end
            else String a (Sprintf tl args)
        end
      else String a (Sprintf tl args)
  end.

(** Whether [text] has [pat] inside. *)
Fixpoint contains (pat text : string) : bool :=
  (prefix pat text ||
   match text with
   | EmptyString => false
   | String _ text' => contains pat text'
   end)%bool.

(** ** Constants of the source *)

Definition logErrorFmt := "plugin %s: Init error '%s', took %v".
Definition logSuccessFmt := "plugin %s: Init took %v".
Definition logSkippedFmt := "plugin %s: Init skipped due to previous error".
Definition logAfterSkippedFmt := "plugin %s: AfterInit skipped due to previous error".
Definition logAfterErrorFmt := "plugin %s: AfterInit error '%s', took %v".
Definition logAfterSuccessFmt := "plugin %s: AfterInit took %v".
Definition logNoAfterInitFmt := "plugin %s: not implement AfterInit".
Definition logTimeoutFmt := "plugin %s not completed before timeout".
Definition defaultTimerValue : Duration := (-1)%Z.

(** ** The logger *)

Inductive Level := DebugLevel | InfoLevel | ErrorLevel.

Inductive FieldValue :=
| FInt (n : Z)
| FStr (s : string).

Record LogEntry := mkLog {
  level : Level;
  fields : list (string * FieldValue);
  message : string
}.

(** ** The agent's own data *)

Record startup := mkStartup {
  MaxStartupTime : Duration;
  initDuration : Duration;
  afterInitDuration : Duration;
  currentlyProcessing : string
}.

(** What the agent asks of its collaborators, in the order it asks. *)
Inductive Target := OnWrapper | OnPlugin.

Inductive Call :=
| CallInit (i : nat)
| CallAfterInit (i : nat)
| CallClose (t : Target) (i : nat).

Record Event := mkEvent {
  ev_call : Call;
  ev_err : option error
}.

Section AgentCore.

(** The state the plugins act on: everything outside the agent. *)
Variable World : Type.

(** What one call of a plugin method does: the error it returns, the time
    it takes on the monotonic clock, the state it leaves. *)
Record OpResult := mkOp {
  op_err : option error;
  op_took : N;
  op_world : World
}.

Definition Op := World -> OpResult.

(** Modelled from the spec: the plugin capability set (sections 3 and 6),
    whose Go interfaces [Plugin] and [PostInit] are declared outside the
    agent's file.  [Init] is mandatory; [AfterInit] (the PostInit
    capability) and [Close] (the io.Closer capability) are optional and
    found by a run-time check. *)
Record Plugin := mkPlugin {
  Init : Op;
  AfterInit : option Op;
  Close : option Op
}.

(** Modelled from the spec: a Named Plugin is the pair of a name and a
    plugin reference (section 3); the Go struct is declared outside the
    agent's file. *)
Record NamedPlugin := mkNamed {
  PluginName : string;
  Plugin_ : Plugin
}.

(** The parts of the program and of its libraries the agent's file only
    uses: the method set of [*NamedPlugin] (its [Close] method, if the type
    has one), fmt's rendering of a Duration and of a [*NamedPlugin], the
    [flag] package, and the two build variables. *)
Variable NamedPlugin_Close : NamedPlugin -> option Op.
Variable Duration_String : Duration -> string.
Variable NamedPlugin_String : NamedPlugin -> string.
Variable flag_Parsed : World -> bool.
Variable flag_Parse : World -> World.
Variable BuildVersion : string.
Variable BuildDate : string.

Record Agent := mkAgent {
  plugins : list NamedPlugin;
  Logger : list LogEntry;
  startup_ : startup
}.

(** The agent on the heap and its environment.  [calls] and [snapshots] are
    observation only: the calls made to collaborators with their results,
    and the value of the [startup] fields after each write to them. *)
Record State := mkState {
  agent : Agent;
  world : World;
  clock : Z;
  calls : list Event;
  snapshots : list startup
}.

Definition NewAgent (maxStartup : Duration) (ps : list NamedPlugin) : Agent :=
  mkAgent ps [] (mkStartup maxStartup 0%Z 0%Z EmptyString).

(** *** Primitive steps *)

Definition write_log (e : LogEntry) (s : State) : State :=
  mkState (mkAgent (plugins (agent s)) (Logger (agent s) ++ [e]) (startup_ (agent s)))
          (world s) (clock s) (calls s) (snapshots s).

Definition write_startup (st : startup) (s : State) : State :=
  mkState (mkAgent (plugins (agent s)) (Logger (agent s)) st)
          (world s) (clock s) (calls s) (snapshots s ++ [st]).

Definition set_initDuration (d : Duration) (s : State) : State :=
  let st := startup_ (agent s) in
  write_startup (mkStartup (MaxStartupTime st) d (afterInitDuration st) (currentlyProcessing st)) s.

Definition set_afterInitDuration (d : Duration) (s : State) : State :=
  let st := startup_ (agent s) in
  write_startup (mkStartup (MaxStartupTime st) (initDuration st) d (currentlyProcessing st)) s.

Definition set_currentlyProcessing (name : string) (s : State) : State :=
  let st := startup_ (agent s) in
  write_startup (mkStartup (MaxStartupTime st) (initDuration st) (afterInitDuration st) name) s.

Definition time_Now (s : State) : Z := clock s.
Definition time_Since (t : Z) (s : State) : Duration := time_Sub (clock s) t.

(** Running a plugin method: the world and the clock move, the call is
    observed. *)
Definition invoke (c : Call) (op : Op) (s : State) : option error * State :=
  let r := op (world s) in
  (op_err r,
   mkState (agent s) (op_world r) (clock s + Z.of_N (op_took r))
           (calls s ++ [mkEvent c (op_err r)]) (snapshots s)).

(** A release that finds nothing to call is observed all the same. *)
Definition observe (c : Call) (s : State) : State :=
  mkState (agent s) (world s) (clock s) (calls s ++ [mkEvent c None]) (snapshots s).

(** Modelled from the spec: [safeclose.Close], defined outside the agent's
    file.  It checks at run time whether the object it is given has the
    Closeable capability; absence is nothing to release, not an error
    (section 6). *)
Definition safeclose_Close (c : Call) (closer : option Op) (s : State)
  : option error * State :=
  match closer with
  | Some close => invoke c close s
  | None => (None, observe c s)
  end.

(** Logger calls of the source; the message comes already formatted, so
    [Info] also stands for [Infof] and [Debug] for [Debugf]. *)
Definition durationInNs (d : Duration) : list (string * FieldValue) :=
  [("durationInNs", FInt d)].
Definition pluginNameField (name : string) : list (string * FieldValue) :=
  [("pluginName", FStr name)].

Definition Info (flds : list (string * FieldValue)) (msg : string) : State -> State :=
  write_log (mkLog InfoLevel flds msg).
Definition Debug (flds : list (string * FieldValue)) (msg : string) : State -> State :=
  write_log (mkLog DebugLevel flds msg).
Definition Errorf (flds : list (string * FieldValue)) (msg : string) : State -> State :=
  write_log (mkLog ErrorLevel flds msg).

(** [fmt.Sprint] of an error operand. *)
Definition Sprint_err (e : option error) : string :=
  match e with None => "<nil>" | Some m => m end.

(** *** Stop *)

(** The loop [for i := len(agent.plugins) - 1; i >= 0; i--], with [n] the
    number of iterations still to run, so that [i = n - 1]. *)
Fixpoint Stop_loop (n : nat) (errMsg : string) (s : State) : option (string * State) :=
  match n with
  | O => Some (errMsg, s)
  | S i =>
      match nth_error (plugins (agent s)) i with
      | None => None
      | Some np =>
          let s := Debug (pluginNameField (PluginName np)) "Stopping plugin begin" s in
          let (err, s) := safeclose_Close (CallClose OnPlugin i) (Close (Plugin_ np)) s in
          let errMsg :=
            match err with
            | Some e =>
                let errMsg :=
                  if (0 <? String.length errMsg)%nat then (errMsg ++ "; ")%string else errMsg in
                let errMsg := (errMsg ++ PluginName np)%string in
                (errMsg ++ (": " ++ e))%string
            | None => errMsg
            end in
          let s := Debug (pluginNameField (PluginName np))
                         ("Stopping plugin end " ++ Sprint_err err)%string s in
          Stop_loop i errMsg s
      end
  end.

Definition Stop (s : State) : option (option error * State) :=
  let s := Info [] "Stopping agent..." s in
  match Stop_loop (List.length (plugins (agent s))) EmptyString s with
  | None => None
  | Some (errMsg, s) =>
      let s := Debug [] "Agent stopped" s in
      if (0 <? String.length errMsg)%nat then Some (Some errMsg, s) else Some (None, s)
  end.

(** *** initPlugins *)

(** The loop [for index, plugin := range agent.plugins]; the result is the
    value of [initPluginCounter] and of [wasError] when the loop ends. *)
Fixpoint initPlugins_loop (index : nat) (rest : list NamedPlugin)
  (initPluginCounter : nat) (pluginFailed : bool) (wasError : option error)
  (s : State) : nat * option error * State :=
  match rest with
  | [] => (initPluginCounter, wasError, s)
  | plugin :: rest' =>
      let initPluginCounter := index in
      let s := set_currentlyProcessing (PluginName plugin) s in
      if pluginFailed then
        let s := Info [] (Sprintf logSkippedFmt [PluginName plugin]) s in
        initPlugins_loop (S index) rest' initPluginCounter pluginFailed wasError s
      else
        let pluginStartTime := time_Now s in
        let (err, s) := invoke (CallInit index) (Init (Plugin_ plugin)) s in
        match err with
        | Some e =>
            let pluginErrTime := time_Since pluginStartTime s in
            let msg := Sprintf logErrorFmt
                         [PluginName plugin; e; Duration_String pluginErrTime] in
            let s := Errorf (durationInNs pluginErrTime) msg s in
            initPlugins_loop (S index) rest' initPluginCounter true (Some msg) s
        | None =>
            let pluginSuccTime := time_Since pluginStartTime s in
            let s := Info (durationInNs pluginSuccTime)
                          (Sprintf logSuccessFmt
                             [PluginName plugin; Duration_String pluginSuccTime]) s in
            initPlugins_loop (S index) rest' initPluginCounter pluginFailed wasError s
        end
  end.

(** The loop [for i := initPluginCounter; i >= 0; i--], with [n = i + 1]. *)
Fixpoint rollback_loop (n : nat) (wasError : option error) (s : State)
  : option (option error * State) :=
  match n with
  | O => Some (wasError, s)
  | S i =>
      match nth_error (plugins (agent s)) i with
      | None => None
      | Some np =>
          let s := Debug [] (Sprintf "Closing %v" [NamedPlugin_String np]) s in
          let (err, s) := safeclose_Close (CallClose OnWrapper i) (NamedPlugin_Close np) s in
          let wasError := match err with Some e => Some e | None => wasError end in
          rollback_loop i wasError s
      end
  end.

Definition initPlugins (s : State) : option (option error * State) :=
  let s := set_initDuration defaultTimerValue s in
  let initStartTime := time_Now s in
  let '(initPluginCounter, wasError, s) :=
    initPlugins_loop 0 (plugins (agent s)) 0 false None s in
  let s := set_initDuration (time_Since initStartTime s) s in
  match wasError with
  | Some _ => rollback_loop (S initPluginCounter) wasError s
  | None => Some (None, s)
  end.

(** *** handleAfterInit *)

(** The loop [for _, plug := range agent.plugins]; [index] only labels the
    observed calls. *)
Fixpoint handleAfterInit_loop (index : nat) (rest : list NamedPlugin)
  (pluginFailed : bool) (wasError : option error) (s : State)
  : option error * State :=
  match rest with
  | [] => (wasError, s)
  | plug :: rest' =>
      let s := set_currentlyProcessing (PluginName plug) s in
      if pluginFailed then
        let s := Info [] (Sprintf logAfterSkippedFmt [PluginName plug]) s in
        handleAfterInit_loop (S index) rest' pluginFailed wasError s
      else
        match AfterInit (Plugin_ plug) with
        | Some afterInit =>
            let pluginStartTime := time_Now s in
            let (err, s) := invoke (CallAfterInit index) afterInit s in
            match err with
            | Some e =>
                let pluginErrTime := time_Since pluginStartTime s in
                let msg := Sprintf logAfterErrorFmt
                             [PluginName plug; e; Duration_String pluginErrTime] in
                let s := Errorf (durationInNs pluginErrTime) msg s in
                handleAfterInit_loop (S index) rest' true (Some msg) s
            | None =>
                let pluginSuccTime := time_Since pluginStartTime s in
                let s := Info (durationInNs pluginSuccTime)
                              (Sprintf logAfterSuccessFmt
                                 [PluginName plug; Duration_String pluginSuccTime]) s in
                handleAfterInit_loop (S index) rest' pluginFailed wasError s
            end
        | None =>
            let s := Info [] (Sprintf logNoAfterInitFmt [PluginName plug]) s in
            handleAfterInit_loop (S index) rest' pluginFailed wasError s
        end
  end.

Definition handleAfterInit (s : State) : option (option error * State) :=
  let s := set_afterInitDuration defaultTimerValue s in
  let afterInitStartTime := time_Now s in
  let (wasError, s) := handleAfterInit_loop 0 (plugins (agent s)) false None s in
  let s := set_afterInitDuration (time_Since afterInitStartTime s) s in
  match wasError with
  | Some _ =>
      match Stop s with
      | None => None
      | Some (_, s) => Some (wasError, s)
      end
  | None => Some (None, s)
  end.

(** *** Start *)

(** The goroutine started by [Start]: its result is what it delivers, an
    error on [errChannel] or, for [None], the closing of [doneChannel]. *)
Definition pipeline (s : State) : option (option error * State) :=
  match initPlugins s with
  | None => None
  | Some (Some err, s) => Some (Some err, s)
  | Some (None, s) =>
      match handleAfterInit s with
      | None => None
      | Some (Some err, s) => Some (Some err, s)
      | Some (None, s) => Some (None, s)
      end
  end.

(** Which case of the [select] is taken is the scheduler's and the timer's
    choice, not the program's: either the goroutine's signal is received, or
    the timer fires at some instant of the goroutine's run.  The instants are
    numbered by the writes to the [startup] fields the goroutine has made:
    instant 0 is before its first write. *)
Inductive Race :=
| SignalFirst
| DeadlineAt (n : nat).

(** What the [startup] fields hold at each instant of a run of the goroutine
    from [s] to [s']. *)
Definition instants (s s' : State) : list startup :=
  startup_ (agent s) :: skipn (List.length (snapshots s)) (snapshots s').

Definition deadline (race : Race) (s s' : State) : option startup :=
  match race with
  | SignalFirst => None
  | DeadlineAt n => nth_error (instants s s') n
  end.

(** The caller's side of [Start]: what it returns, what it logs after the
    [go] statement, and the state the goroutine comes to rest in.  On a
    timeout the caller's entries and the later ones of the goroutine really
    interleave; the two logs are kept apart. *)
Record StartResult := mkStartResult {
  returned : option error;
  caller_log : list LogEntry;
  pipeline_end : State
}.

(** What [Start] does before its [go] statement. *)
Definition launch (s : State) : State :=
  let s := Info [("BuildVersion", FStr BuildVersion); ("BuildDate", FStr BuildDate)]
                "Starting the agent..." s in
  if flag_Parsed (world s) then s
  else mkState (agent s) (flag_Parse (world s)) (clock s) (calls s) (snapshots s).

Definition Start (race : Race) (s : State) : option StartResult :=
  let s := launch s in
  match pipeline s with
  | None => None
  | Some (signal, s') =>
      match deadline race s s' with
      | Some st =>
          let said :=
            if (initDuration st =? defaultTimerValue)%Z then
              [mkLog InfoLevel []
                 (Sprintf "Agent Init took > %v" [Duration_String (MaxStartupTime st)]);
               mkLog InfoLevel (durationInNs (afterInitDuration st))
                 (Sprintf "Agent AfterInit took %v" [Duration_String (afterInitDuration st)])]
            else if (afterInitDuration st =? defaultTimerValue)%Z then
              [mkLog InfoLevel (durationInNs (initDuration st))
                 (Sprintf "Agent Init took %v" [Duration_String (initDuration st)]);
               mkLog InfoLevel []
                 (Sprintf "Agent AfterInit took > %v" [Duration_String (MaxStartupTime st)])]
            else [] in
          Some (mkStartResult (Some (Sprintf logTimeoutFmt [currentlyProcessing st])) said s')
      | None =>
          let st := startup_ (agent s') in
          let took :=
            [mkLog InfoLevel (durationInNs (initDuration st))
               (Sprintf "Agent Init took %v" [Duration_String (initDuration st)]);
             mkLog InfoLevel (durationInNs (afterInitDuration st))
               (Sprintf "Agent AfterInit took %v" [Duration_String (afterInitDuration st)])] in
          match signal with
          | Some err => Some (mkStartResult (Some err) took s')
          | None =>
              let duration := Duration_add (initDuration st) (afterInitDuration st) in
              Some (mkStartResult None
                      (took ++
                       [mkLog InfoLevel (durationInNs duration)
                          (Sprintf "All plugins initialized successfully, took %v"
                             [Duration_String duration])])
                      s')
          end
      end
  end.

(** The state of a process that has just built its agent. *)
Definition boot (maxStartup : Duration) (ps : list NamedPlugin) (w : World) (now : Z) : State :=
  mkState (NewAgent maxStartup ps) w now [] [].

End AgentCore.

(** ** Runs on small registries *)

Module Sample.

(** A world that counts how many resources are held. *)
Definition held := nat.

Definition ok (took : N) (f : nat -> nat) : Op held := fun w => mkOp None took (f w).
Definition ko (msg : string) (took : N) : Op held := fun w => mkOp (Some msg) took w.

(** Init acquires a resource, Close returns one. *)
Definition good (name : string) : NamedPlugin held :=
  mkNamed name (mkPlugin (ok 5 S) (Some (ok 7 (fun w => w))) (Some (ok 1 pred))).
Definition badInit (name : string) : NamedPlugin held :=
  mkNamed name (mkPlugin (ko "boom" 3) None None).
Definition badAfter (name : string) : NamedPlugin held :=
  mkNamed name (mkPlugin (ok 5 S) (Some (ko "late" 2)) (Some (ok 1 pred))).
Definition badClose (name : string) (msg : string) : NamedPlugin held :=
  mkNamed name (mkPlugin (ok 5 S) None (Some (ko msg 1))).
Definition badBoth (name : string) (msg : string) : NamedPlugin held :=
  mkNamed name (mkPlugin (ko "boom" 3) None (Some (ko msg 1))).

(** [*NamedPlugin] with the [Close] method of the plugin it wraps, and
    without any. *)
Definition promoted (np : NamedPlugin held) : option (Op held) := Close (Plugin_ np).
Definition bare (np : NamedPlugin held) : option (Op held) := None.

Definition nanos (d : Duration) : string := "d".
Definition render (np : NamedPlugin held) : string := PluginName np.
Definition parsed (w : held) : bool := true.
Definition parse (w : held) : held := w.

Definition fresh (w : held) (ps : list (NamedPlugin held)) : State held :=
  boot 100%Z ps w 0%Z.

Definition launched (w : held) (ps : list (NamedPlugin held)) : State held :=
  launch parsed parse "v" "d" (fresh w ps).

Definition start (wrapperClose : NamedPlugin held -> option (Op held)) (race : Race)
  (w : held) (ps : list (NamedPlugin held)) : option (StartResult held) :=
  Start wrapperClose nanos render parsed parse "v" "d" race (fresh w ps).

(** What a run of Start is seen to do: the error returned, the calls made,
    the resources held in the end. *)
Definition outcome (r : option (StartResult held))
  : option (option error * list Event * held) :=
  match r with
  | Some r => Some (returned r, calls (pipeline_end r), world (pipeline_end r))
  | None => None
  end.

(** Whether the error text [e] is in what Start returned or in any entry of
    the log. *)
Definition surfaced (e : error) (r : StartResult held) : bool :=
  (match returned r with Some m => contains e m | None => false end ||
   existsb (fun entry => contains e (message entry))
           (Logger (agent (pipeline_end r)) ++ caller_log r))%bool.

(** What the [startup] fields hold when the timer fires at instant [n]. *)
Definition instant (wrapperClose : NamedPlugin held -> option (Op held)) (n : nat)
  (w : held) (ps : list (NamedPlugin held)) : option startup :=
  match pipeline wrapperClose nanos render (launched w ps) with
  | Some (_, s') => nth_error (instants (launched w ps) s') n
  | None => None
  end.

(** Two calls of Stop in a row: the result and the calls of each. *)
Definition stopTwice (s : State held)
  : option (option error * list Event * option error * list Event) :=
  match Stop s with
  | Some (r1, s1) =>
      match Stop s1 with
      | Some (r2, s2) => Some (r1, calls s1, r2, calls s2)
      | None => None
      end
  | None => None
  end.

Definition initFailsFirst : list (NamedPlugin held) := [badInit "a"; good "b"].
Definition allGood : list (NamedPlugin held) := [good "a"; good "b"].
Definition afterInitFails : list (NamedPlugin held) := [good "a"; badAfter "b"; good "c"].
Definition closeFails : list (NamedPlugin held) :=
  [badClose "a" "disk full"; badBoth "b" "socket busy"; good "c"].
Definition twoClosesFail : list (NamedPlugin held) :=
  [badBoth "a" "disk full"; badClose "b" "socket busy"].
Definition lateAndStuck : list (NamedPlugin held) :=
  [badClose "a" "disk full"; badAfter "b"].
Definition secondFails : list (NamedPlugin held) := [good "a"; badInit "b"].

End Sample.

(** ** What a run is judged by *)

Section Judgements.

Variable World : Type.

(** The error kinds of the agent, by the text that carries them. *)
Definition InitError (render : Duration -> string) (name : string) (cause : error)
  (took : Duration) : error :=
  Sprintf logErrorFmt [name; cause; render took].

Definition AfterInitError (render : Duration -> string) (name : string) (cause : error)
  (took : Duration) : error :=
  Sprintf logAfterErrorFmt [name; cause; render took].

Definition TimeoutError (name : string) : error :=
  Sprintf logTimeoutFmt [name].

(** The duration the agent measures around a call that took [n]
    nanoseconds. *)
Definition measured (n : N) : Duration := Z.min maxDuration (Z.of_N n).

(** The failed releases among observed calls, each with the name of the
    plugin released. *)
Definition blame (ps : list (NamedPlugin World)) (ev : Event) : list (string * error) :=
  match ev_call ev, ev_err ev with
  | CallClose _ i, Some e =>
      match nth_error ps i with
      | Some np => [(PluginName np, e)]
      | None => []
      end
  | _, _ => []
  end.

Definition failures (ps : list (NamedPlugin World)) (evs : list Event)
  : list (string * error) :=
  flat_map (blame ps) evs.

Definition tagged (f : string * error) : string :=
  (fst f ++ (": " ++ snd f))%string.

(** The text of a teardown error: every failure, tagged, joined. *)
Definition aggregate (fs : list (string * error)) : string :=
  String.concat "; " (map tagged fs).

(** How [Stop] builds that text, one failure at a time. *)
Definition accumulate (errMsg : string) (f : string * error) : string :=
  (((if (0 <? String.length errMsg)%nat then errMsg ++ "; " else errMsg)
      ++ fst f) ++ (": " ++ snd f))%string.

(** The error of the last failed call among [evs], or [dflt]. *)
Definition lastFailure (dflt : option error) (evs : list Event) : option error :=
  fold_left (fun acc ev => match ev_err ev with Some e => Some e | None => acc end)
            evs dflt.

Definition succeeded (ev : Event) : Prop := ev_err ev = None.

(** Running operations one after the other while they succeed: the world
    they leave, or [None] as soon as one fails. *)
Fixpoint allSucceed (ops : list (Op World)) (w : World) : option World :=
  match ops with
  | [] => Some w
  | op :: ops' =>
      match op_err (op w) with
      | None => allSucceed ops' (op_world (op w))
      | Some _ => None
      end
  end.

Definition inits (ps : list (NamedPlugin World)) : list (Op World) :=
  map (fun np => Init (Plugin_ np)) ps.

Definition afterInits (ps : list (NamedPlugin World)) : list (Op World) :=
  flat_map (fun np => match AfterInit (Plugin_ np) with Some f => [f] | None => [] end) ps.

(** The indices, from [index] on, of the plugins with the PostInit
    capability. *)
Fixpoint postInitIndices (index : nat) (ps : list (NamedPlugin World)) : list nat :=
  match ps with
  | [] => []
  | np :: ps' =>
      match AfterInit (Plugin_ np) with
      | Some _ => index :: postInitIndices (S index) ps'
      | None => postInitIndices (S index) ps'
      end
  end.

Definition releases (t : Target) (n : nat) : list Call :=
  map (CallClose t) (rev (seq 0 n)).

(** Two states of one run: the registry and the deadline are the same, the
    clock has not gone back, [evs] are the calls made in between and [sn]
    the values written to the [startup] fields. *)
Definition run (s s' : State World) (evs : list Event) (sn : list startup) : Prop :=
  plugins (agent s') = plugins (agent s) /\
  MaxStartupTime (startup_ (agent s')) = MaxStartupTime (startup_ (agent s)) /\
  (clock s <= clock s')%Z /\
  calls s' = calls s ++ evs /\
  snapshots s' = snapshots s ++ sn.

(** The two phase durations of [st'] are those of [st]. *)
Definition sameDurations (st st' : startup) : Prop :=
  initDuration st' = initDuration st /\
  afterInitDuration st' = afterInitDuration st.

(** Between [s] and [s'] no phase duration was written. *)
Definition steady (s s' : State World) (sn : list startup) : Prop :=
  sameDurations (startup_ (agent s)) (startup_ (agent s')) /\
  Forall (sameDurations (startup_ (agent s))) sn.

(** The value of [initPluginCounter] after a loop over [rest] that started
    at [index]. *)
Definition lastIndex (index : nat) (rest : list (NamedPlugin World)) (dflt : nat) : nat :=
  match rest with
  | [] => dflt
  | _ => index + List.length rest - 1
  end.

(** The writes of a phase over a registry of [n] plugins: the sentinel
    stands in the phase's own duration from its first write to its last,
    which sets a duration that is not negative, so not the sentinel; the
    other duration is as it was in [before]. *)
Definition phase1 (before : startup) (n : nat) (mid : list startup) (after : startup)
  : Prop :=
  List.length mid = S n /\
  Forall (fun st => initDuration st = defaultTimerValue /\
                    afterInitDuration st = afterInitDuration before) mid /\
  (0 <= initDuration after <= maxDuration)%Z /\
  afterInitDuration after = afterInitDuration before.

Definition phase2 (before : startup) (n : nat) (mid : list startup) (after : startup)
  : Prop :=
  List.length mid = S n /\
  Forall (fun st => afterInitDuration st = defaultTimerValue /\
                    initDuration st = initDuration before) mid /\
  (0 <= afterInitDuration after <= maxDuration)%Z /\
  initDuration after = initDuration before.

(** The world after releasing the plugins of [order] one after the other,
    [closer] giving the Close method each release finds, if any. *)
Fixpoint released (closer : NamedPlugin World -> option (Op World))
  (order : list (NamedPlugin World)) (w : World) : World :=
  match order with
  | [] => w
  | np :: rest =>
      released closer rest
        (match closer np with Some close => op_world (close w) | None => w end)
  end.

Definition ownClose (np : NamedPlugin World) : option (Op World) := Close (Plugin_ np).

(** What the releases of the first [n] plugins of [ps], from the last of
    them down to the first, are observed to do from world [w]: each release
    returns what the Close method it finds returns in the world the releases
    before it have left, and nil when it finds none. *)
Fixpoint closing (t : Target) (closer : NamedPlugin World -> option (Op World))
  (ps : list (NamedPlugin World)) (n : nat) (w : World) : list Event :=
  match n with
  | O => []
  | S i =>
      match nth_error ps i with
      | Some np =>
          match closer np with
          | Some close =>
              mkEvent (CallClose t i) (op_err (close w))
                :: closing t closer ps i (op_world (close w))
          | None => mkEvent (CallClose t i) None :: closing t closer ps i w
          end
      | None => []
      end
  end.

(** The state the loop of [initPlugins] over the registry ends in, before
    the rollback, if there is one, begins. *)
Definition loopEnd (render : Duration -> string) (s : State World) : State World :=
  snd (initPlugins_loop render 0 (plugins (agent s)) 0 false None
         (set_initDuration defaultTimerValue s)).

(** The entry the rollback of [initPlugins] logs before each release. *)
Definition closingEntry (render : NamedPlugin World -> string) (np : NamedPlugin World)
  : LogEntry :=
  mkLog DebugLevel [] (Sprintf "Closing %v" [render np]).

(** The two entries [Stop] logs around the release observed as [ev]. *)
Definition stopEntries (ps : list (NamedPlugin World)) (ev : Event) : list LogEntry :=
  match ev_call ev with
  | CallClose _ i =>
      match nth_error ps i with
      | Some np =>
          [mkLog DebugLevel (pluginNameField (PluginName np)) "Stopping plugin begin";
           mkLog DebugLevel (pluginNameField (PluginName np))
                 ("Stopping plugin end " ++ Sprint_err (ev_err ev))%string]
      | None => []
      end
  | _ => []
  end.

(** Plugin [np], at index [k], is the first whose Init returns an error,
    [e], when the plugins are initialized in order from world [w]; [w1] is
    the world its Init is called in. *)
Definition firstInitFailure (ps : list (NamedPlugin World)) (w : World) (k : nat)
  (np : NamedPlugin World) (w1 : World) (e : error) : Prop :=
  nth_error ps k = Some np /\
  allSucceed (inits (firstn k ps)) w = Some w1 /\
  op_err (Init (Plugin_ np) w1) = Some e.

(** The same for AfterInit, among the plugins that have one. *)
Definition firstAfterInitFailure (ps : list (NamedPlugin World)) (w : World) (k : nat)
  (np : NamedPlugin World) (afterInit : Op World) (w1 : World) (e : error) : Prop :=
  nth_error ps k = Some np /\
  allSucceed (afterInits (firstn k ps)) w = Some w1 /\
  AfterInit (Plugin_ np) = Some afterInit /\
  op_err (afterInit w1) = Some e.

(** The calls of a run over a registry of [n] plugins are in order: Init on
    the plugins 0, 1, ... up to some index, then, only once all [n] Init
    calls are made, AfterInit on plugins of increasing index, then
    releases. *)
Definition orderly (n : nat) (cs : list Call) : Prop :=
  exists m post closes,
    cs = map CallInit (seq 0 m) ++ map CallAfterInit post ++ closes /\
    m <= n /\
    (post <> [] -> m = n) /\
    StronglySorted lt post /\
    Forall (fun j => j < n) post /\
    Forall (fun c => exists t i, c = CallClose t i) closes.

Definition initialized (i : nat) : Event := mkEvent (CallInit i) None.
Definition afterInitialized (i : nat) : Event := mkEvent (CallAfterInit i) None.

(** The time the operations take, run one after the other until one
    fails (its own time included). *)
Fixpoint elapsed (ops : list (Op World)) (w : World) : N :=
  match ops with
  | [] => 0%N
  | op :: ops' =>
      (op_took (op w) +
       match op_err (op w) with
       | None => elapsed ops' (op_world (op w))
       | Some _ => 0
       end)%N
  end.

(** Two states that differ at most in what has been logged. *)
Definition alike (s t : State World) : Prop :=
  plugins (agent s) = plugins (agent t) /\
  startup_ (agent s) = startup_ (agent t) /\
  world s = world t /\
  clock s = clock t /\
  calls s = calls t /\
  snapshots s = snapshots t.

(** Two results of a method that differ at most in what has been logged. *)
Definition alikeResults (A : Type) (x y : option (A * State World)) : Prop :=
  match x, y with
  | Some (a, s), Some (b, t) => a = b /\ alike s t
  | None, None => True
  | _, _ => False
  end.

(** [st'] differs from [st] at most in [currentlyProcessing]. *)
Definition renamed (st st' : startup) : Prop :=
  MaxStartupTime st' = MaxStartupTime st /\
  initDuration st' = initDuration st /\
  afterInitDuration st' = afterInitDuration st.

End Judgements.

(** ** Properties *)

Section Properties.

Variable World : Type.
Variable NamedPlugin_Close : NamedPlugin World -> option (Op World).
Variable Duration_String : Duration -> string.
Variable NamedPlugin_String : NamedPlugin World -> string.
Variable flag_Parsed : World -> bool.
Variable flag_Parse : World -> World.
Variable BuildVersion : string.
Variable BuildDate : string.

Ltac lists :=
  cbn [app]; rewrite <- ?app_assoc; cbn [app]; rewrite ?app_nil_r; reflexivity.

Lemma run_refl (s : State World) : run s s [] [].
Proof. unfold run. rewrite !app_nil_r. repeat split. lia. Qed.

Lemma run_trans (s1 s2 s3 : State World) (e1 e2 : list Event) (n1 n2 : list startup) :
  run s1 s2 e1 n1 -> run s2 s3 e2 n2 -> run s1 s3 (e1 ++ e2) (n1 ++ n2).
Proof.
  unfold run. intros (P1 & M1 & C1 & E1 & N1) (P2 & M2 & C2 & E2 & N2).
  repeat split; try congruence; try lia.
  - rewrite E2, E1, app_assoc. reflexivity.
  - rewrite N2, N1, app_assoc. reflexivity.
Qed.

Lemma steady_refl (s : State World) : steady s s [].
Proof. unfold steady, sameDurations. auto. Qed.

Lemma steady_trans (s1 s2 s3 : State World) (n1 n2 : list startup) :
  steady s1 s2 n1 -> steady s2 s3 n2 -> steady s1 s3 (n1 ++ n2).
Proof.
  unfold steady, sameDurations. intros ((I1 & A1) & F1) ((I2 & A2) & F2).
  split; [split; congruence|].
  apply Forall_app. split; [exact F1|].
  eapply Forall_impl; [|exact F2]. simpl. intros st (I & A). split; congruence.
Qed.

(** *** Strings *)

Lemma append_assoc (a b c : string) : ((a ++ b) ++ c = a ++ (b ++ c))%string.
Proof. induction a as [|x a IH]; simpl; [reflexivity | now rewrite IH]. Qed.

Lemma length_append (a b : string) :
  String.length (a ++ b) = String.length a + String.length b.
Proof. induction a as [|x a IH]; simpl; [reflexivity | now rewrite IH]. Qed.

Lemma length_tagged (f : string * error) : 0 < String.length (tagged f).
Proof. unfold tagged. rewrite !length_append. simpl. lia. Qed.

Lemma length_accumulate (errMsg : string) (f : string * error) :
  0 < String.length (accumulate errMsg f).
Proof. unfold accumulate. rewrite !length_append. simpl. lia. Qed.

Lemma accumulate_empty (f : string * error) : accumulate EmptyString f = tagged f.
Proof. reflexivity. Qed.

Lemma accumulate_more (errMsg : string) (f : string * error) :
  0 < String.length errMsg ->
  accumulate errMsg f = (errMsg ++ ("; " ++ tagged f))%string.
Proof.
  intros H. unfold accumulate, tagged.
  apply Nat.ltb_lt in H. rewrite H.
  now rewrite !append_assoc.
Qed.

Lemma fold_accumulate_more (fs : list (string * error)) : forall errMsg,
  0 < String.length errMsg ->
  fold_left accumulate fs errMsg =
  match fs with
  | [] => errMsg
  | _ => (errMsg ++ ("; " ++ aggregate fs))%string
  end.
Proof.
  induction fs as [|f fs IH]; intros errMsg H; [reflexivity|].
  simpl fold_left. rewrite IH by apply length_accumulate.
  rewrite accumulate_more by assumption.
  unfold aggregate. destruct fs as [|g fs]; simpl.
  - reflexivity.
  - now rewrite !append_assoc.
Qed.

Lemma fold_accumulate (fs : list (string * error)) :
  fold_left accumulate fs EmptyString = aggregate fs.
Proof.
  destruct fs as [|f fs]; [reflexivity|].
  simpl fold_left. rewrite accumulate_empty.
  rewrite fold_accumulate_more by apply length_tagged.
  unfold aggregate. destruct fs; reflexivity.
Qed.

Lemma length_aggregate (fs : list (string * error)) :
  fs <> [] -> 0 < String.length (aggregate fs).
Proof.
  destruct fs as [|f fs]; [congruence|]. intros _.
  unfold aggregate. simpl. pose proof (length_tagged f).
  destruct (map tagged fs); [assumption|].
  rewrite length_append. lia.
Qed.

(** *** Single steps *)

Lemma safeclose_step (c : Call) (closer : option (Op World)) (s s1 : State World)
  (err : option error) :
  safeclose_Close c closer s = (err, s1) ->
  run s s1 [mkEvent c err] [] /\ agent s1 = agent s /\
  world s1 = match closer with Some close => op_world (close (world s)) | None => world s end /\
  (closer = None -> err = None).
Proof.
  intros H. unfold run.
  destruct closer; simpl in H; inversion H; subst; simpl;
    rewrite ?app_nil_r; repeat split; try lia; discriminate.
Qed.

Lemma firstn_succ_nth (A : Type) (l : list A) : forall (i : nat) (x : A),
  nth_error l i = Some x -> firstn (S i) l = firstn i l ++ [x].
Proof.
  induction l as [|a l IH]; intros [|i] x H; simpl in *; try discriminate.
  - now inversion H.
  - f_equal. now apply IH.
Qed.

Lemma invoke_step (c : Call) (op : Op World) (s s1 : State World) (err : option error) :
  invoke c op s = (err, s1) ->
  run s s1 [mkEvent c err] [] /\ agent s1 = agent s /\
  err = op_err (op (world s)) /\ world s1 = op_world (op (world s)) /\
  clock s1 = (clock s + Z.of_N (op_took (op (world s))))%Z.
Proof.
  intros H. unfold run, invoke in *.
  inversion H; subst; simpl; rewrite ?app_nil_r; repeat split; lia.
Qed.

Lemma releases_S (t : Target) (n : nat) :
  releases t (S n) = CallClose t n :: releases t n.
Proof. unfold releases. rewrite seq_S, rev_app_distr. reflexivity. Qed.

Lemma time_Sub_measured (c : Z) (n : N) : time_Sub (c + Z.of_N n) c = measured n.
Proof.
  unfold time_Sub, measured, minDuration, maxDuration.
  replace (c + Z.of_N n - c)%Z with (Z.of_N n) by lia. lia.
Qed.

Lemma time_Sub_range (t u : Z) : (u <= t)%Z -> (0 <= time_Sub t u <= maxDuration)%Z.
Proof. unfold time_Sub, minDuration, maxDuration. lia. Qed.

(** *** Stop *)

Lemma Stop_loop_spec (n : nat) : forall (errMsg : string) (s : State World),
  n <= List.length (plugins (agent s)) ->
  exists errMsg' s' evs,
    Stop_loop n errMsg s = Some (errMsg', s') /\
    run s s' evs [] /\
    map ev_call evs = releases OnPlugin n /\
    errMsg' = fold_left accumulate (failures (plugins (agent s)) evs) errMsg /\
    startup_ (agent s') = startup_ (agent s) /\
    world s' = released (@ownClose World) (rev (firstn n (plugins (agent s)))) (world s) /\
    Logger (agent s') = Logger (agent s) ++ flat_map (stopEntries (plugins (agent s))) evs /\
    evs = closing OnPlugin (@ownClose World) (plugins (agent s)) n (world s).
Proof.
  induction n as [|i IH]; intros errMsg s Hn.
  - exists errMsg, s, []. simpl. rewrite app_nil_r.
    split; [reflexivity|]. split; [apply run_refl|]. repeat split.
  - simpl Stop_loop.
    destruct (nth_error (plugins (agent s)) i) as [np|] eqn:Hnp.
    2:{ apply nth_error_None in Hnp. lia. }
    set (s0 := Debug (pluginNameField (PluginName np)) "Stopping plugin begin" s).
    destruct (safeclose_Close (CallClose OnPlugin i) (Close (Plugin_ np)) s0)
      as [err s1] eqn:Hc.
    destruct (safeclose_step _ _ _ Hc) as (R1 & A1 & W1 & _).
    match goal with |- context [Stop_loop i ?m ?st] =>
      destruct (IH m st) as (errMsg' & s' & evs & HL & R & HC & HM & HS & HW & HG & HK)
    end.
    { simpl. rewrite A1. simpl. lia. }
    exists errMsg', s', (mkEvent (CallClose OnPlugin i) err :: evs).
    split; [exact HL|].
    split.
    { unfold run in *. cbn in *. rewrite A1 in *. cbn in *.
      destruct R1 as (_ & _ & C1 & E1 & N1). destruct R as (P & M & C & E & N).
      rewrite app_nil_r in *.
      repeat split; try congruence; try lia.
      rewrite E, E1, <- app_assoc. reflexivity. }
    split; [simpl; rewrite HC, releases_S; reflexivity|].
    split.
    { rewrite HM. simpl plugins. rewrite A1. simpl plugins.
      unfold failures. simpl flat_map. rewrite fold_left_app.
      f_equal. unfold blame. simpl. rewrite Hnp.
      destruct err; reflexivity. }
    split; [rewrite HS; simpl; rewrite A1; reflexivity|].
    split.
    { rewrite HW. simpl plugins. rewrite A1. simpl plugins.
      rewrite (firstn_succ_nth _ _ Hnp), rev_app_distr. simpl.
      rewrite W1. reflexivity. }
    split.
    { rewrite HG. simpl plugins. simpl Logger. rewrite A1. simpl.
      unfold stopEntries at 2. simpl. rewrite Hnp. simpl.
      rewrite <- !app_assoc. reflexivity. }
    rewrite HK. simpl plugins. simpl world. rewrite A1. simpl plugins.
    cbn [closing]. rewrite Hnp. change (ownClose np) with (Close (Plugin_ np)).
    unfold safeclose_Close in Hc.
    destruct (Close (Plugin_ np)) as [close|]; inversion Hc; subst; simpl; reflexivity.
Qed.

Lemma Stop_spec (s : State World) :
  exists s' evs,
    Stop s = Some (match failures (plugins (agent s)) evs with
                   | [] => None
                   | fs => Some (aggregate fs)
                   end, s') /\
    run s s' evs [] /\
    map ev_call evs = releases OnPlugin (List.length (plugins (agent s))) /\
    startup_ (agent s') = startup_ (agent s) /\
    world s' = released (@ownClose World) (rev (plugins (agent s))) (world s) /\
    Forall (fun ev => incl (stopEntries (plugins (agent s)) ev) (Logger (agent s'))) evs /\
    evs = closing OnPlugin (@ownClose World) (plugins (agent s))
                  (List.length (plugins (agent s))) (world s).
Proof.
  unfold Stop.
  destruct (@Stop_loop_spec (List.length (plugins (agent s))) EmptyString
              (Info [] "Stopping agent..." s))
    as (errMsg' & s' & evs & HL & R & HC & HM & HS & HW & HG & HK); [simpl; lia|].
  simpl plugins in *. rewrite HL.
  exists (Debug [] "Agent stopped" s'), evs.
  rewrite fold_accumulate in HM.
  split.
  { destruct (failures (plugins (agent s)) evs) as [|f fs] eqn:Hf.
    - subst errMsg'. reflexivity.
    - assert (L : 0 < String.length errMsg').
      { subst errMsg'. apply length_aggregate. congruence. }
      apply Nat.ltb_lt in L. rewrite L. subst errMsg'. reflexivity. }
  split.
  { unfold run in *. cbn in *. destruct R as (P & M & C & E & N).
    repeat split; assumption. }
  split; [exact HC|].
  split; [simpl; rewrite HS; reflexivity|].
  split; [simpl; rewrite HW, firstn_all; reflexivity|].
  split; [|exact HK].
  apply Forall_forall. intros ev Hev entry He.
  simpl. rewrite HG. apply in_or_app. left. apply in_or_app. right.
  apply in_flat_map. exists ev. auto.
Qed.

(** *** Composing runs *)

Lemma run_then (s1 s2 s3 : State World) (e1 e2 e : list Event) (n1 n2 n : list startup) :
  run s1 s2 e1 n1 -> run s2 s3 e2 n2 -> e = e1 ++ e2 -> n = n1 ++ n2 -> run s1 s3 e n.
Proof. intros R1 R2 -> ->. eapply run_trans; eassumption. Qed.

Lemma steady_then (s1 s2 s3 : State World) (n1 n2 n : list startup) :
  steady s1 s2 n1 -> steady s2 s3 n2 -> n = n1 ++ n2 -> steady s1 s3 n.
Proof. intros R1 R2 ->. eapply steady_trans; eassumption. Qed.

Lemma run_write_log (e : LogEntry) (s : State World) : run s (write_log e s) [] [].
Proof. unfold run. simpl. rewrite !app_nil_r. repeat split. lia. Qed.

Lemma steady_agent (s s1 : State World) :
  startup_ (agent s1) = startup_ (agent s) -> steady s s1 [].
Proof. intros H. unfold steady, sameDurations. rewrite H. auto. Qed.

Lemma run_set_currentlyProcessing (name : string) (s : State World) :
  run s (set_currentlyProcessing name s) []
      [startup_ (agent (set_currentlyProcessing name s))].
Proof. unfold run. simpl. rewrite !app_nil_r. repeat split. lia. Qed.

Lemma steady_set_currentlyProcessing (name : string) (s : State World) :
  steady s (set_currentlyProcessing name s)
         [startup_ (agent (set_currentlyProcessing name s))].
Proof. unfold steady, sameDurations. simpl. auto. Qed.

Lemma lastIndex_cons (index dflt : nat) (np : NamedPlugin World)
  (rest : list (NamedPlugin World)) :
  lastIndex (S index) rest index = lastIndex index (np :: rest) dflt.
Proof. destruct rest; simpl; lia. Qed.

(** *** initPlugins *)

(** Once a plugin has failed, the loop only names the plugins left. *)
Lemma initPlugins_loop_skip (rest : list (NamedPlugin World)) :
  forall (index c : nat) (wasError : option error) (s : State World),
  exists s' sn,
    initPlugins_loop Duration_String index rest c true wasError s
      = (lastIndex index rest c, wasError, s') /\
    run s s' [] sn /\ steady s s' sn /\
    world s' = world s /\ List.length sn = List.length rest.
Proof.
  induction rest as [|np rest IH]; intros index c wasError s.
  - exists s, []. simpl. auto using run_refl, steady_refl.
  - cbn [initPlugins_loop].
    set (s0 := set_currentlyProcessing (PluginName np) s).
    set (s1 := Info [] (Sprintf logSkippedFmt [PluginName np]) s0).
    destruct (IH (S index) index wasError s1) as (s' & sn & HL & R & St & W & L).
    exists s', (startup_ (agent s0) :: sn).
    rewrite HL, (lastIndex_cons index c np rest).
    split; [reflexivity|]. split; [|split; [|split]].
    + eapply run_then; [apply run_set_currentlyProcessing| |reflexivity|reflexivity].
      eapply run_then; [apply run_write_log|exact R|reflexivity|reflexivity].
    + eapply steady_then; [apply steady_set_currentlyProcessing| |reflexivity].
      eapply steady_then; [apply steady_agent; reflexivity|exact St|reflexivity].
    + rewrite W. reflexivity.
    + simpl. rewrite L. reflexivity.
Qed.

(** While every Init succeeds, the loop calls Init on each plugin in turn. *)
Lemma initPlugins_loop_ok (rest : list (NamedPlugin World)) :
  forall (index c : nat) (s : State World) (w' : World),
  allSucceed (inits rest) (world s) = Some w' ->
  exists s' sn,
    initPlugins_loop Duration_String index rest c false None s
      = (lastIndex index rest c, None, s') /\
    run s s' (map initialized (seq index (List.length rest))) sn /\ steady s s' sn /\
    world s' = w' /\ List.length sn = List.length rest.
Proof.
  induction rest as [|np rest IH]; intros index c s w' H.
  - exists s, []. simpl in *. inversion H. auto using run_refl, steady_refl.
  - simpl in H.
    destruct (op_err (Init (Plugin_ np) (world s))) eqn:E; [discriminate|].
    cbn [initPlugins_loop].
    set (s0 := set_currentlyProcessing (PluginName np) s).
    destruct (invoke (CallInit index) (Init (Plugin_ np)) s0) as [err s1] eqn:Hi.
    destruct (@invoke_step _ _ _ _ _ Hi) as (R1 & A1 & He & W1 & C1).
    change (world s0) with (world s) in *.
    rewrite E in He. subst err.
    match goal with |- context [initPlugins_loop _ _ rest _ false None ?st] =>
      destruct (IH (S index) index st w') as (s' & sn & HL & R & St & W & L)
    end.
    { simpl. rewrite W1. exact H. }
    exists s', (startup_ (agent s0) :: sn).
    rewrite HL, (lastIndex_cons index c np rest).
    split; [reflexivity|]. split; [|split; [|split]].
    + eapply run_then; [apply run_set_currentlyProcessing| |reflexivity|reflexivity].
      eapply run_then; [exact R1| |reflexivity|reflexivity].
      eapply run_then; [apply run_write_log|exact R|reflexivity|reflexivity].
    + eapply steady_then; [apply steady_set_currentlyProcessing| |reflexivity].
      eapply steady_then; [apply steady_agent; rewrite A1; reflexivity| |reflexivity].
      eapply steady_then; [apply steady_agent; reflexivity|exact St|reflexivity].
    + exact W.
    + simpl. rewrite L. reflexivity.
Qed.

Lemma initPlugins_loop_app (l1 : list (NamedPlugin World)) :
  forall (l2 : list (NamedPlugin World)) (index c : nat) (wasError : option error)
         (s : State World),
  initPlugins_loop Duration_String index (l1 ++ l2) c (negb (isNil wasError)) wasError s =
  let '(c1, wasError1, s1) :=
    initPlugins_loop Duration_String index l1 c (negb (isNil wasError)) wasError s in
  initPlugins_loop Duration_String (index + List.length l1) l2 c1
                   (negb (isNil wasError1)) wasError1 s1.
Proof.
  induction l1 as [|np l1 IH]; intros l2 index c wasError s.
  - simpl. rewrite Nat.add_0_r. reflexivity.
  - cbn [initPlugins_loop app List.length]. rewrite Nat.add_succ_r.
    destruct (negb (isNil wasError)) eqn:F.
    + rewrite <- F. apply IH.
    + destruct (invoke (CallInit index) (Init (Plugin_ np))
                  (set_currentlyProcessing (PluginName np) s)) as [[e|] s1].
      * apply (IH l2 (S index) index (Some _)).
      * rewrite <- F. apply IH.
Qed.

(** The first plugin whose Init fails ends the calls; the loop still runs
    to the end of the registry. *)
Lemma initPlugins_loop_fail (l1 l2 : list (NamedPlugin World)) (np : NamedPlugin World)
  (index c : nat) (s : State World) (w1 : World) (e : error) :
  allSucceed (inits l1) (world s) = Some w1 ->
  op_err (Init (Plugin_ np) w1) = Some e ->
  exists s' sn,
    initPlugins_loop Duration_String index (l1 ++ np :: l2) c false None s
      = (index + List.length l1 + List.length l2,
         Some (InitError Duration_String (PluginName np) e
                 (measured (op_took (Init (Plugin_ np) w1)))),
         s') /\
    run s s' (map initialized (seq index (List.length l1))
              ++ [mkEvent (CallInit (index + List.length l1)) (Some e)]) sn /\
    steady s s' sn /\
    world s' = op_world (Init (Plugin_ np) w1) /\
    List.length sn = List.length (l1 ++ np :: l2).
Proof.
  intros H1 He.
  pose proof (initPlugins_loop_app l1 (np :: l2) index c None s) as A.
  cbn [isNil negb] in A. rewrite A. clear A.
  destruct (initPlugins_loop_ok l1 index c s H1) as (s1 & sn1 & HL & R1 & St1 & W1 & L1).
  rewrite HL. cbn [isNil negb initPlugins_loop].
  set (s2 := set_currentlyProcessing (PluginName np) s1).
  destruct (invoke (CallInit (index + List.length l1)) (Init (Plugin_ np)) s2)
    as [err s3] eqn:Hi.
  destruct (@invoke_step _ _ _ _ _ Hi) as (R3 & A3 & E3 & W3 & C3).
  change (world s2) with (world s1) in *. rewrite W1 in *.
  rewrite He in E3. subst err.
  unfold time_Now, time_Since. rewrite C3, time_Sub_measured.
  match goal with |- context [initPlugins_loop _ _ l2 _ true ?we ?st] =>
    destruct (initPlugins_loop_skip l2 (S (index + List.length l1))
                (index + List.length l1) we st) as (s' & sn & HS & R & St & W & L)
  end.
  exists s', (sn1 ++ startup_ (agent s2) :: sn).
  rewrite HS. split; [|split; [|split; [|split]]].
  - unfold InitError. f_equal. f_equal. destruct l2; simpl; lia.
  - eapply run_then; [exact R1| |reflexivity|reflexivity].
    eapply run_then; [apply run_set_currentlyProcessing| |reflexivity|reflexivity].
    eapply run_then; [exact R3| |reflexivity|reflexivity].
    eapply run_then; [apply run_write_log|exact R|reflexivity|reflexivity].
  - eapply steady_then; [exact St1| |reflexivity].
    eapply steady_then; [apply steady_set_currentlyProcessing| |reflexivity].
    eapply steady_then; [apply steady_agent; rewrite A3; reflexivity| |reflexivity].
    eapply steady_then; [apply steady_agent; reflexivity|exact St|reflexivity].
  - rewrite W. simpl. exact W3.
  - rewrite !length_app. simpl. lia.
Qed.

(** The rollback releases the wrappers from index [n - 1] down to 0 and
    keeps the error of the last release that failed. *)
Lemma rollback_loop_spec (n : nat) : forall (wasError : option error) (s : State World),
  n <= List.length (plugins (agent s)) ->
  exists s' evs,
    rollback_loop NamedPlugin_Close NamedPlugin_String n wasError s
      = Some (lastFailure wasError evs, s') /\
    run s s' evs [] /\
    map ev_call evs = releases OnWrapper n /\
    startup_ (agent s') = startup_ (agent s) /\
    world s' = released NamedPlugin_Close (rev (firstn n (plugins (agent s)))) (world s) /\
    ((forall q, In q (plugins (agent s)) -> NamedPlugin_Close q = None) ->
     Forall (@succeeded) evs) /\
    evs = closing OnWrapper NamedPlugin_Close (plugins (agent s)) n (world s) /\
    Logger (agent s') =
      Logger (agent s)
        ++ map (closingEntry NamedPlugin_String) (rev (firstn n (plugins (agent s)))).
Proof.
  induction n as [|i IH]; intros wasError s Hn.
  - exists s, []. simpl.
    split; [reflexivity|]. split; [apply run_refl|].
    do 3 (split; [reflexivity|]). split; [constructor|].
    split; [reflexivity|]. now rewrite app_nil_r.
  - cbn [rollback_loop].
    destruct (nth_error (plugins (agent s)) i) as [np|] eqn:Hnp.
    2:{ apply nth_error_None in Hnp. lia. }
    set (s0 := Debug [] (Sprintf "Closing %v" [NamedPlugin_String np]) s).
    destruct (safeclose_Close (CallClose OnWrapper i) (NamedPlugin_Close np) s0)
      as [err s1] eqn:Hc.
    destruct (safeclose_step _ _ _ Hc) as (R1 & A1 & W1 & N1).
    match goal with |- context [rollback_loop _ _ i ?we ?st] =>
      destruct (IH we st) as (s' & evs & HL & R & HC & HS & HW & HN & HK & HG)
    end.
    { rewrite A1. simpl. lia. }
    exists s', (mkEvent (CallClose OnWrapper i) err :: evs).
    rewrite HL. split; [|split; [|split; [|split; [|split; [|split; [|split]]]]]].
    + simpl. destruct err; reflexivity.
    + eapply run_then; [apply run_write_log| |reflexivity|reflexivity].
      eapply run_then; [exact R1|exact R|reflexivity|reflexivity].
    + simpl. rewrite HC, releases_S. reflexivity.
    + rewrite HS, A1. reflexivity.
    + rewrite HW, A1. simpl plugins.
      rewrite (firstn_succ_nth _ _ Hnp), rev_app_distr. simpl.
      rewrite W1. reflexivity.
    + intros Hq. constructor.
      * unfold succeeded. simpl. apply N1, Hq. eapply nth_error_In; exact Hnp.
      * apply HN. rewrite A1. exact Hq.
    + rewrite HK. simpl plugins. simpl world. rewrite A1. simpl plugins.
      cbn [closing]. rewrite Hnp.
      unfold safeclose_Close in Hc.
      destruct (NamedPlugin_Close np) as [close|]; inversion Hc; subst; simpl; reflexivity.
    + rewrite HG, A1. simpl plugins. simpl Logger.
      rewrite (firstn_succ_nth _ _ Hnp), rev_app_distr. simpl.
      rewrite <- app_assoc. reflexivity.
Qed.

Lemma initPlugins_writes (s s1 : State World) (sn : list startup) :
  let s0 := set_initDuration defaultTimerValue s in
  (clock s <= clock s1)%Z ->
  steady s0 s1 sn ->
  List.length sn = List.length (plugins (agent s)) ->
  phase1 (startup_ (agent s)) (List.length (plugins (agent s)))
         (startup_ (agent s0) :: sn)
         (startup_ (agent (set_initDuration (time_Sub (clock s1) (clock s)) s1))).
Proof.
  intros s0 C ((I & A) & F) L. unfold phase1. simpl in *.
  split; [now rewrite L|]. split; [|split].
  - constructor; [auto|].
    eapply Forall_impl; [|exact F]. simpl. intros st (I' & A'). auto.
  - now apply time_Sub_range.
  - exact A.
Qed.

Lemma initPlugins_ok (s : State World) (w' : World) :
  allSucceed (inits (plugins (agent s))) (world s) = Some w' ->
  exists s' mid,
    initPlugins NamedPlugin_Close Duration_String NamedPlugin_String s = Some (None, s') /\
    run s s' (map initialized (seq 0 (List.length (plugins (agent s)))))
        (mid ++ [startup_ (agent s')]) /\
    world s' = w' /\
    phase1 (startup_ (agent s)) (List.length (plugins (agent s))) mid (startup_ (agent s')).
Proof.
  intros H. unfold initPlugins.
  set (s0 := set_initDuration defaultTimerValue s).
  destruct (initPlugins_loop_ok (plugins (agent s)) 0 0 s0 H)
    as (s1 & sn & HL & R & St & W & L).
  change (plugins (agent s0)) with (plugins (agent s)). rewrite HL.
  unfold time_Now, time_Since. change (clock s0) with (clock s).
  set (s2 := set_initDuration (time_Sub (clock s1) (clock s)) s1).
  exists s2, (startup_ (agent s0) :: sn).
  split; [reflexivity|]. split; [|split].
  - assert (R0 : run s s0 [] [startup_ (agent s0)]).
    { unfold run. simpl. rewrite !app_nil_r. repeat split. lia. }
    assert (R2 : run s1 s2 [] [startup_ (agent s2)]).
    { unfold run. simpl. rewrite !app_nil_r. repeat split. lia. }
    eapply run_then; [exact R0| |reflexivity|reflexivity].
    eapply run_then; [exact R|exact R2|now rewrite app_nil_r|reflexivity].
  - exact W.
  - apply initPlugins_writes; auto.
    destruct R as (_ & _ & C & _). exact C.
Qed.

Lemma initPlugins_fail (s : State World) (l1 l2 : list (NamedPlugin World))
  (np : NamedPlugin World) (w1 : World) (e : error) :
  plugins (agent s) = l1 ++ np :: l2 ->
  allSucceed (inits l1) (world s) = Some w1 ->
  op_err (Init (Plugin_ np) w1) = Some e ->
  exists s' mid evs,
    initPlugins NamedPlugin_Close Duration_String NamedPlugin_String s
      = Some (lastFailure
                (Some (InitError Duration_String (PluginName np) e
                         (measured (op_took (Init (Plugin_ np) w1))))) evs, s') /\
    run s s' (map initialized (seq 0 (List.length l1))
              ++ mkEvent (CallInit (List.length l1)) (Some e) :: evs)
        (mid ++ [startup_ (agent s')]) /\
    map ev_call evs = releases OnWrapper (List.length (plugins (agent s))) /\
    phase1 (startup_ (agent s)) (List.length (plugins (agent s))) mid (startup_ (agent s')) /\
    world s' = released NamedPlugin_Close (rev (plugins (agent s)))
                 (op_world (Init (Plugin_ np) w1)) /\
    ((forall q, In q (plugins (agent s)) -> NamedPlugin_Close q = None) ->
     Forall (@succeeded) evs) /\
    evs = closing OnWrapper NamedPlugin_Close (plugins (agent s))
                  (List.length (plugins (agent s))) (op_world (Init (Plugin_ np) w1)) /\
    Logger (agent s') =
      Logger (agent (loopEnd Duration_String s))
        ++ map (closingEntry NamedPlugin_String) (rev (plugins (agent s))).
Proof.
  intros P H He. unfold initPlugins.
  set (s0 := set_initDuration defaultTimerValue s).
  destruct (initPlugins_loop_fail l1 l2 np 0 0 s0 H He)
    as (s1 & sn & HL & R & St & W & L).
  change (plugins (agent s0)) with (plugins (agent s)). rewrite P, HL.
  unfold time_Now, time_Since. change (clock s0) with (clock s).
  set (s2 := set_initDuration (time_Sub (clock s1) (clock s)) s1).
  assert (R0 : run s s0 [] [startup_ (agent s0)]).
  { unfold run. simpl. rewrite !app_nil_r. repeat split. lia. }
  assert (R2 : run s1 s2 [] [startup_ (agent s2)]).
  { unfold run. simpl. rewrite !app_nil_r. repeat split. lia. }
  assert (N : S (0 + List.length l1 + List.length l2) = List.length (plugins (agent s))).
  { rewrite P, length_app. simpl. lia. }
  assert (P2 : plugins (agent s2) = plugins (agent s)).
  { destruct R as (Pl & _). simpl. rewrite Pl. reflexivity. }
  destruct (@rollback_loop_spec (S (0 + List.length l1 + List.length l2))
              (Some (InitError Duration_String (PluginName np) e
                       (measured (op_took (Init (Plugin_ np) w1))))) s2)
    as (s' & evs & HR & Rr & HC & HS & HW & HN & HK & HG).
  { rewrite P2. lia. }
  assert (LE : loopEnd Duration_String s = s1).
  { unfold loopEnd. fold s0. rewrite P, HL. reflexivity. }
  rewrite HR. exists s', (startup_ (agent s0) :: sn), evs.
  split; [reflexivity|]. split; [|split; [|split; [|split; [|split; [|split]]]]].
  - rewrite HS.
    eapply run_then; [exact R0| |reflexivity|reflexivity].
    eapply run_then; [exact R| |lists|reflexivity].
    eapply run_then; [exact R2|exact Rr|reflexivity|reflexivity].
  - rewrite HC, N, P. reflexivity.
  - rewrite HS, <- P. apply initPlugins_writes; auto.
    + destruct R as (_ & _ & C & _). exact C.
    + rewrite P. exact L.
  - rewrite HW, N, P2, firstn_all, <- P. simpl world. rewrite W. reflexivity.
  - rewrite P2, P in HN. exact HN.
  - rewrite HK, N, P2, P. simpl world. rewrite W. reflexivity.
  - rewrite HG, N, P2, firstn_all, LE, P. reflexivity.
Qed.

(** *** handleAfterInit *)

Lemma handleAfterInit_loop_skip (rest : list (NamedPlugin World)) :
  forall (index : nat) (wasError : option error) (s : State World),
  exists s' sn,
    handleAfterInit_loop Duration_String index rest true wasError s = (wasError, s') /\
    run s s' [] sn /\ steady s s' sn /\
    world s' = world s /\ List.length sn = List.length rest.
Proof.
  induction rest as [|np rest IH]; intros index wasError s.
  - exists s, []. simpl. auto using run_refl, steady_refl.
  - cbn [handleAfterInit_loop].
    set (s0 := set_currentlyProcessing (PluginName np) s).
    set (s1 := Info [] (Sprintf logAfterSkippedFmt [PluginName np]) s0).
    destruct (IH (S index) wasError s1) as (s' & sn & HL & R & St & W & L).
    exists s', (startup_ (agent s0) :: sn).
    rewrite HL.
    split; [reflexivity|]. split; [|split; [|split]].
    + eapply run_then; [apply run_set_currentlyProcessing| |reflexivity|reflexivity].
      eapply run_then; [apply run_write_log|exact R|reflexivity|reflexivity].
    + eapply steady_then; [apply steady_set_currentlyProcessing| |reflexivity].
      eapply steady_then; [apply steady_agent; reflexivity|exact St|reflexivity].
    + rewrite W. reflexivity.
    + simpl. rewrite L. reflexivity.
Qed.

(** While every AfterInit succeeds, the loop calls it on each plugin that
    has one, in turn. *)
Lemma handleAfterInit_loop_ok (rest : list (NamedPlugin World)) :
  forall (index : nat) (s : State World) (w' : World),
  allSucceed (afterInits rest) (world s) = Some w' ->
  exists s' sn,
    handleAfterInit_loop Duration_String index rest false None s = (None, s') /\
    run s s' (map afterInitialized (postInitIndices index rest)) sn /\ steady s s' sn /\
    world s' = w' /\ List.length sn = List.length rest.
Proof.
  induction rest as [|np rest IH]; intros index s w' H.
  - exists s, []. simpl in *. inversion H. auto using run_refl, steady_refl.
  - unfold afterInits in H. cbn [flat_map] in H. fold (afterInits rest) in H.
    cbn [handleAfterInit_loop postInitIndices].
    set (s0 := set_currentlyProcessing (PluginName np) s).
    destruct (AfterInit (Plugin_ np)) as [afterInit|].
    + cbn [app allSucceed] in H.
      destruct (op_err (afterInit (world s))) eqn:E; [discriminate|].
      destruct (invoke (CallAfterInit index) afterInit s0) as [err s1] eqn:Hi.
      destruct (@invoke_step _ _ _ _ _ Hi) as (R1 & A1 & He & W1 & C1).
      change (world s0) with (world s) in *.
      rewrite E in He. subst err.
      match goal with |- context [handleAfterInit_loop _ _ rest false None ?st] =>
        destruct (IH (S index) st w') as (s' & sn & HL & R & St & W & L)
      end.
      { simpl. rewrite W1. exact H. }
      exists s', (startup_ (agent s0) :: sn).
      rewrite HL.
      split; [reflexivity|]. split; [|split; [|split]].
      * eapply run_then; [apply run_set_currentlyProcessing| |reflexivity|reflexivity].
        eapply run_then; [exact R1| |reflexivity|reflexivity].
        eapply run_then; [apply run_write_log|exact R|reflexivity|reflexivity].
      * eapply steady_then; [apply steady_set_currentlyProcessing| |reflexivity].
        eapply steady_then; [apply steady_agent; rewrite A1; reflexivity| |reflexivity].
        eapply steady_then; [apply steady_agent; reflexivity|exact St|reflexivity].
      * exact W.
      * simpl. rewrite L. reflexivity.
    + cbn [app] in H.
      match goal with |- context [handleAfterInit_loop _ _ rest false None ?st] =>
        destruct (IH (S index) st w') as (s' & sn & HL & R & St & W & L)
      end.
      { exact H. }
      exists s', (startup_ (agent s0) :: sn).
      rewrite HL.
      split; [reflexivity|]. split; [|split; [|split]].
      * eapply run_then; [apply run_set_currentlyProcessing| |reflexivity|reflexivity].
        eapply run_then; [apply run_write_log|exact R|reflexivity|reflexivity].
      * eapply steady_then; [apply steady_set_currentlyProcessing| |reflexivity].
        eapply steady_then; [apply steady_agent; reflexivity|exact St|reflexivity].
      * exact W.
      * simpl. rewrite L. reflexivity.
Qed.

Lemma handleAfterInit_loop_app (l1 : list (NamedPlugin World)) :
  forall (l2 : list (NamedPlugin World)) (index : nat) (wasError : option error)
         (s : State World),
  handleAfterInit_loop Duration_String index (l1 ++ l2) (negb (isNil wasError)) wasError s =
  let '(wasError1, s1) :=
    handleAfterInit_loop Duration_String index l1 (negb (isNil wasError)) wasError s in
  handleAfterInit_loop Duration_String (index + List.length l1) l2
                       (negb (isNil wasError1)) wasError1 s1.
Proof.
  induction l1 as [|np l1 IH]; intros l2 index wasError s.
  - simpl. rewrite Nat.add_0_r. reflexivity.
  - cbn [handleAfterInit_loop app List.length]. rewrite Nat.add_succ_r.
    destruct (negb (isNil wasError)) eqn:F.
    + rewrite <- F. apply IH.
    + destruct (AfterInit (Plugin_ np)) as [afterInit|].
      * destruct (invoke (CallAfterInit index) afterInit
                    (set_currentlyProcessing (PluginName np) s)) as [[e|] s1].
        -- apply (IH l2 (S index) (Some _)).
        -- rewrite <- F. apply IH.
      * rewrite <- F. apply IH.
Qed.

Lemma handleAfterInit_loop_fail (l1 l2 : list (NamedPlugin World)) (np : NamedPlugin World)
  (afterInit : Op World) (index : nat) (s : State World) (w1 : World) (e : error) :
  allSucceed (afterInits l1) (world s) = Some w1 ->
  AfterInit (Plugin_ np) = Some afterInit ->
  op_err (afterInit w1) = Some e ->
  exists s' sn,
    handleAfterInit_loop Duration_String index (l1 ++ np :: l2) false None s
      = (Some (AfterInitError Duration_String (PluginName np) e
                 (measured (op_took (afterInit w1)))),
         s') /\
    run s s' (map afterInitialized (postInitIndices index l1)
              ++ [mkEvent (CallAfterInit (index + List.length l1)) (Some e)]) sn /\
    steady s s' sn /\
    world s' = op_world (afterInit w1) /\
    List.length sn = List.length (l1 ++ np :: l2).
Proof.
  intros H1 Ha He.
  pose proof (handleAfterInit_loop_app l1 (np :: l2) index None s) as A.
  cbn [isNil negb] in A. rewrite A. clear A.
  destruct (handleAfterInit_loop_ok l1 index s H1) as (s1 & sn1 & HL & R1 & St1 & W1 & L1).
  rewrite HL. cbn [isNil negb handleAfterInit_loop]. rewrite Ha. cbv iota beta.
  set (s2 := set_currentlyProcessing (PluginName np) s1).
  destruct (invoke (CallAfterInit (index + List.length l1)) afterInit s2)
    as [err s3] eqn:Hi.
  destruct (@invoke_step _ _ _ _ _ Hi) as (R3 & A3 & E3 & W3 & C3).
  change (world s2) with (world s1) in *. rewrite W1 in *.
  rewrite He in E3. subst err.
  unfold time_Now, time_Since. rewrite C3, time_Sub_measured.
  match goal with |- context [handleAfterInit_loop _ _ l2 true ?we ?st] =>
    destruct (handleAfterInit_loop_skip l2 (S (index + List.length l1)) we st)
      as (s' & sn & HS & R & St & W & L)
  end.
  exists s', (sn1 ++ startup_ (agent s2) :: sn).
  rewrite HS. split; [|split; [|split; [|split]]].
  - unfold AfterInitError. reflexivity.
  - eapply run_then; [exact R1| |reflexivity|reflexivity].
    eapply run_then; [apply run_set_currentlyProcessing| |reflexivity|reflexivity].
    eapply run_then; [exact R3| |reflexivity|reflexivity].
    eapply run_then; [apply run_write_log|exact R|reflexivity|reflexivity].
  - eapply steady_then; [exact St1| |reflexivity].
    eapply steady_then; [apply steady_set_currentlyProcessing| |reflexivity].
    eapply steady_then; [apply steady_agent; rewrite A3; reflexivity| |reflexivity].
    eapply steady_then; [apply steady_agent; reflexivity|exact St|reflexivity].
  - rewrite W. simpl. exact W3.
  - rewrite !length_app. simpl. lia.
Qed.

Lemma handleAfterInit_writes (s s1 : State World) (sn : list startup) :
  let s0 := set_afterInitDuration defaultTimerValue s in
  (clock s <= clock s1)%Z ->
  steady s0 s1 sn ->
  List.length sn = List.length (plugins (agent s)) ->
  phase2 (startup_ (agent s)) (List.length (plugins (agent s)))
         (startup_ (agent s0) :: sn)
         (startup_ (agent (set_afterInitDuration (time_Sub (clock s1) (clock s)) s1))).
Proof.
  intros s0 C ((I & A) & F) L. unfold phase2. simpl in *.
  split; [now rewrite L|]. split; [|split].
  - constructor; [auto|].
    eapply Forall_impl; [|exact F]. simpl. intros st (I' & A'). auto.
  - now apply time_Sub_range.
  - exact I.
Qed.

Lemma handleAfterInit_ok (s : State World) (w' : World) :
  allSucceed (afterInits (plugins (agent s))) (world s) = Some w' ->
  exists s' mid,
    handleAfterInit Duration_String s = Some (None, s') /\
    run s s' (map afterInitialized (postInitIndices 0 (plugins (agent s))))
        (mid ++ [startup_ (agent s')]) /\
    world s' = w' /\
    phase2 (startup_ (agent s)) (List.length (plugins (agent s))) mid (startup_ (agent s')).
Proof.
  intros H. unfold handleAfterInit.
  set (s0 := set_afterInitDuration defaultTimerValue s).
  destruct (handleAfterInit_loop_ok (plugins (agent s)) 0 s0 H)
    as (s1 & sn & HL & R & St & W & L).
  change (plugins (agent s0)) with (plugins (agent s)). rewrite HL.
  unfold time_Now, time_Since. change (clock s0) with (clock s).
  set (s2 := set_afterInitDuration (time_Sub (clock s1) (clock s)) s1).
  exists s2, (startup_ (agent s0) :: sn).
  split; [reflexivity|]. split; [|split].
  - assert (R0 : run s s0 [] [startup_ (agent s0)]).
    { unfold run. simpl. rewrite !app_nil_r. repeat split. lia. }
    assert (R2 : run s1 s2 [] [startup_ (agent s2)]).
    { unfold run. simpl. rewrite !app_nil_r. repeat split. lia. }
    eapply run_then; [exact R0| |reflexivity|reflexivity].
    eapply run_then; [exact R|exact R2|now rewrite app_nil_r|reflexivity].
  - exact W.
  - apply handleAfterInit_writes; auto.
    destruct R as (_ & _ & C & _). exact C.
Qed.

Lemma handleAfterInit_fail (s : State World) (l1 l2 : list (NamedPlugin World))
  (np : NamedPlugin World) (afterInit : Op World) (w1 : World) (e : error) :
  plugins (agent s) = l1 ++ np :: l2 ->
  allSucceed (afterInits l1) (world s) = Some w1 ->
  AfterInit (Plugin_ np) = Some afterInit ->
  op_err (afterInit w1) = Some e ->
  exists s' mid evs,
    handleAfterInit Duration_String s
      = Some (Some (AfterInitError Duration_String (PluginName np) e
                      (measured (op_took (afterInit w1)))), s') /\
    run s s' (map afterInitialized (postInitIndices 0 l1)
              ++ mkEvent (CallAfterInit (List.length l1)) (Some e) :: evs)
        (mid ++ [startup_ (agent s')]) /\
    map ev_call evs = releases OnPlugin (List.length (plugins (agent s))) /\
    phase2 (startup_ (agent s)) (List.length (plugins (agent s))) mid (startup_ (agent s')) /\
    world s' = released (@ownClose World) (rev (plugins (agent s)))
                 (op_world (afterInit w1)) /\
    Forall (fun ev => incl (stopEntries (plugins (agent s)) ev) (Logger (agent s'))) evs /\
    evs = closing OnPlugin (@ownClose World) (plugins (agent s))
                  (List.length (plugins (agent s))) (op_world (afterInit w1)).
Proof.
  intros P H Ha He. unfold handleAfterInit.
  set (s0 := set_afterInitDuration defaultTimerValue s).
  destruct (handleAfterInit_loop_fail l1 l2 np 0 s0 H Ha He)
    as (s1 & sn & HL & R & St & W & L).
  change (plugins (agent s0)) with (plugins (agent s)).
  rewrite P, HL.
  unfold time_Now, time_Since. change (clock s0) with (clock s).
  set (s2 := set_afterInitDuration (time_Sub (clock s1) (clock s)) s1).
  assert (R0 : run s s0 [] [startup_ (agent s0)]).
  { unfold run. simpl. rewrite !app_nil_r. repeat split. lia. }
  assert (R2 : run s1 s2 [] [startup_ (agent s2)]).
  { unfold run. simpl. rewrite !app_nil_r. repeat split. lia. }
  assert (P2 : plugins (agent s2) = plugins (agent s)).
  { destruct R as (Pl & _). simpl. rewrite Pl. reflexivity. }
  destruct (Stop_spec s2) as (s' & evs & HR & Rr & HC & HS & HW & HG & HK).
  rewrite HR. exists s', (startup_ (agent s0) :: sn), evs.
  split; [reflexivity|]. split; [|split; [|split; [|split; [|split]]]].
  - rewrite HS.
    eapply run_then; [exact R0| |reflexivity|reflexivity].
    eapply run_then; [exact R| |lists|reflexivity].
    eapply run_then; [exact R2|exact Rr|reflexivity|reflexivity].
  - rewrite HC, P2, P. reflexivity.
  - rewrite HS, <- P. apply handleAfterInit_writes; auto.
    + destruct R as (_ & _ & C & _). exact C.
    + rewrite P. exact L.
  - rewrite HW, P2, <- P. simpl world. rewrite W. reflexivity.
  - rewrite P2, P in HG. exact HG.
  - rewrite HK, P2, P. simpl world. rewrite W. reflexivity.
Qed.

(** *** The goroutine *)

Lemma lastFailure_Some (evs : list Event) : forall (e : error),
  exists e', lastFailure (Some e) evs = Some e'.
Proof.
  induction evs as [|ev evs IH]; intros e; simpl.
  - now exists e.
  - unfold lastFailure in *. simpl. destruct (ev_err ev); apply IH.
Qed.

Lemma pipeline_init_fail (s : State World) (l1 l2 : list (NamedPlugin World))
  (np : NamedPlugin World) (w1 : World) (e : error) :
  plugins (agent s) = l1 ++ np :: l2 ->
  allSucceed (inits l1) (world s) = Some w1 ->
  op_err (Init (Plugin_ np) w1) = Some e ->
  exists s' mid evs,
    pipeline NamedPlugin_Close Duration_String NamedPlugin_String s
      = Some (lastFailure
                (Some (InitError Duration_String (PluginName np) e
                         (measured (op_took (Init (Plugin_ np) w1))))) evs, s') /\
    run s s' (map initialized (seq 0 (List.length l1))
              ++ mkEvent (CallInit (List.length l1)) (Some e) :: evs)
        (mid ++ [startup_ (agent s')]) /\
    map ev_call evs = releases OnWrapper (List.length (plugins (agent s))) /\
    phase1 (startup_ (agent s)) (List.length (plugins (agent s))) mid (startup_ (agent s')) /\
    world s' = released NamedPlugin_Close (rev (plugins (agent s)))
                 (op_world (Init (Plugin_ np) w1)) /\
    ((forall q, In q (plugins (agent s)) -> NamedPlugin_Close q = None) ->
     Forall (@succeeded) evs) /\
    evs = closing OnWrapper NamedPlugin_Close (plugins (agent s))
                  (List.length (plugins (agent s))) (op_world (Init (Plugin_ np) w1)) /\
    Logger (agent s') =
      Logger (agent (loopEnd Duration_String s))
        ++ map (closingEntry NamedPlugin_String) (rev (plugins (agent s))).
Proof.
  intros P H He.
  destruct (initPlugins_fail s l1 l2 np P H He)
    as (s' & mid & evs & HI & R & HC & Ph & HW & HN & HK & HG).
  exists s', mid, evs. unfold pipeline. rewrite HI.
  destruct (lastFailure_Some evs
              (InitError Duration_String (PluginName np) e
                 (measured (op_took (Init (Plugin_ np) w1))))) as (e' & ->).
  split; [reflexivity|]. split; [exact R|]. split; [exact HC|].
  split; [exact Ph|]. split; [exact HW|]. split; [exact HN|].
  split; [exact HK|exact HG].
Qed.

Lemma pipeline_ok (s : State World) (w1 w2 : World) :
  allSucceed (inits (plugins (agent s))) (world s) = Some w1 ->
  allSucceed (afterInits (plugins (agent s))) w1 = Some w2 ->
  exists s' mid1 st1 mid2,
    pipeline NamedPlugin_Close Duration_String NamedPlugin_String s = Some (None, s') /\
    run s s' (map initialized (seq 0 (List.length (plugins (agent s))))
              ++ map afterInitialized (postInitIndices 0 (plugins (agent s))))
        (mid1 ++ st1 :: mid2 ++ [startup_ (agent s')]) /\
    world s' = w2 /\
    phase1 (startup_ (agent s)) (List.length (plugins (agent s))) mid1 st1 /\
    phase2 st1 (List.length (plugins (agent s))) mid2 (startup_ (agent s')).
Proof.
  intros H1 H2.
  destruct (initPlugins_ok s H1) as (s1 & mid1 & HI & R1 & W1 & Ph1).
  assert (P1 : plugins (agent s1) = plugins (agent s)) by (destruct R1 as (P & _); exact P).
  rewrite <- W1, <- P1 in H2.
  destruct (handleAfterInit_ok s1 H2) as (s' & mid2 & HA & R2 & W2 & Ph2).
  exists s', mid1, (startup_ (agent s1)), mid2.
  unfold pipeline. rewrite HI, HA. rewrite P1 in *.
  split; [reflexivity|]. split; [|auto].
  eapply run_then; [exact R1|exact R2|reflexivity|lists].
Qed.

Lemma pipeline_after_fail (s : State World) (l1 l2 : list (NamedPlugin World))
  (np : NamedPlugin World) (afterInit : Op World) (w1 w2 : World) (e : error) :
  plugins (agent s) = l1 ++ np :: l2 ->
  allSucceed (inits (plugins (agent s))) (world s) = Some w1 ->
  allSucceed (afterInits l1) w1 = Some w2 ->
  AfterInit (Plugin_ np) = Some afterInit ->
  op_err (afterInit w2) = Some e ->
  exists s' mid1 st1 mid2 evs,
    pipeline NamedPlugin_Close Duration_String NamedPlugin_String s
      = Some (Some (AfterInitError Duration_String (PluginName np) e
                      (measured (op_took (afterInit w2)))), s') /\
    run s s' (map initialized (seq 0 (List.length (plugins (agent s))))
              ++ map afterInitialized (postInitIndices 0 l1)
              ++ mkEvent (CallAfterInit (List.length l1)) (Some e) :: evs)
        (mid1 ++ st1 :: mid2 ++ [startup_ (agent s')]) /\
    map ev_call evs = releases OnPlugin (List.length (plugins (agent s))) /\
    phase1 (startup_ (agent s)) (List.length (plugins (agent s))) mid1 st1 /\
    phase2 st1 (List.length (plugins (agent s))) mid2 (startup_ (agent s')) /\
    world s' = released (@ownClose World) (rev (plugins (agent s)))
                 (op_world (afterInit w2)) /\
    Forall (fun ev => incl (stopEntries (plugins (agent s)) ev) (Logger (agent s'))) evs /\
    evs = closing OnPlugin (@ownClose World) (plugins (agent s))
                  (List.length (plugins (agent s))) (op_world (afterInit w2)).
Proof.
  intros P H1 H2 Ha He.
  destruct (initPlugins_ok s H1) as (s1 & mid1 & HI & R1 & W1 & Ph1).
  assert (P1 : plugins (agent s1) = plugins (agent s)) by (destruct R1 as (P' & _); exact P').
  rewrite <- W1 in H2. rewrite <- P1 in P.
  destruct (handleAfterInit_fail s1 l1 l2 np P H2 Ha He)
    as (s' & mid2 & evs & HA & R2 & HC & Ph2 & HW & HG & HK).
  exists s', mid1, (startup_ (agent s1)), mid2, evs.
  unfold pipeline. rewrite HI, HA. rewrite P1 in *.
  split; [reflexivity|].
  split; [|split; [exact HC|split; [exact Ph1|split; [exact Ph2|split; [exact HW|
    split; [exact HG|exact HK]]]]]].
  eapply run_then; [exact R1|exact R2|reflexivity|lists].
Qed.

(** *** Observed releases *)

Lemma releases_in (t : Target) (n : nat) (c : Call) :
  In c (releases t n) -> exists i, c = CallClose t i /\ i < n.
Proof.
  unfold releases. intros H. apply in_map_iff in H. destruct H as (i & <- & Hi).
  apply in_rev, in_seq in Hi. exists i. split; [reflexivity|lia].
Qed.

Lemma released_events (t : Target) (n : nat) (evs : list Event) (ev : Event) :
  map ev_call evs = releases t n -> In ev evs ->
  exists i, ev_call ev = CallClose t i /\ i < n.
Proof.
  intros H Hev. apply releases_in. rewrite <- H. now apply in_map.
Qed.

Lemma blame_failed (ps : list (NamedPlugin World)) (t : Target) (i : nat) (ev : Event)
  (e : error) :
  ev_call ev = CallClose t i -> i < List.length ps -> ev_err ev = Some e ->
  exists np, nth_error ps i = Some np /\ blame ps ev = [(PluginName np, e)].
Proof.
  intros Hc Hi He. destruct (nth_error ps i) as [np|] eqn:Hn.
  - exists np. split; [reflexivity|]. unfold blame. now rewrite Hc, He, Hn.
  - apply nth_error_None in Hn. lia.
Qed.

Lemma failures_none (ps : list (NamedPlugin World)) (t : Target) (n : nat)
  (evs : list Event) :
  map ev_call evs = releases t n -> n <= List.length ps ->
  (failures ps evs = [] <-> Forall (@succeeded) evs).
Proof.
  intros H Hn. split.
  - intros Hf. apply Forall_forall. intros ev Hev. unfold succeeded.
    destruct (ev_err ev) as [e|] eqn:He; [|reflexivity].
    destruct (@released_events t n evs ev H Hev) as (i & Hc & Hi).
    destruct (@blame_failed ps t i ev e Hc) as (np & _ & Hb); [lia|exact He|].
    assert (Hin : In (PluginName np, e) (failures ps evs)).
    { unfold failures. apply in_flat_map. exists ev. rewrite Hb. simpl. auto. }
    rewrite Hf in Hin. destruct Hin.
  - intros Hs. unfold failures. clear H.
    induction evs as [|ev evs IH]; [reflexivity|].
    inversion Hs as [|? ? Hev Hrest]; subst. simpl. rewrite (IH Hrest), app_nil_r.
    unfold blame. unfold succeeded in Hev. rewrite Hev. destruct (ev_call ev); reflexivity.
Qed.

Lemma lastFailure_succeeded (dflt : option error) (evs : list Event) :
  Forall (@succeeded) evs -> lastFailure dflt evs = dflt.
Proof.
  unfold lastFailure. revert dflt.
  induction evs as [|ev evs IH]; intros dflt H; [reflexivity|].
  inversion H as [|? ? Hev Hrest]; subst. simpl.
  unfold succeeded in Hev. rewrite Hev. now apply IH.
Qed.

Lemma lastFailure_app (dflt : option error) (pre post : list Event) :
  lastFailure dflt (pre ++ post) = lastFailure (lastFailure dflt pre) post.
Proof. unfold lastFailure. apply fold_left_app. Qed.

(** When some observed call failed, [lastFailure] is the error of the one
    after which all succeeded. *)
Lemma lastFailure_failed (evs : list Event) : forall (dflt : option error),
  Exists (fun ev => ev_err ev <> None) evs ->
  exists pre ev post e,
    evs = pre ++ ev :: post /\ ev_err ev = Some e /\ Forall (@succeeded) post /\
    lastFailure dflt evs = Some e.
Proof.
  induction evs as [|ev evs IH] using rev_ind; intros dflt H.
  - inversion H.
  - apply Exists_app in H. destruct (ev_err ev) as [e|] eqn:He.
    + exists evs, ev, [], e. rewrite lastFailure_app.
      repeat split; auto. unfold lastFailure. simpl. now rewrite He.
    + destruct H as [H|H].
      * destruct (IH dflt H) as (pre & ev0 & post & e & -> & He0 & Hp & Hl).
        exists pre, ev0, (post ++ [ev]), e.
        split; [now rewrite <- app_assoc|]. split; [exact He0|].
        split; [apply Forall_app; split; [exact Hp|constructor; [exact He|constructor]]|].
        rewrite lastFailure_app, Hl. unfold lastFailure. simpl. now rewrite He.
      * inversion H as [? ? Hx|? ? Hx]; subst; [congruence|inversion Hx].
Qed.

(** *** The caller's side *)

Lemma nth_error_split_at (A : Type) (l : list A) (k : nat) (x : A) :
  nth_error l k = Some x ->
  l = firstn k l ++ x :: skipn (S k) l /\ List.length (firstn k l) = k.
Proof.
  revert k. induction l as [|a l IH]; intros [|k] H; simpl in *; try discriminate.
  - inversion H. auto.
  - destruct (IH k H) as (E & L). split; [f_equal; exact E|now rewrite L].
Qed.

Lemma launch_keeps (s : State World) :
  let s0 := launch flag_Parsed flag_Parse BuildVersion BuildDate s in
  plugins (agent s0) = plugins (agent s) /\ startup_ (agent s0) = startup_ (agent s) /\
  calls s0 = calls s /\ snapshots s0 = snapshots s /\ clock s0 = clock s.
Proof. unfold launch. simpl. destruct (flag_Parsed (world s)); simpl; auto. Qed.

Lemma Start_signal (s s' : State World) (signal : option error) :
  pipeline NamedPlugin_Close Duration_String NamedPlugin_String
    (launch flag_Parsed flag_Parse BuildVersion BuildDate s) = Some (signal, s') ->
  exists r,
    Start NamedPlugin_Close Duration_String NamedPlugin_String
          flag_Parsed flag_Parse BuildVersion BuildDate SignalFirst s = Some r /\
    returned r = signal /\ pipeline_end r = s'.
Proof.
  intros H. unfold Start. rewrite H. cbn [deadline].
  destruct signal; eexists; repeat split.
Qed.

Lemma Start_deadline (s s' : State World) (signal : option error) (n : nat) (st : startup) :
  pipeline NamedPlugin_Close Duration_String NamedPlugin_String
    (launch flag_Parsed flag_Parse BuildVersion BuildDate s) = Some (signal, s') ->
  nth_error (instants (launch flag_Parsed flag_Parse BuildVersion BuildDate s) s') n
    = Some st ->
  exists r,
    Start NamedPlugin_Close Duration_String NamedPlugin_String
          flag_Parsed flag_Parse BuildVersion BuildDate (DeadlineAt n) s = Some r /\
    returned r = Some (TimeoutError (currentlyProcessing st)) /\ pipeline_end r = s'.
Proof.
  intros H Hn. unfold Start, TimeoutError. rewrite H. cbn [deadline]. rewrite Hn.
  eexists. split; [reflexivity|]. split; reflexivity.
Qed.

(** *** Every run is one of three *)

Lemma inits_dichotomy (ps : list (NamedPlugin World)) : forall (w : World),
  (exists w', allSucceed (inits ps) w = Some w') \/
  (exists l1 np l2 w1 e,
     ps = l1 ++ np :: l2 /\ allSucceed (inits l1) w = Some w1 /\
     op_err (Init (Plugin_ np) w1) = Some e).
Proof.
  induction ps as [|a ps IH]; intros w.
  - left. now exists w.
  - destruct (op_err (Init (Plugin_ a) w)) as [e|] eqn:E.
    + right. exists [], a, ps, w, e. auto.
    + destruct (IH (op_world (Init (Plugin_ a) w)))
        as [(w' & H)|(l1 & np & l2 & w1 & e & -> & H & He)].
      * left. exists w'. simpl. now rewrite E.
      * right. exists (a :: l1), np, l2, w1, e. simpl. rewrite E. auto.
Qed.

Lemma afterInits_dichotomy (ps : list (NamedPlugin World)) : forall (w : World),
  (exists w', allSucceed (afterInits ps) w = Some w') \/
  (exists l1 np l2 afterInit w1 e,
     ps = l1 ++ np :: l2 /\ allSucceed (afterInits l1) w = Some w1 /\
     AfterInit (Plugin_ np) = Some afterInit /\ op_err (afterInit w1) = Some e).
Proof.
  induction ps as [|a ps IH]; intros w.
  - left. now exists w.
  - unfold afterInits. cbn [flat_map]. fold (afterInits ps).
    destruct (AfterInit (Plugin_ a)) as [f|] eqn:Ha.
    + destruct (op_err (f w)) as [e|] eqn:E.
      * right. exists [], a, ps, f, w, e. auto.
      * destruct (IH (op_world (f w)))
          as [(w' & H)|(l1 & np & l2 & g & w1 & e & -> & H & Hg & He)].
        -- left. exists w'. simpl. now rewrite E.
        -- right. exists (a :: l1), np, l2, g, w1, e.
           unfold afterInits. cbn [flat_map]. fold (afterInits l1).
           rewrite Ha. simpl. rewrite E. auto.
    + destruct (IH w) as [(w' & H)|(l1 & np & l2 & g & w1 & e & -> & H & Hg & He)].
      * left. exists w'. exact H.
      * right. exists (a :: l1), np, l2, g, w1, e.
        unfold afterInits. cbn [flat_map]. fold (afterInits l1).
        rewrite Ha. auto.
Qed.

Lemma postInitIndices_sorted (ps : list (NamedPlugin World)) : forall (index : nat),
  StronglySorted lt (postInitIndices index ps) /\
  Forall (fun i => index <= i < index + List.length ps) (postInitIndices index ps).
Proof.
  induction ps as [|a ps IH]; intros index; simpl.
  - split; constructor.
  - destruct (IH (S index)) as (S1 & B1).
    assert (B : Forall (fun i => index <= i < index + S (List.length ps))
                  (postInitIndices (S index) ps)).
    { eapply Forall_impl; [|exact B1]. simpl. intros. lia. }
    destruct (AfterInit (Plugin_ a)).
    + split.
      * constructor; [exact S1|]. eapply Forall_impl; [|exact B1]. simpl. intros. lia.
      * constructor; [lia|exact B].
    + split; assumption.
Qed.

Lemma map_initialized (l : list nat) : map ev_call (map initialized l) = map CallInit l.
Proof. rewrite map_map. reflexivity. Qed.

Lemma map_afterInitialized (l : list nat) :
  map ev_call (map afterInitialized l) = map CallAfterInit l.
Proof. rewrite map_map. reflexivity. Qed.

Lemma releases_close (t : Target) (n : nat) :
  Forall (fun c => exists t i, c = CallClose t i) (releases t n).
Proof.
  apply Forall_forall. intros c H. destruct (releases_in _ _ _ H) as (i & -> & _).
  now exists t, i.
Qed.

Lemma phase1_unset (before after : startup) (n : nat) (mid : list startup) :
  phase1 before n mid after ->
  List.length mid = S n /\ Forall (fun st => initDuration st = defaultTimerValue) mid.
Proof.
  intros (L & F & _). split; [exact L|].
  eapply Forall_impl; [|exact F]. simpl. tauto.
Qed.

(** The goroutine never panics, its calls are in order, and the sentinel
    stands in [initDuration] from its first write until the write that ends
    phase 1. *)
Lemma pipeline_cases (s : State World) :
  exists signal s' evs mid rest,
    pipeline NamedPlugin_Close Duration_String NamedPlugin_String s = Some (signal, s') /\
    run s s' evs (mid ++ rest) /\
    orderly (List.length (plugins (agent s))) (map ev_call evs) /\
    List.length mid = S (List.length (plugins (agent s))) /\
    Forall (fun st => initDuration st = defaultTimerValue) mid.
Proof.
  destruct (inits_dichotomy (plugins (agent s)) (world s))
    as [(w1 & H1)|(l1 & np & l2 & w1 & e & P & H1 & He)].
  - destruct (afterInits_dichotomy (plugins (agent s)) w1)
      as [(w2 & H2)|(l1 & np & l2 & f & w2 & e & P & H2 & Hf & He)].
    + destruct (pipeline_ok s H1 H2) as (s' & mid1 & st1 & mid2 & HP & R & _ & Ph1 & _).
      destruct (phase1_unset Ph1) as (L & F).
      eexists None, s', _, mid1, _. split; [exact HP|]. split; [exact R|].
      split; [|split; [exact L|exact F]].
      exists (List.length (plugins (agent s))), (postInitIndices 0 (plugins (agent s))), [].
      rewrite map_app, map_initialized, map_afterInitialized, app_nil_r.
      destruct (postInitIndices_sorted (plugins (agent s)) 0) as (S1 & B1).
      repeat split; auto.
      eapply Forall_impl; [|exact B1]. simpl. intros. lia.
    + destruct (pipeline_after_fail s l1 l2 np P H1 H2 Hf He)
        as (s' & mid1 & st1 & mid2 & evs & HP & R & HC & Ph1 & _).
      destruct (phase1_unset Ph1) as (L & F).
      eexists _, s', _, mid1, _. split; [exact HP|]. split; [exact R|].
      split; [|split; [exact L|exact F]].
      exists (List.length (plugins (agent s))),
             (postInitIndices 0 l1 ++ [List.length l1]),
             (releases OnPlugin (List.length (plugins (agent s)))).
      rewrite !map_app, map_initialized, map_afterInitialized. cbn [map ev_call].
      rewrite HC.
      destruct (postInitIndices_sorted l1 0) as (S1 & B1).
      assert (Hlen : List.length l1 < List.length (plugins (agent s))).
      { rewrite P, length_app. simpl. lia. }
      split; [rewrite <- app_assoc; reflexivity|].
      split; [lia|]. split; [reflexivity|]. split; [|split].
      * clear - S1 B1. induction S1 as [|a l Hs IH Ha]; simpl.
        -- repeat constructor.
        -- inversion B1; subst. constructor; [apply IH; assumption|].
           apply Forall_app. split; [exact Ha|]. constructor; [simpl in *; lia|constructor].
      * apply Forall_app. split.
        -- eapply Forall_impl; [|exact B1]. simpl. intros. lia.
        -- constructor; [exact Hlen|constructor].
      * apply releases_close.
  - destruct (pipeline_init_fail s l1 l2 np P H1 He)
      as (s' & mid & evs & HP & R & HC & Ph & _).
    destruct (phase1_unset Ph) as (L & F).
    eexists _, s', _, mid, _. split; [exact HP|]. split; [exact R|].
    split; [|split; [exact L|exact F]].
    exists (S (List.length l1)), [], (releases OnWrapper (List.length (plugins (agent s)))).
    rewrite map_app, map_initialized. cbn [map ev_call]. rewrite HC.
    split; [rewrite seq_S, map_app, <- app_assoc; reflexivity|].
    split; [rewrite P, length_app; simpl; lia|].
    split; [congruence|]. split; [constructor|]. split; [constructor|].
    apply releases_close.
Qed.

(** *** Runs of Start whose goroutine delivers its signal *)

Lemma launched_init_failure (s : State World) (k : nat) (np : NamedPlugin World)
  (w1 : World) (e : error) :
  firstInitFailure (plugins (agent s))
    (world (launch flag_Parsed flag_Parse BuildVersion BuildDate s)) k np w1 e ->
  exists s' evs,
    pipeline NamedPlugin_Close Duration_String NamedPlugin_String
      (launch flag_Parsed flag_Parse BuildVersion BuildDate s)
      = Some (lastFailure (Some (InitError Duration_String (PluginName np) e
                                   (measured (op_took (Init (Plugin_ np) w1))))) evs,
              s') /\
    calls s' =
      calls s ++ map initialized (seq 0 k) ++ mkEvent (CallInit k) (Some e) :: evs /\
    map ev_call evs = releases OnWrapper (List.length (plugins (agent s))) /\
    world s' =
      released NamedPlugin_Close (rev (plugins (agent s)))
               (op_world (Init (Plugin_ np) w1)) /\
    ((forall q, In q (plugins (agent s)) -> NamedPlugin_Close q = None) ->
     Forall (@succeeded) evs) /\
    evs = closing OnWrapper NamedPlugin_Close (plugins (agent s))
                  (List.length (plugins (agent s))) (op_world (Init (Plugin_ np) w1)) /\
    Logger (agent s') =
      Logger (agent (loopEnd Duration_String
                       (launch flag_Parsed flag_Parse BuildVersion BuildDate s)))
        ++ map (closingEntry NamedPlugin_String) (rev (plugins (agent s))).
Proof.
  intros (Hn & Ha & He).
  destruct (nth_error_split_at _ _ Hn) as (P & L).
  destruct (launch_keeps s) as (Pl & _ & Cl & _).
  set (s0 := launch flag_Parsed flag_Parse BuildVersion BuildDate s) in *.
  assert (P0 : plugins (agent s0) =
               firstn k (plugins (agent s)) ++ np :: skipn (S k) (plugins (agent s)))
    by (rewrite Pl; exact P).
  destruct (pipeline_init_fail s0 _ _ np P0 Ha He)
    as (s' & mid & evs & HP & R & HC & _ & HW & HN & HK & HG).
  exists s', evs. rewrite Pl, L in *.
  split; [exact HP|].
  destruct R as (_ & _ & _ & E & _).
  split; [rewrite E, Cl; reflexivity|].
  split; [exact HC|]. split; [exact HW|]. split; [exact HN|].
  split; [exact HK|exact HG].
Qed.

Lemma launched_afterInit_failure (s : State World) (k : nat) (np : NamedPlugin World)
  (afterInit : Op World) (w1 w2 : World) (e : error) :
  allSucceed (inits (plugins (agent s)))
    (world (launch flag_Parsed flag_Parse BuildVersion BuildDate s)) = Some w1 ->
  firstAfterInitFailure (plugins (agent s)) w1 k np afterInit w2 e ->
  exists s' evs,
    pipeline NamedPlugin_Close Duration_String NamedPlugin_String
      (launch flag_Parsed flag_Parse BuildVersion BuildDate s)
      = Some (Some (AfterInitError Duration_String (PluginName np) e
                      (measured (op_took (afterInit w2)))), s') /\
    calls s' =
      calls s ++ map initialized (seq 0 (List.length (plugins (agent s))))
              ++ map afterInitialized (postInitIndices 0 (firstn k (plugins (agent s))))
              ++ mkEvent (CallAfterInit k) (Some e) :: evs /\
    map ev_call evs = releases OnPlugin (List.length (plugins (agent s))) /\
    world s' =
      released (@ownClose World) (rev (plugins (agent s))) (op_world (afterInit w2)) /\
    Forall (fun ev => incl (stopEntries (plugins (agent s)) ev) (Logger (agent s'))) evs /\
    evs = closing OnPlugin (@ownClose World) (plugins (agent s))
                  (List.length (plugins (agent s))) (op_world (afterInit w2)).
Proof.
  intros H1 (Hn & Ha & Hf & He).
  destruct (nth_error_split_at _ _ Hn) as (P & L).
  destruct (launch_keeps s) as (Pl & _ & Cl & _).
  set (s0 := launch flag_Parsed flag_Parse BuildVersion BuildDate s) in *.
  assert (P0 : plugins (agent s0) =
               firstn k (plugins (agent s)) ++ np :: skipn (S k) (plugins (agent s)))
    by (rewrite Pl; exact P).
  rewrite <- Pl in H1.
  destruct (pipeline_after_fail s0 _ _ np P0 H1 Ha Hf He)
    as (s' & mid1 & st1 & mid2 & evs & HP & R & HC & _ & _ & HW & HG & HK).
  exists s', evs. rewrite Pl, L in *.
  split; [exact HP|].
  destruct R as (_ & _ & _ & E & _).
  split; [rewrite E, Cl; reflexivity|].
  split; [exact HC|]. split; [exact HW|]. split; [exact HG|exact HK].
Qed.

Lemma Start_init_failure (s : State World) (k : nat) (np : NamedPlugin World)
  (w1 : World) (e : error) :
  firstInitFailure (plugins (agent s))
    (world (launch flag_Parsed flag_Parse BuildVersion BuildDate s)) k np w1 e ->
  exists r evs,
    Start NamedPlugin_Close Duration_String NamedPlugin_String
          flag_Parsed flag_Parse BuildVersion BuildDate SignalFirst s = Some r /\
    returned r =
      lastFailure (Some (InitError Duration_String (PluginName np) e
                           (measured (op_took (Init (Plugin_ np) w1))))) evs /\
    calls (pipeline_end r) =
      calls s ++ map initialized (seq 0 k) ++ mkEvent (CallInit k) (Some e) :: evs /\
    map ev_call evs = releases OnWrapper (List.length (plugins (agent s))) /\
    world (pipeline_end r) =
      released NamedPlugin_Close (rev (plugins (agent s)))
               (op_world (Init (Plugin_ np) w1)) /\
    ((forall q, In q (plugins (agent s)) -> NamedPlugin_Close q = None) ->
     Forall (@succeeded) evs) /\
    evs = closing OnWrapper NamedPlugin_Close (plugins (agent s))
                  (List.length (plugins (agent s))) (op_world (Init (Plugin_ np) w1)).
Proof.
  intros H.
  destruct (launched_init_failure s H) as (s' & evs & HP & HC & HR & HW & HN & HK & _).
  destruct (Start_signal s HP) as (r & HS & Hr & He').
  exists r, evs. rewrite He', Hr.
  split; [exact HS|]. split; [reflexivity|]. split; [exact HC|].
  split; [exact HR|]. split; [exact HW|]. split; [exact HN|exact HK].
Qed.

Lemma Start_total (s s' : State World) (signal : option error) (race : Race) :
  pipeline NamedPlugin_Close Duration_String NamedPlugin_String
    (launch flag_Parsed flag_Parse BuildVersion BuildDate s) = Some (signal, s') ->
  exists r,
    Start NamedPlugin_Close Duration_String NamedPlugin_String
          flag_Parsed flag_Parse BuildVersion BuildDate race s = Some r /\
    pipeline_end r = s'.
Proof.
  intros H. unfold Start. rewrite H.
  destruct (deadline race _ s'); [|destruct signal]; eexists; split; reflexivity.
Qed.

Lemma skipn_length_app (A : Type) (l l' : list A) : skipn (List.length l) (l ++ l') = l'.
Proof. induction l as [|a l IH]; [reflexivity|exact IH]. Qed.




Lemma Duration_add_exact (a b : Duration) :
  (minDuration <= a + b <= maxDuration)%Z -> Duration_add a b = (a + b)%Z.
Proof.
  unfold Duration_add, wrap64, minDuration, maxDuration. intros H.
  rewrite Z.mod_small; lia.
Qed.

Lemma postInitIndices_firstn (ps : list (NamedPlugin World)) (k j : nat) :
  In j (postInitIndices 0 (firstn k ps)) -> j < k.
Proof.
  intros H. destruct (postInitIndices_sorted (firstn k ps) 0) as (_ & B).
  rewrite Forall_forall in B. specialize (B j H).
  pose proof (firstn_le_length k ps). lia.
Qed.

(** *** Stop *)

(** C4. Stop invokes release on every plugin, in strict reverse registry
    order, whatever the earlier releases returned: each release runs the
    plugin's own Close in the world the releases before it have left, and
    what it returns is the result of that release.  Stop's error is the
    aggregate of all the failures, each tagged with the name of its plugin;
    it is nil exactly when every release succeeded, and so on an empty
    registry. *)
Theorem C4_Stop_releases_all_and_aggregates (s : State World) :
  exists r s' evs,
    Stop s = Some (r, s') /\
    calls s' = calls s ++ evs /\
    map ev_call evs = releases OnPlugin (List.length (plugins (agent s))) /\
    evs = closing OnPlugin (@ownClose World) (plugins (agent s))
                  (List.length (plugins (agent s))) (world s) /\
    world s' = released (@ownClose World) (rev (plugins (agent s))) (world s) /\
    r = match failures (plugins (agent s)) evs with
        | [] => None
        | fs => Some (aggregate fs)
        end /\
    (forall ev e, In ev evs -> ev_err ev = Some e ->
       exists i np,
         ev_call ev = CallClose OnPlugin i /\
         nth_error (plugins (agent s)) i = Some np /\
         In (PluginName np, e) (failures (plugins (agent s)) evs)) /\
    (r = None <-> Forall (@succeeded) evs) /\
    (plugins (agent s) = [] -> r = None).
Proof.
  destruct (Stop_spec s) as (s' & evs & HS & R & HC & _ & HW & _ & HK).
  eexists _, s', evs. split; [exact HS|].
  destruct R as (_ & _ & _ & E & _). split; [exact E|]. split; [exact HC|].
  split; [exact HK|]. split; [exact HW|].
  split; [reflexivity|].
  pose proof (@failures_none (plugins (agent s)) OnPlugin _ evs HC (le_n _)) as Hnone.
  split; [|split].
  - intros ev e Hev He.
    destruct (@released_events OnPlugin _ evs ev HC Hev) as (i & Hc & Hi).
    destruct (@blame_failed (plugins (agent s)) OnPlugin i ev e Hc Hi He) as (np & Hn & Hb).
    exists i, np. split; [exact Hc|]. split; [exact Hn|].
    unfold failures. apply in_flat_map. exists ev. rewrite Hb. simpl. auto.
  - rewrite <- Hnone.
    destruct (failures (plugins (agent s)) evs); split; intros Hx;
      try reflexivity; discriminate Hx.
  - intros Hp. rewrite Hp in HC. simpl in HC.
    destruct evs; [reflexivity|discriminate].
Qed.

(** C9, as the code has it.  Stop keeps no record of what it has released:
    a second Stop invokes release on every plugin again, in the same
    reverse order. *)
Theorem C9_second_Stop_releases_again (s : State World) :
  exists r1 s1 r2 s2 evs1 evs2,
    Stop s = Some (r1, s1) /\
    Stop s1 = Some (r2, s2) /\
    calls s2 = calls s ++ evs1 ++ evs2 /\
    map ev_call evs1 = releases OnPlugin (List.length (plugins (agent s))) /\
    map ev_call evs2 = releases OnPlugin (List.length (plugins (agent s))).
Proof.
  destruct (Stop_spec s) as (s1 & evs1 & HS1 & R1 & HC1 & _).
  destruct (Stop_spec s1) as (s2 & evs2 & HS2 & R2 & HC2 & _).
  destruct R1 as (P1 & _ & _ & E1 & _). destruct R2 as (_ & _ & _ & E2 & _).
  rewrite P1 in HC2.
  eexists _, s1, _, s2, evs1, evs2.
  split; [exact HS1|]. split; [rewrite P1 in HS2; exact HS2|].
  split; [rewrite E2, E1, app_assoc; reflexivity|]. auto.
Qed.

(** *** Phase 1 *)

(** C7. The releases of the rollback that follows a failed Init return what
    the Close methods found on the wrappers return.  When one of them fails,
    Start returns the error of the last release that failed, as the release
    returned it, and nothing of the init error; the init error is returned
    only when every release of the rollback succeeded. *)
Theorem C7_release_error_replaces_init_error (s : State World) (k : nat)
  (np : NamedPlugin World) (w1 : World) (e : error) :
  firstInitFailure (plugins (agent s))
    (world (launch flag_Parsed flag_Parse BuildVersion BuildDate s)) k np w1 e ->
  exists r evs,
    Start NamedPlugin_Close Duration_String NamedPlugin_String
          flag_Parsed flag_Parse BuildVersion BuildDate SignalFirst s = Some r /\
    calls (pipeline_end r) =
      calls s ++ map initialized (seq 0 k) ++ mkEvent (CallInit k) (Some e) :: evs /\
    map ev_call evs = releases OnWrapper (List.length (plugins (agent s))) /\
    evs = closing OnWrapper NamedPlugin_Close (plugins (agent s))
                  (List.length (plugins (agent s))) (op_world (Init (Plugin_ np) w1)) /\
    returned r =
      lastFailure (Some (InitError Duration_String (PluginName np) e
                           (measured (op_took (Init (Plugin_ np) w1))))) evs /\
    (Exists (fun ev => ev_err ev <> None) evs ->
     exists pre ev post e',
       evs = pre ++ ev :: post /\ ev_err ev = Some e' /\ Forall (@succeeded) post /\
       returned r = Some e') /\
    (Forall (@succeeded) evs ->
     returned r = Some (InitError Duration_String (PluginName np) e
                          (measured (op_took (Init (Plugin_ np) w1))))).
Proof.
  intros H.
  destruct (Start_init_failure s H) as (r & evs & HS & Hr & HC & HR & _ & _ & HK).
  exists r, evs. rewrite Hr.
  split; [exact HS|]. split; [exact HC|]. split; [exact HR|]. split; [exact HK|].
  split; [reflexivity|]. split.
  - intros Hex. apply lastFailure_failed. exact Hex.
  - intros Hall. apply lastFailure_succeeded. exact Hall.
Qed.


(** *** Both phases *)

(** C2. When every Init and every AfterInit succeeds and the goroutine's
    signal is the one received, Start returns nil, both phase durations end
    up set to a value that is not the sentinel, and the total Start reports
    is their sum (the int64 sum, which is the exact sum unless it passes the
    largest Duration). *)
Theorem C2_Start_succeeds (s : State World) (w1 w2 : World) :
  allSucceed (inits (plugins (agent s)))
    (world (launch flag_Parsed flag_Parse BuildVersion BuildDate s)) = Some w1 ->
  allSucceed (afterInits (plugins (agent s))) w1 = Some w2 ->
  exists r i a,
    Start NamedPlugin_Close Duration_String NamedPlugin_String
          flag_Parsed flag_Parse BuildVersion BuildDate SignalFirst s = Some r /\
    returned r = None /\
    world (pipeline_end r) = w2 /\
    initDuration (startup_ (agent (pipeline_end r))) = i /\
    afterInitDuration (startup_ (agent (pipeline_end r))) = a /\
    i <> defaultTimerValue /\
    a <> defaultTimerValue /\
    In (mkLog InfoLevel (durationInNs (Duration_add i a))
          (Sprintf "All plugins initialized successfully, took %v"
             [Duration_String (Duration_add i a)]))
       (caller_log r) /\
    ((i + a <= maxDuration)%Z -> Duration_add i a = (i + a)%Z).
Proof.
  intros H1 H2.
  destruct (launch_keeps s) as (Pl & _).
  set (s0 := launch flag_Parsed flag_Parse BuildVersion BuildDate s) in *.
  rewrite <- Pl in H1, H2.
  destruct (pipeline_ok s0 H1 H2) as (s' & mid1 & st1 & mid2 & HP & _ & W & Ph1 & Ph2).
  destruct Ph1 as (_ & _ & I1 & _). destruct Ph2 as (_ & _ & A2 & I2).
  unfold Start. fold s0. rewrite HP. cbn [deadline].
  eexists _, _, _. split; [reflexivity|]. cbn [returned pipeline_end caller_log].
  split; [reflexivity|]. split; [exact W|].
  split; [reflexivity|]. split; [reflexivity|].
  cbn [returned pipeline_end caller_log].
  rewrite I2. unfold defaultTimerValue.
  split; [lia|]. split; [lia|]. split.
  - apply in_or_app. right. left. reflexivity.
  - intros Hsum. apply Duration_add_exact. unfold minDuration. lia.
Qed.

(** C3. When every Init succeeds and the plugin at index [k] is the first
    whose AfterInit returns an error, AfterInit is invoked on no plugin
    after [k], Stop's teardown then releases the whole registry, from the
    last plugin down to the first, each release running the plugin's own
    Close in the world the failed AfterInit and the releases before it have
    left, and Start returns the AfterInitError that names plugin [k]. *)
Theorem C3_AfterInit_failure_stops_everything (s : State World) (k : nat)
  (np : NamedPlugin World) (afterInit : Op World) (w1 w2 : World) (e : error) :
  allSucceed (inits (plugins (agent s)))
    (world (launch flag_Parsed flag_Parse BuildVersion BuildDate s)) = Some w1 ->
  firstAfterInitFailure (plugins (agent s)) w1 k np afterInit w2 e ->
  exists r evs,
    Start NamedPlugin_Close Duration_String NamedPlugin_String
          flag_Parsed flag_Parse BuildVersion BuildDate SignalFirst s = Some r /\
    returned r = Some (AfterInitError Duration_String (PluginName np) e
                         (measured (op_took (afterInit w2)))) /\
    calls (pipeline_end r) =
      calls s ++ map initialized (seq 0 (List.length (plugins (agent s))))
              ++ map afterInitialized (postInitIndices 0 (firstn k (plugins (agent s))))
              ++ mkEvent (CallAfterInit k) (Some e) :: evs /\
    map ev_call evs = releases OnPlugin (List.length (plugins (agent s))) /\
    evs = closing OnPlugin (@ownClose World) (plugins (agent s))
                  (List.length (plugins (agent s))) (op_world (afterInit w2)) /\
    world (pipeline_end r) =
      released (@ownClose World) (rev (plugins (agent s))) (op_world (afterInit w2)) /\
    (forall j, k < j ->
       ~ In (CallAfterInit j)
            (map ev_call
               (map initialized (seq 0 (List.length (plugins (agent s))))
                ++ map afterInitialized (postInitIndices 0 (firstn k (plugins (agent s))))
                ++ mkEvent (CallAfterInit k) (Some e) :: evs))).
Proof.
  intros H1 H2.
  destruct (launched_afterInit_failure s H1 H2)
    as (s' & evs & HP & HC & HR & HW & _ & HK).
  destruct (Start_signal s HP) as (r & HS & Hr & He').
  exists r, evs. rewrite He', Hr.
  split; [exact HS|]. split; [reflexivity|]. split; [exact HC|]. split; [exact HR|].
  split; [exact HK|]. split; [exact HW|].
  intros j Hj Hin.
  rewrite !map_app, map_initialized, map_afterInitialized in Hin.
  cbn [map ev_call] in Hin. rewrite HR in Hin.
  apply in_app_or in Hin. destruct Hin as [Hin|Hin].
  { apply in_map_iff in Hin. destruct Hin as (i & Hi & _). discriminate Hi. }
  apply in_app_or in Hin. destruct Hin as [Hin|Hin].
  { apply in_map_iff in Hin. destruct Hin as (i & Hi & Hpost).
    inversion Hi; subst i. apply postInitIndices_firstn in Hpost. lia. }
  destruct Hin as [Hin|Hin].
  { inversion Hin. lia. }
  destruct (releases_in _ _ _ Hin) as (i & Hi & _). discriminate Hi.
Qed.

(** C5. In every execution of Start the plugin operations are made one
    after the other, in this order: Init on the plugins in registry order;
    then, and only when Init has been called on all of them, AfterInit on
    plugins of increasing index; releases come last. *)
Theorem C5_operations_in_registry_order (race : Race) (s : State World) :
  exists r evs,
    Start NamedPlugin_Close Duration_String NamedPlugin_String
          flag_Parsed flag_Parse BuildVersion BuildDate race s = Some r /\
    calls (pipeline_end r) = calls s ++ evs /\
    orderly (List.length (plugins (agent s))) (map ev_call evs).
Proof.
  destruct (launch_keeps s) as (Pl & _ & Cl & _).
  destruct (pipeline_cases (launch flag_Parsed flag_Parse BuildVersion BuildDate s))
    as (signal & s' & evs & mid & rest & HP & R & HO & _).
  destruct (Start_total s race HP) as (r & HS & He).
  exists r, evs. rewrite He. rewrite Pl in HO.
  destruct R as (_ & _ & _ & E & _).
  split; [exact HS|]. split; [rewrite E, Cl; reflexivity|exact HO].
Qed.

(** *** The deadline *)

(** C6, as the code has it.  The goroutine always runs to its end, whatever
    the timer does.  When the timer fires at an instant of its run, Start
    returns the timeout error that names what [currentlyProcessing] holds at
    that instant, and the signal the goroutine ends with is not what Start
    returns.  From the goroutine's first write until the write that ends
    phase 1, [initDuration] holds the sentinel. *)
Theorem C6_deadline_names_the_plugin_in_flight (s : State World) :
  exists signal s' r0,
    pipeline NamedPlugin_Close Duration_String NamedPlugin_String
      (launch flag_Parsed flag_Parse BuildVersion BuildDate s) = Some (signal, s') /\
    Start NamedPlugin_Close Duration_String NamedPlugin_String
          flag_Parsed flag_Parse BuildVersion BuildDate SignalFirst s = Some r0 /\
    returned r0 = signal /\ pipeline_end r0 = s' /\
    forall n st,
      nth_error (instants (launch flag_Parsed flag_Parse BuildVersion BuildDate s) s') n
        = Some st ->
      exists r,
        Start NamedPlugin_Close Duration_String NamedPlugin_String
              flag_Parsed flag_Parse BuildVersion BuildDate (DeadlineAt n) s = Some r /\
        returned r = Some (TimeoutError (currentlyProcessing st)) /\
        pipeline_end r = s' /\
        (1 <= n <= S (List.length (plugins (agent s))) ->
         initDuration st = defaultTimerValue).
Proof.
  destruct (launch_keeps s) as (Pl & _).
  destruct (pipeline_cases (launch flag_Parsed flag_Parse BuildVersion BuildDate s))
    as (signal & s' & evs & mid & rest & HP & R & _ & L & F).
  destruct (Start_signal s HP) as (r0 & HS0 & Hr0 & He0).
  exists signal, s', r0.
  split; [exact HP|]. split; [exact HS0|]. split; [exact Hr0|]. split; [exact He0|].
  intros n st Hn.
  destruct (Start_deadline s n HP Hn) as (r & HS & Hr & He).
  exists r. split; [exact HS|]. split; [exact Hr|]. split; [exact He|].
  intros (Hlo & Hhi).
  unfold instants in Hn. destruct R as (_ & _ & _ & _ & N).
  rewrite N, skipn_length_app in Hn.
  destruct n as [|n']; [lia|]. cbn [nth_error] in Hn.
  rewrite Pl in L.
  rewrite nth_error_app1 in Hn by lia.
  apply nth_error_In in Hn. rewrite Forall_forall in F. exact (F st Hn).
Qed.

(** *** Errors *)

(** C8, as the code has it.  Start returns the error the goroutine delivers,
    exactly as delivered, and logs the two phase durations beside it.  The
    errors of the releases of an automatic teardown are not all returned:
    after a failed AfterInit Start returns the AfterInitError alone, the
    result of Stop is dropped and each release is only written to the log
    by Stop; after a failed Init Start returns the error of the last
    release that failed, or else the InitError, and all that is logged from
    the end of the loop over the plugins on is one entry per release that
    names the wrapper, whatever the release returns. *)
Theorem C8_Start_returns_the_pipeline_error (s : State World) :
  exists signal s' r,
    pipeline NamedPlugin_Close Duration_String NamedPlugin_String
      (launch flag_Parsed flag_Parse BuildVersion BuildDate s) = Some (signal, s') /\
    Start NamedPlugin_Close Duration_String NamedPlugin_String
          flag_Parsed flag_Parse BuildVersion BuildDate SignalFirst s = Some r /\
    returned r = signal /\ pipeline_end r = s' /\
    (signal <> None ->
     caller_log r =
       [mkLog InfoLevel (durationInNs (initDuration (startup_ (agent s'))))
          (Sprintf "Agent Init took %v"
             [Duration_String (initDuration (startup_ (agent s')))]);
        mkLog InfoLevel (durationInNs (afterInitDuration (startup_ (agent s'))))
          (Sprintf "Agent AfterInit took %v"
             [Duration_String (afterInitDuration (startup_ (agent s')))])]) /\
    (forall k np afterInit w1 w2 e,
       allSucceed (inits (plugins (agent s)))
         (world (launch flag_Parsed flag_Parse BuildVersion BuildDate s)) = Some w1 ->
       firstAfterInitFailure (plugins (agent s)) w1 k np afterInit w2 e ->
       signal = Some (AfterInitError Duration_String (PluginName np) e
                        (measured (op_took (afterInit w2)))) /\
       exists evs,
         calls s' =
           calls s ++ map initialized (seq 0 (List.length (plugins (agent s))))
             ++ map afterInitialized (postInitIndices 0 (firstn k (plugins (agent s))))
             ++ mkEvent (CallAfterInit k) (Some e) :: evs /\
         map ev_call evs = releases OnPlugin (List.length (plugins (agent s))) /\
         evs = closing OnPlugin (@ownClose World) (plugins (agent s))
                       (List.length (plugins (agent s))) (op_world (afterInit w2)) /\
         Forall (fun ev => incl (stopEntries (plugins (agent s)) ev) (Logger (agent s')))
                evs) /\
    (forall k np w1 e,
       firstInitFailure (plugins (agent s))
         (world (launch flag_Parsed flag_Parse BuildVersion BuildDate s)) k np w1 e ->
       exists evs,
         calls s' =
           calls s ++ map initialized (seq 0 k) ++ mkEvent (CallInit k) (Some e) :: evs /\
         map ev_call evs = releases OnWrapper (List.length (plugins (agent s))) /\
         evs = closing OnWrapper NamedPlugin_Close (plugins (agent s))
                       (List.length (plugins (agent s)))
                       (op_world (Init (Plugin_ np) w1)) /\
         signal = lastFailure
                    (Some (InitError Duration_String (PluginName np) e
                             (measured (op_took (Init (Plugin_ np) w1))))) evs /\
         Logger (agent s') =
           Logger (agent (loopEnd Duration_String
                            (launch flag_Parsed flag_Parse BuildVersion BuildDate s)))
             ++ map (closingEntry NamedPlugin_String) (rev (plugins (agent s)))).
Proof.
  destruct (pipeline_cases (launch flag_Parsed flag_Parse BuildVersion BuildDate s))
    as (signal & s' & evs0 & mid & rest & HP & _).
  destruct (Start_signal s HP) as (r & HS & Hr & He).
  exists signal, s', r.
  split; [exact HP|]. split; [exact HS|]. split; [exact Hr|]. split; [exact He|].
  split; [|split].
  - intros Hsig. unfold Start in HS. rewrite HP in HS. cbn [deadline] in HS.
    destruct signal as [e0|]; [|congruence].
    inversion HS. reflexivity.
  - intros k np afterInit w1 w2 e H1 H2.
    destruct (launched_afterInit_failure s H1 H2)
      as (s2 & evs & HP2 & HC & HR & _ & HG & HK).
    rewrite HP in HP2. inversion HP2; subst s2.
    split; [reflexivity|]. exists evs.
    split; [exact HC|]. split; [exact HR|]. split; [exact HK|exact HG].
  - intros k np w1 e H.
    destruct (launched_init_failure s H) as (s2 & evs & HP2 & HC & HR & _ & _ & HK & HG).
    rewrite HP in HP2. inversion HP2; subst s2.
    exists evs.
    split; [exact HC|]. split; [exact HR|]. split; [exact HK|].
    split; [reflexivity|exact HG].
Qed.

(** ** Further properties of the agent's methods *)

Lemma in_releases (t : Target) (n j : nat) : j < n -> In (CallClose t j) (releases t n).
Proof.
  intros H. unfold releases. apply in_map. rewrite <- in_rev. apply in_seq. lia.
Qed.

(** X1.  The rollback after a failed Init releases the wrapper of every
    plugin of the registry, from the last down to the first: also of the
    plugins after the failing one, on which Init was never called. *)
Theorem rollback_covers_the_registry (s : State World) (k : nat)
  (np : NamedPlugin World) (w1 : World) (e : error) :
  firstInitFailure (plugins (agent s))
    (world (launch flag_Parsed flag_Parse BuildVersion BuildDate s)) k np w1 e ->
  exists r evs,
    Start NamedPlugin_Close Duration_String NamedPlugin_String
          flag_Parsed flag_Parse BuildVersion BuildDate SignalFirst s = Some r /\
    calls (pipeline_end r) =
      calls s ++ map initialized (seq 0 k) ++ mkEvent (CallInit k) (Some e) :: evs /\
    map ev_call evs = releases OnWrapper (List.length (plugins (agent s))) /\
    (forall j, j < List.length (plugins (agent s)) ->
       In (CallClose OnWrapper j) (map ev_call evs)) /\
    (forall j, k < j ->
       ~ In (CallInit j)
            (map ev_call (map initialized (seq 0 k)
                          ++ mkEvent (CallInit k) (Some e) :: evs))).
Proof.
  intros H.
  destruct (Start_init_failure s H) as (r & evs & HS & _ & HC & HR & _).
  exists r, evs.
  split; [exact HS|]. split; [exact HC|]. split; [exact HR|]. split.
  - intros j Hj. rewrite HR. now apply in_releases.
  - intros j Hj Hin. rewrite map_app, map_initialized in Hin. cbn [map ev_call] in Hin.
    rewrite HR in Hin. apply in_app_or in Hin. destruct Hin as [Hin|[Hin|Hin]].
    + apply in_map_iff in Hin. destruct Hin as (i & Hi & Hs).
      inversion Hi; subst i. apply in_seq in Hs. lia.
    + inversion Hin. lia.
    + destruct (releases_in _ _ _ Hin) as (i & Hi & _). discriminate Hi.
Qed.

Lemma Start_success (s : State World) (w1 w2 : World) :
  allSucceed (inits (plugins (agent s)))
    (world (launch flag_Parsed flag_Parse BuildVersion BuildDate s)) = Some w1 ->
  allSucceed (afterInits (plugins (agent s))) w1 = Some w2 ->
  exists r,
    Start NamedPlugin_Close Duration_String NamedPlugin_String
          flag_Parsed flag_Parse BuildVersion BuildDate SignalFirst s = Some r /\
    returned r = None /\
    calls (pipeline_end r) =
      calls s ++ map initialized (seq 0 (List.length (plugins (agent s))))
              ++ map afterInitialized (postInitIndices 0 (plugins (agent s))) /\
    world (pipeline_end r) = w2 /\
    plugins (agent (pipeline_end r)) = plugins (agent s).
Proof.
  intros H1 H2.
  destruct (launch_keeps s) as (Pl & _ & Cl & _).
  set (s0 := launch flag_Parsed flag_Parse BuildVersion BuildDate s) in *.
  rewrite <- Pl in H1, H2.
  destruct (pipeline_ok s0 H1 H2) as (s' & mid1 & st1 & mid2 & HP & R & W & _).
  destruct (Start_signal s HP) as (r & HS & Hr & He).
  exists r. rewrite He, Hr. rewrite Pl in R.
  destruct R as (P & _ & _ & E & _).
  split; [exact HS|]. split; [reflexivity|].
  split; [rewrite E, Cl; reflexivity|]. split; [exact W|]. rewrite P. exact Pl.
Qed.

(** X2.  When every Init and every AfterInit succeeds, Start calls Init on
    every plugin in registry order, then AfterInit on exactly the plugins
    that have one, in registry order, and invokes no release. *)
Theorem successful_Start_calls (s : State World) (w1 w2 : World) :
  allSucceed (inits (plugins (agent s)))
    (world (launch flag_Parsed flag_Parse BuildVersion BuildDate s)) = Some w1 ->
  allSucceed (afterInits (plugins (agent s))) w1 = Some w2 ->
  exists r,
    Start NamedPlugin_Close Duration_String NamedPlugin_String
          flag_Parsed flag_Parse BuildVersion BuildDate SignalFirst s = Some r /\
    returned r = None /\
    calls (pipeline_end r) =
      calls s ++ map initialized (seq 0 (List.length (plugins (agent s))))
              ++ map afterInitialized (postInitIndices 0 (plugins (agent s))) /\
    world (pipeline_end r) = w2 /\
    plugins (agent (pipeline_end r)) = plugins (agent s).
Proof. apply Start_success. Qed.

Lemma afterInits_none (ps : list (NamedPlugin World)) :
  (forall q, In q ps -> AfterInit (Plugin_ q) = None) ->
  afterInits ps = [] /\ forall index, postInitIndices index ps = [].
Proof.
  induction ps as [|a ps IH]; intros H; [split; reflexivity|].
  destruct IH as (IA & IP); [intros q Hq; apply H; now right|].
  unfold afterInits in *. simpl. rewrite (H a) by (now left). simpl.
  split; [exact IA|]. intros index. apply IP.
Qed.

(** While the calls succeed, the clock moves by the time they take. *)
Lemma initPlugins_loop_clock (rest : list (NamedPlugin World)) :
  forall (index c : nat) (s : State World) (w' : World),
  allSucceed (inits rest) (world s) = Some w' ->
  clock (snd (initPlugins_loop Duration_String index rest c false None s))
    = (clock s + Z.of_N (elapsed (inits rest) (world s)))%Z.
Proof.
  induction rest as [|np rest IH]; intros index c s w' H.
  - simpl. lia.
  - simpl in H. cbn [inits map elapsed].
    destruct (op_err (Init (Plugin_ np) (world s))) eqn:E; [discriminate|].
    cbn [initPlugins_loop].
    set (s0 := set_currentlyProcessing (PluginName np) s).
    destruct (invoke (CallInit index) (Init (Plugin_ np)) s0) as [err s1] eqn:Hi.
    destruct (@invoke_step _ _ _ _ _ Hi) as (_ & _ & He & W1 & C1).
    change (world s0) with (world s) in *. change (clock s0) with (clock s) in *.
    rewrite E in He. subst err.
    match goal with |- context [initPlugins_loop _ _ rest _ false None ?st] =>
      rewrite (IH (S index) index st w')
    end.
    + simpl. rewrite C1, W1. fold (inits rest). lia.
    + simpl. rewrite W1. exact H.
Qed.

Lemma handleAfterInit_loop_clock (rest : list (NamedPlugin World)) :
  forall (index : nat) (s : State World) (w' : World),
  allSucceed (afterInits rest) (world s) = Some w' ->
  clock (snd (handleAfterInit_loop Duration_String index rest false None s))
    = (clock s + Z.of_N (elapsed (afterInits rest) (world s)))%Z.
Proof.
  induction rest as [|np rest IH]; intros index s w' H.
  - simpl. lia.
  - unfold afterInits in H |- *. cbn [flat_map] in H |- *.
    fold (afterInits rest) in H |- *.
    cbn [handleAfterInit_loop].
    set (s0 := set_currentlyProcessing (PluginName np) s).
    destruct (AfterInit (Plugin_ np)) as [afterInit|].
    + cbn [app allSucceed elapsed] in H |- *.
      destruct (op_err (afterInit (world s))) eqn:E; [discriminate|].
      destruct (invoke (CallAfterInit index) afterInit s0) as [err s1] eqn:Hi.
      destruct (@invoke_step _ _ _ _ _ Hi) as (_ & _ & He & W1 & C1).
      change (world s0) with (world s) in *. change (clock s0) with (clock s) in *.
      rewrite E in He. subst err.
      match goal with |- context [handleAfterInit_loop _ _ rest false None ?st] =>
        rewrite (IH (S index) st w')
      end.
      * simpl. rewrite C1, W1. lia.
      * simpl. rewrite W1. exact H.
    + cbn [app] in H |- *.
      match goal with |- context [handleAfterInit_loop _ _ rest false None ?st] =>
        rewrite (IH (S index) st w')
      end.
      * reflexivity.
      * exact H.
Qed.

Lemma initPlugins_duration (s : State World) (w' : World) :
  allSucceed (inits (plugins (agent s))) (world s) = Some w' ->
  exists s',
    initPlugins NamedPlugin_Close Duration_String NamedPlugin_String s = Some (None, s') /\
    initDuration (startup_ (agent s'))
      = measured (elapsed (inits (plugins (agent s))) (world s)).
Proof.
  intros H. unfold initPlugins.
  set (s0 := set_initDuration defaultTimerValue s).
  pose proof (initPlugins_loop_clock (plugins (agent s)) 0 0 s0 H) as C.
  destruct (initPlugins_loop_ok (plugins (agent s)) 0 0 s0 H)
    as (s1 & sn & HL & _).
  change (plugins (agent s0)) with (plugins (agent s)).
  rewrite HL in C |- *. cbn [snd] in C.
  unfold time_Now, time_Since.
  change (clock s0) with (clock s) in *. change (world s0) with (world s) in *.
  eexists. split; [reflexivity|].
  cbn [set_initDuration write_startup agent startup_ initDuration].
  rewrite C. apply time_Sub_measured.
Qed.

Lemma handleAfterInit_duration (s : State World) (w' : World) :
  allSucceed (afterInits (plugins (agent s))) (world s) = Some w' ->
  exists s',
    handleAfterInit Duration_String s = Some (None, s') /\
    afterInitDuration (startup_ (agent s'))
      = measured (elapsed (afterInits (plugins (agent s))) (world s)).
Proof.
  intros H. unfold handleAfterInit.
  set (s0 := set_afterInitDuration defaultTimerValue s).
  pose proof (handleAfterInit_loop_clock (plugins (agent s)) 0 s0 H) as C.
  destruct (handleAfterInit_loop_ok (plugins (agent s)) 0 s0 H)
    as (s1 & sn & HL & _).
  change (plugins (agent s0)) with (plugins (agent s)).
  rewrite HL in C |- *. cbn [snd] in C.
  unfold time_Now, time_Since.
  change (clock s0) with (clock s) in *. change (world s0) with (world s) in *.
  eexists. split; [reflexivity|].
  cbn [set_afterInitDuration write_startup agent startup_ afterInitDuration].
  rewrite C. apply time_Sub_measured.
Qed.

(** X3.  When no plugin of the registry has the PostInit capability,
    handleAfterInit makes no call, leaves the world as it was and returns
    nil; the duration it records is not negative, so not the sentinel, and
    it leaves the duration of phase 1 as it was. *)
Theorem handleAfterInit_without_PostInit (s : State World) :
  (forall q, In q (plugins (agent s)) -> AfterInit (Plugin_ q) = None) ->
  exists s',
    handleAfterInit Duration_String s = Some (None, s') /\
    calls s' = calls s /\
    world s' = world s /\
    (0 <= afterInitDuration (startup_ (agent s')) <= maxDuration)%Z /\
    initDuration (startup_ (agent s')) = initDuration (startup_ (agent s)).
Proof.
  intros H. destruct (afterInits_none _ H) as (HA & HP).
  assert (H0 : allSucceed (afterInits (plugins (agent s))) (world s) = Some (world s))
    by (rewrite HA; reflexivity).
  destruct (handleAfterInit_ok s H0) as (s' & mid & HH & R & W & Ph).
  exists s'. rewrite HP in R. destruct R as (_ & _ & C & E & _).
  split; [exact HH|]. split; [rewrite E; apply app_nil_r|]. split; [exact W|].
  destruct Ph as (_ & _ & Rg & I). split; [exact Rg|exact I].
Qed.

Lemma Start_success_durations (s : State World) (w1 w2 : World) :
  allSucceed (inits (plugins (agent s)))
    (world (launch flag_Parsed flag_Parse BuildVersion BuildDate s)) = Some w1 ->
  allSucceed (afterInits (plugins (agent s))) w1 = Some w2 ->
  exists r,
    Start NamedPlugin_Close Duration_String NamedPlugin_String
          flag_Parsed flag_Parse BuildVersion BuildDate SignalFirst s = Some r /\
    initDuration (startup_ (agent (pipeline_end r)))
      = measured (elapsed (inits (plugins (agent s)))
                    (world (launch flag_Parsed flag_Parse BuildVersion BuildDate s))) /\
    afterInitDuration (startup_ (agent (pipeline_end r)))
      = measured (elapsed (afterInits (plugins (agent s))) w1).
Proof.
  intros H1 H2.
  destruct (launch_keeps s) as (Pl & _).
  set (s0 := launch flag_Parsed flag_Parse BuildVersion BuildDate s) in *.
  rewrite <- Pl in H1, H2 |- *.
  destruct (initPlugins_ok s0 H1) as (s1 & mid1 & HI & R1 & W1 & _).
  destruct (initPlugins_duration s0 H1) as (s1' & HI' & D1).
  rewrite HI in HI'. inversion HI'; subst s1'. clear HI'.
  assert (P1 : plugins (agent s1) = plugins (agent s0)) by (destruct R1 as (P & _); exact P).
  rewrite <- W1, <- P1 in H2.
  destruct (handleAfterInit_ok s1 H2) as (s2 & mid2 & HA & _ & _ & Ph2).
  destruct (handleAfterInit_duration s1 H2) as (s2' & HA' & D2).
  rewrite HA in HA'. inversion HA'; subst s2'. clear HA'.
  assert (HP : pipeline NamedPlugin_Close Duration_String NamedPlugin_String s0
               = Some (None, s2)) by (unfold pipeline; rewrite HI, HA; reflexivity).
  destruct (Start_signal s HP) as (r & HS & _ & He).
  exists r. rewrite He. split; [exact HS|].
  destruct Ph2 as (_ & _ & _ & I2).
  split; [rewrite I2; exact D1|]. rewrite D2, P1, W1. reflexivity.
Qed.

(** X5.  On an empty registry Start returns nil without calling anything,
    and both phase durations end up set to a duration that is not negative,
    so not the sentinel. *)
Theorem Start_on_empty_registry (s : State World) :
  plugins (agent s) = [] ->
  exists r,
    Start NamedPlugin_Close Duration_String NamedPlugin_String
          flag_Parsed flag_Parse BuildVersion BuildDate SignalFirst s = Some r /\
    returned r = None /\
    calls (pipeline_end r) = calls s /\
    world (pipeline_end r)
      = world (launch flag_Parsed flag_Parse BuildVersion BuildDate s) /\
    (0 <= initDuration (startup_ (agent (pipeline_end r))) <= maxDuration)%Z /\
    (0 <= afterInitDuration (startup_ (agent (pipeline_end r))) <= maxDuration)%Z.
Proof.
  intros E.
  set (w := world (launch flag_Parsed flag_Parse BuildVersion BuildDate s)).
  assert (H1 : allSucceed (inits (plugins (agent s))) w = Some w) by (rewrite E; reflexivity).
  assert (H2 : allSucceed (afterInits (plugins (agent s))) w = Some w)
    by (rewrite E; reflexivity).
  destruct (Start_success s H1 H2) as (r & HS & Hr & HC & HW & _).
  destruct (Start_success_durations s H1 H2) as (r' & HS' & D1 & D2).
  rewrite HS in HS'. inversion HS'; subst r'. clear HS'.
  exists r. rewrite E in *. simpl in HC. rewrite app_nil_r in HC.
  split; [exact HS|]. split; [exact Hr|]. split; [exact HC|]. split; [exact HW|].
  rewrite D1, D2. unfold measured, maxDuration. lia.
Qed.

(** X6.  Stop writes none of the agent's startup fields and leaves the
    registry as it is; the world it leaves is the one the plugins' own Close
    methods produce, run from the last plugin to the first. *)
Theorem Stop_keeps_the_agent (s : State World) :
  exists r s',
    Stop s = Some (r, s') /\
    plugins (agent s') = plugins (agent s) /\
    startup_ (agent s') = startup_ (agent s) /\
    snapshots s' = snapshots s /\
    (clock s <= clock s')%Z /\
    world s' = released (@ownClose World) (rev (plugins (agent s))) (world s).
Proof.
  destruct (Stop_spec s) as (s' & evs & HS & R & _ & HU & HW & _).
  destruct R as (P & _ & C & _ & N). rewrite app_nil_r in N.
  eexists _, s'. split; [exact HS|]. auto.
Qed.

(** X7.  Stop logs its start, then for every release, failed or not, a
    begin entry and an end entry with the name of the plugin and the result
    of the release, then its end. *)
Theorem Stop_logs_every_release (s : State World) :
  exists r s' evs,
    Stop s = Some (r, s') /\
    calls s' = calls s ++ evs /\
    Logger (agent s') =
      Logger (agent s)
        ++ mkLog InfoLevel [] "Stopping agent..."
        :: flat_map (stopEntries (plugins (agent s))) evs
        ++ [mkLog DebugLevel [] "Agent stopped"].
Proof.
  unfold Stop.
  destruct (@Stop_loop_spec (List.length (plugins (agent s))) EmptyString
              (Info [] "Stopping agent..." s))
    as (errMsg' & s' & evs & HL & R & _ & _ & _ & _ & HG & _); [simpl; lia|].
  simpl plugins in *. rewrite HL.
  destruct R as (_ & _ & _ & E & _). simpl in E, HG.
  destruct (0 <? String.length errMsg')%nat; eexists _, _, evs;
    (split; [reflexivity|]); (split; [exact E|]);
    simpl; rewrite HG, <- !app_assoc; reflexivity.
Qed.

(** X8.  A Start in which everything succeeds followed by Stop: every
    plugin is initialized in registry order, after-initialized if it can be,
    and released in reverse registry order. *)
Theorem Start_then_Stop (s : State World) (w1 w2 : World) :
  allSucceed (inits (plugins (agent s)))
    (world (launch flag_Parsed flag_Parse BuildVersion BuildDate s)) = Some w1 ->
  allSucceed (afterInits (plugins (agent s))) w1 = Some w2 ->
  exists r r2 s2 evs,
    Start NamedPlugin_Close Duration_String NamedPlugin_String
          flag_Parsed flag_Parse BuildVersion BuildDate SignalFirst s = Some r /\
    returned r = None /\
    Stop (pipeline_end r) = Some (r2, s2) /\
    calls s2 =
      calls s ++ map initialized (seq 0 (List.length (plugins (agent s))))
              ++ map afterInitialized (postInitIndices 0 (plugins (agent s)))
              ++ evs /\
    map ev_call evs = releases OnPlugin (List.length (plugins (agent s))) /\
    world s2 = released (@ownClose World) (rev (plugins (agent s))) w2.
Proof.
  intros H1 H2.
  destruct (Start_success s H1 H2) as (r & HS & Hr & HC & HW & HP).
  destruct (Stop_spec (pipeline_end r)) as (s2 & evs & HT & R & HR & _ & HW2 & _).
  destruct R as (_ & _ & _ & E & _).
  eexists r, _, s2, evs.
  split; [exact HS|]. split; [exact Hr|]. split; [exact HT|].
  rewrite HP in *. rewrite HW in HW2.
  split; [rewrite E, HC, <- !app_assoc; reflexivity|]. auto.
Qed.

(** X9.  After a Start that failed in phase 2 the registry has already been
    released by Start itself: a Stop by the caller releases every plugin a
    second time. *)
Theorem Stop_after_failed_AfterInit_releases_twice (s : State World) (k : nat)
  (np : NamedPlugin World) (afterInit : Op World) (w1 w2 : World) (e : error) :
  allSucceed (inits (plugins (agent s)))
    (world (launch flag_Parsed flag_Parse BuildVersion BuildDate s)) = Some w1 ->
  firstAfterInitFailure (plugins (agent s)) w1 k np afterInit w2 e ->
  exists r r2 s2 evs1 evs2,
    Start NamedPlugin_Close Duration_String NamedPlugin_String
          flag_Parsed flag_Parse BuildVersion BuildDate SignalFirst s = Some r /\
    Stop (pipeline_end r) = Some (r2, s2) /\
    calls s2 =
      calls s ++ map initialized (seq 0 (List.length (plugins (agent s))))
              ++ map afterInitialized (postInitIndices 0 (firstn k (plugins (agent s))))
              ++ mkEvent (CallAfterInit k) (Some e) :: evs1 ++ evs2 /\
    map ev_call evs1 = releases OnPlugin (List.length (plugins (agent s))) /\
    map ev_call evs2 = releases OnPlugin (List.length (plugins (agent s))).
Proof.
  intros H1 H2.
  destruct (launch_keeps s) as (Pl & _).
  destruct (launched_afterInit_failure s H1 H2) as (s' & evs1 & HP & HC & HR & _).
  destruct (pipeline_cases (launch flag_Parsed flag_Parse BuildVersion BuildDate s))
    as (sig & s'' & evs0 & mid & rest & HP' & R & _).
  rewrite HP in HP'. inversion HP'; subst sig s''. clear HP'.
  destruct (Start_signal s HP) as (r & HS & _ & He).
  destruct (Stop_spec s') as (s2 & evs2 & HT & R2 & HR2 & _).
  destruct R as (P & _). destruct R2 as (_ & _ & _ & E & _).
  rewrite P, Pl in HR2.
  eexists r, _, s2, evs1, evs2. rewrite He.
  split; [exact HS|]. split; [exact HT|].
  split; [rewrite E, HC, <- !app_assoc; reflexivity|]. auto.
Qed.

(** X10.  After a failed Init phase 2 is not entered: AfterInit is called on
    no plugin and [afterInitDuration] is left as it was when Start was
    called, while [initDuration] is set. *)
Theorem failed_Init_skips_phase_2 (s : State World) (k : nat)
  (np : NamedPlugin World) (w1 : World) (e : error) :
  firstInitFailure (plugins (agent s))
    (world (launch flag_Parsed flag_Parse BuildVersion BuildDate s)) k np w1 e ->
  exists r evs,
    Start NamedPlugin_Close Duration_String NamedPlugin_String
          flag_Parsed flag_Parse BuildVersion BuildDate SignalFirst s = Some r /\
    calls (pipeline_end r) = calls s ++ evs /\
    (forall ev j, In ev evs -> ev_call ev <> CallAfterInit j) /\
    afterInitDuration (startup_ (agent (pipeline_end r)))
      = afterInitDuration (startup_ (agent s)) /\
    (0 <= initDuration (startup_ (agent (pipeline_end r))) <= maxDuration)%Z.
Proof.
  intros (Hn & Ha & He).
  destruct (nth_error_split_at _ _ Hn) as (P & L).
  destruct (launch_keeps s) as (Pl & Sl & Cl & _).
  set (s0 := launch flag_Parsed flag_Parse BuildVersion BuildDate s) in *.
  assert (P0 : plugins (agent s0) =
               firstn k (plugins (agent s)) ++ np :: skipn (S k) (plugins (agent s)))
    by (rewrite Pl; exact P).
  destruct (pipeline_init_fail s0 _ _ np P0 Ha He)
    as (s' & mid & evs & HP & R & HC & Ph & _).
  destruct (Start_signal s HP) as (r & HS & _ & He').
  eexists r, _. rewrite He'.
  destruct R as (_ & _ & _ & E & _). destruct Ph as (_ & _ & I & A).
  split; [exact HS|]. split; [rewrite E, Cl; reflexivity|].
  split; [|split; [rewrite A, Sl; reflexivity|exact I]].
  intros ev j Hin Hc. apply (in_map ev_call) in Hin. rewrite Hc in Hin.
  rewrite map_app, map_initialized in Hin. cbn [map ev_call] in Hin. rewrite HC in Hin.
  apply in_app_or in Hin. destruct Hin as [Hin|[Hin|Hin]].
  - apply in_map_iff in Hin. destruct Hin as (i & Hi & _). discriminate Hi.
  - discriminate Hin.
  - destruct (releases_in _ _ _ Hin) as (i & Hi & _). discriminate Hi.
Qed.

(** *** What [currentlyProcessing] holds *)

Lemma renamed_refl (st : startup) : renamed st st.
Proof. unfold renamed. auto. Qed.

Lemma renamed_trans (a b c : startup) : renamed a b -> renamed b c -> renamed a c.
Proof. unfold renamed. intros (M1 & I1 & A1) (M2 & I2 & A2). repeat split; congruence. Qed.

(** Whatever the plugins return, the Init loop writes the name of every
    plugin to [currentlyProcessing], in registry order, and nothing else to
    the startup fields. *)
Lemma initPlugins_loop_names (rest : list (NamedPlugin World)) :
  forall (index c : nat) (pluginFailed : bool) (wasError : option error) (s : State World),
  exists wasError' s' sn,
    initPlugins_loop Duration_String index rest c pluginFailed wasError s
      = (lastIndex index rest c, wasError', s') /\
    plugins (agent s') = plugins (agent s) /\
    snapshots s' = snapshots s ++ sn /\
    map currentlyProcessing sn = map (@PluginName World) rest /\
    (rest = [] -> wasError' = wasError) /\
    renamed (startup_ (agent s)) (startup_ (agent s')) /\
    Forall (renamed (startup_ (agent s))) sn.
Proof.
  induction rest as [|np rest IH]; intros index c pluginFailed wasError s.
  - exists wasError, s, []. simpl. rewrite app_nil_r.
    repeat (split; [solve [auto using renamed_refl]|]). constructor.
  - cbn [initPlugins_loop].
    set (s0 := set_currentlyProcessing (PluginName np) s).
    assert (R0 : renamed (startup_ (agent s)) (startup_ (agent s0)))
      by (unfold renamed; simpl; auto).
    assert (K : forall f we (t : State World),
               agent t = agent s0 \/
               (exists e, agent t = agent (write_log e s0)) ->
               snapshots t = snapshots s0 ->
               exists wasError' s' sn,
                 initPlugins_loop Duration_String (S index) rest index f we t
                   = (lastIndex index (np :: rest) c, wasError', s') /\
                 plugins (agent s') = plugins (agent s) /\
                 snapshots s' = snapshots s ++ sn /\
                 map currentlyProcessing sn = map (@PluginName World) (np :: rest) /\
                 (np :: rest = [] -> wasError' = wasError) /\
                 renamed (startup_ (agent s)) (startup_ (agent s')) /\
                 Forall (renamed (startup_ (agent s))) sn).
    { intros f we t At St.
      assert (Pt : plugins (agent t) = plugins (agent s) /\
                   startup_ (agent t) = startup_ (agent s0)).
      { destruct At as [At|(e0 & At)]; rewrite At; simpl; auto. }
      destruct Pt as (Pt & Ut).
      destruct (IH (S index) index f we t) as (we' & s' & sn & HL & P & N & M & _ & Rn & Fn).
      rewrite Ut in Rn, Fn.
      exists we', s', (startup_ (agent s0) :: sn).
      rewrite HL, (lastIndex_cons index c np rest).
      split; [reflexivity|]. split; [congruence|].
      split; [rewrite N, St; simpl; rewrite <- app_assoc; reflexivity|].
      split; [simpl; rewrite M; reflexivity|]. split; [discriminate|].
      split; [exact (renamed_trans R0 Rn)|].
      constructor; [exact R0|].
      eapply Forall_impl; [|exact Fn]. intros st. apply renamed_trans. exact R0. }
    destruct pluginFailed.
    + apply K; [right; eexists; reflexivity|reflexivity].
    + destruct (invoke (CallInit index) (Init (Plugin_ np)) s0) as [err s1] eqn:Hi.
      destruct (@invoke_step _ _ _ _ _ Hi) as (R1 & A1 & _).
      destruct R1 as (_ & _ & _ & _ & N1). rewrite app_nil_r in N1.
      destruct err; apply K; simpl; try exact N1;
        right; eexists; simpl; rewrite A1; reflexivity.
Qed.

(** initPlugins never panics; between its two writes to [initDuration] it
    writes the name of every plugin, in registry order. *)
Lemma initPlugins_names (s : State World) :
  exists r s' st0 sn,
    initPlugins NamedPlugin_Close Duration_String NamedPlugin_String s = Some (r, s') /\
    plugins (agent s') = plugins (agent s) /\
    snapshots s' = snapshots s ++ st0 :: sn ++ [startup_ (agent s')] /\
    map currentlyProcessing sn = map (@PluginName World) (plugins (agent s)) /\
    Forall (fun st => MaxStartupTime st = MaxStartupTime (startup_ (agent s)) /\
                      initDuration st = defaultTimerValue /\
                      afterInitDuration st = afterInitDuration (startup_ (agent s)))
           (st0 :: sn) /\
    MaxStartupTime (startup_ (agent s')) = MaxStartupTime (startup_ (agent s)).
Proof.
  unfold initPlugins.
  set (s0 := set_initDuration defaultTimerValue s).
  destruct (initPlugins_loop_names (plugins (agent s)) 0 0 false None s0)
    as (we' & s1 & sn & HL & P & N & M & E & Rn & Fn).
  change (plugins (agent s0)) with (plugins (agent s)). rewrite HL.
  set (s2 := set_initDuration (time_Since (time_Now s0) s1) s1).
  assert (N2 : snapshots s2 = snapshots s ++ startup_ (agent s0) :: sn ++ [startup_ (agent s2)]).
  { simpl. rewrite N. simpl. rewrite <- !app_assoc. reflexivity. }
  assert (F : Forall (fun st => MaxStartupTime st = MaxStartupTime (startup_ (agent s)) /\
                                initDuration st = defaultTimerValue /\
                                afterInitDuration st = afterInitDuration (startup_ (agent s)))
                (startup_ (agent s0) :: sn)).
  { constructor; [simpl; auto|].
    eapply Forall_impl; [|exact Fn]. unfold renamed. simpl. tauto. }
  assert (M2 : MaxStartupTime (startup_ (agent s2)) = MaxStartupTime (startup_ (agent s))).
  { destruct Rn as (Rm & _). simpl. exact Rm. }
  destruct we' as [e|].
  - destruct (plugins (agent s)) as [|a ps] eqn:Eps; [discriminate (E eq_refl)|].
    destruct (@rollback_loop_spec (S (lastIndex 0 (a :: ps) 0)) (Some e) s2)
      as (s' & evs & HR & R & _ & HS & _).
    { simpl. rewrite P. change (plugins (agent s0)) with (plugins (agent s)).
      rewrite Eps. simpl. lia. }
    rewrite HR. destruct R as (P' & _ & _ & _ & N'). rewrite app_nil_r in N'.
    eexists _, s', (startup_ (agent s0)), sn.
    split; [reflexivity|]. split; [rewrite P'; simpl; rewrite P; exact Eps|].
    split; [rewrite N', HS; exact N2|]. split; [exact M|].
    split; [exact F|rewrite HS; exact M2].
  - eexists _, s2, (startup_ (agent s0)), sn.
    split; [reflexivity|]. split; [simpl; rewrite P; reflexivity|].
    split; [exact N2|]. split; [exact M|]. split; [exact F|exact M2].
Qed.

Lemma handleAfterInit_total (s : State World) :
  exists r s' evs sn, handleAfterInit Duration_String s = Some (r, s') /\ run s s' evs sn.
Proof.
  destruct (afterInits_dichotomy (plugins (agent s)) (world s))
    as [(w' & H)|(l1 & np & l2 & f & w1 & e & P & H & Hf & He)].
  - destruct (handleAfterInit_ok s H) as (s' & mid & HH & R & _).
    eexists _, s', _, _. split; [exact HH|exact R].
  - destruct (handleAfterInit_fail s l1 l2 np P H Hf He) as (s' & mid & evs & HH & R & _).
    eexists _, s', _, _. split; [exact HH|exact R].
Qed.

Lemma pipeline_names (s : State World) :
  exists signal s' st0 sn rest,
    pipeline NamedPlugin_Close Duration_String NamedPlugin_String s = Some (signal, s') /\
    snapshots s' = snapshots s ++ st0 :: sn ++ rest /\
    map currentlyProcessing sn = map (@PluginName World) (plugins (agent s)) /\
    Forall (fun st => MaxStartupTime st = MaxStartupTime (startup_ (agent s)) /\
                      initDuration st = defaultTimerValue /\
                      afterInitDuration st = afterInitDuration (startup_ (agent s)))
           (st0 :: sn).
Proof.
  destruct (initPlugins_names s) as (r & s1 & st0 & sn & HI & P & N & M & F & _).
  unfold pipeline. rewrite HI. destruct r as [e|].
  - eexists _, s1, st0, sn, _. split; [reflexivity|]. split; [exact N|auto].
  - destruct (handleAfterInit_total s1) as (r2 & s2 & evs & sn2 & HA & R).
    rewrite HA. destruct R as (_ & _ & _ & _ & N2).
    exists r2, s2, st0, sn, ([startup_ (agent s1)] ++ sn2).
    split; [destruct r2; reflexivity|].
    split; [rewrite N2, N; cbn [app]; rewrite <- !app_assoc; cbn [app];
            rewrite <- !app_assoc; reflexivity|auto].
Qed.

Lemma Start_deadline_log (s s' : State World) (signal : option error) (n : nat)
  (st : startup) :
  pipeline NamedPlugin_Close Duration_String NamedPlugin_String
    (launch flag_Parsed flag_Parse BuildVersion BuildDate s) = Some (signal, s') ->
  nth_error (instants (launch flag_Parsed flag_Parse BuildVersion BuildDate s) s') n
    = Some st ->
  exists r,
    Start NamedPlugin_Close Duration_String NamedPlugin_String
          flag_Parsed flag_Parse BuildVersion BuildDate (DeadlineAt n) s = Some r /\
    returned r = Some (TimeoutError (currentlyProcessing st)) /\
    pipeline_end r = s' /\
    caller_log r =
      if (initDuration st =? defaultTimerValue)%Z then
        [mkLog InfoLevel []
           (Sprintf "Agent Init took > %v" [Duration_String (MaxStartupTime st)]);
         mkLog InfoLevel (durationInNs (afterInitDuration st))
           (Sprintf "Agent AfterInit took %v" [Duration_String (afterInitDuration st)])]
      else if (afterInitDuration st =? defaultTimerValue)%Z then
        [mkLog InfoLevel (durationInNs (initDuration st))
           (Sprintf "Agent Init took %v" [Duration_String (initDuration st)]);
         mkLog InfoLevel []
           (Sprintf "Agent AfterInit took > %v" [Duration_String (MaxStartupTime st)])]
      else [].
Proof.
  intros H Hn. unfold Start, TimeoutError. rewrite H. cbn [deadline]. rewrite Hn.
  eexists. split; [reflexivity|]. split; [reflexivity|]. split; reflexivity.
Qed.

(** X11.  When the timer fires after the goroutine has written the name of
    plugin [i] to [currentlyProcessing] and before its next write, that is
    while Init of plugin [i] runs or is skipped because an earlier Init
    failed, Start returns the timeout error that names plugin [i]. *)
Theorem timeout_in_phase_1_names_the_plugin (s : State World) (i : nat)
  (np : NamedPlugin World) :
  nth_error (plugins (agent s)) i = Some np ->
  exists r,
    Start NamedPlugin_Close Duration_String NamedPlugin_String
          flag_Parsed flag_Parse BuildVersion BuildDate (DeadlineAt (i + 2)) s = Some r /\
    returned r = Some (TimeoutError (PluginName np)).
Proof.
  intros Hn.
  destruct (launch_keeps s) as (Pl & _).
  destruct (pipeline_names (launch flag_Parsed flag_Parse BuildVersion BuildDate s))
    as (signal & s' & st0 & sn & rest & HP & N & M & _).
  rewrite Pl in M.
  assert (Hm : nth_error (map currentlyProcessing sn) i = Some (PluginName np))
    by (rewrite M; now apply map_nth_error).
  destruct (nth_error sn i) as [st|] eqn:Hst.
  2:{ rewrite nth_error_map, Hst in Hm. discriminate Hm. }
  rewrite nth_error_map, Hst in Hm. inversion Hm as [Hcp].
  assert (Hi : nth_error (instants (launch flag_Parsed flag_Parse BuildVersion BuildDate s)
                            s') (i + 2) = Some st).
  { unfold instants. rewrite N, skipn_length_app.
    replace (i + 2) with (S (S i)) by lia. cbn [nth_error].
    rewrite nth_error_app1 by (apply nth_error_Some; congruence). exact Hst. }
  destruct (Start_deadline s (i + 2) HP Hi) as (r & HS & Hr & _).
  exists r. split; [exact HS|]. rewrite Hr, Hcp. reflexivity.
Qed.

(** X12.  When the timer fires during phase 1, after the goroutine's first
    write, Start logs that Init took more than [MaxStartupTime] and, as the
    duration of AfterInit, the value [afterInitDuration] had when Start was
    called. *)
Theorem timeout_in_phase_1_log (s : State World) (n : nat) :
  1 <= n <= S (List.length (plugins (agent s))) ->
  exists r,
    Start NamedPlugin_Close Duration_String NamedPlugin_String
          flag_Parsed flag_Parse BuildVersion BuildDate (DeadlineAt n) s = Some r /\
    caller_log r =
      [mkLog InfoLevel []
         (Sprintf "Agent Init took > %v"
            [Duration_String (MaxStartupTime (startup_ (agent s)))]);
       mkLog InfoLevel (durationInNs (afterInitDuration (startup_ (agent s))))
         (Sprintf "Agent AfterInit took %v"
            [Duration_String (afterInitDuration (startup_ (agent s)))])].
Proof.
  intros (Hlo & Hhi).
  destruct (launch_keeps s) as (Pl & Sl & _).
  destruct (pipeline_names (launch flag_Parsed flag_Parse BuildVersion BuildDate s))
    as (signal & s' & st0 & sn & rest & HP & N & M & F).
  rewrite Pl in M. rewrite Sl in F.
  assert (L : List.length sn = List.length (plugins (agent s))).
  { rewrite <- (length_map currentlyProcessing), M, length_map. reflexivity. }
  destruct n as [|n']; [lia|].
  destruct (nth_error (st0 :: sn) n') as [st|] eqn:Hst.
  2:{ apply nth_error_None in Hst. simpl in Hst. lia. }
  assert (Hi : nth_error (instants (launch flag_Parsed flag_Parse BuildVersion BuildDate s)
                            s') (S n') = Some st).
  { unfold instants. rewrite N, skipn_length_app. cbn [nth_error].
    change (st0 :: sn ++ rest) with ((st0 :: sn) ++ rest).
    rewrite nth_error_app1 by (simpl; lia). exact Hst. }
  destruct (Start_deadline_log s (S n') HP Hi) as (r & HS & _ & _ & Hl).
  exists r. split; [exact HS|]. rewrite Hl.
  apply nth_error_In in Hst. rewrite Forall_forall in F.
  destruct (F st Hst) as (Fm & Fi & Fa). rewrite Fi, Fm, Fa. reflexivity.
Qed.

Lemma handleAfterInit_loop_names (rest : list (NamedPlugin World)) :
  forall (index : nat) (pluginFailed : bool) (wasError : option error) (s : State World),
  exists wasError' s' sn,
    handleAfterInit_loop Duration_String index rest pluginFailed wasError s
      = (wasError', s') /\
    plugins (agent s') = plugins (agent s) /\
    snapshots s' = snapshots s ++ sn /\
    map currentlyProcessing sn = map (@PluginName World) rest /\
    renamed (startup_ (agent s)) (startup_ (agent s')) /\
    Forall (renamed (startup_ (agent s))) sn.
Proof.
  induction rest as [|np rest IH]; intros index pluginFailed wasError s.
  - exists wasError, s, []. simpl. rewrite app_nil_r.
    repeat (split; [solve [auto using renamed_refl]|]). constructor.
  - cbn [handleAfterInit_loop].
    set (s0 := set_currentlyProcessing (PluginName np) s).
    assert (R0 : renamed (startup_ (agent s)) (startup_ (agent s0)))
      by (unfold renamed; simpl; auto).
    assert (K : forall f we (t : State World),
               (exists e, agent t = agent (write_log e s0)) ->
               snapshots t = snapshots s0 ->
               exists wasError' s' sn,
                 handleAfterInit_loop Duration_String (S index) rest f we t
                   = (wasError', s') /\
                 plugins (agent s') = plugins (agent s) /\
                 snapshots s' = snapshots s ++ sn /\
                 map currentlyProcessing sn = map (@PluginName World) (np :: rest) /\
                 renamed (startup_ (agent s)) (startup_ (agent s')) /\
                 Forall (renamed (startup_ (agent s))) sn).
    { intros f we t (e0 & At) St.
      assert (Pt : plugins (agent t) = plugins (agent s) /\
                   startup_ (agent t) = startup_ (agent s0)) by (rewrite At; simpl; auto).
      destruct Pt as (Pt & Ut).
      destruct (IH (S index) f we t) as (we' & s' & sn & HL & P & N & M & Rn & Fn).
      rewrite Ut in Rn, Fn.
      exists we', s', (startup_ (agent s0) :: sn).
      rewrite HL.
      split; [reflexivity|]. split; [congruence|].
      split; [rewrite N, St; simpl; rewrite <- app_assoc; reflexivity|].
      split; [simpl; rewrite M; reflexivity|].
      split; [exact (renamed_trans R0 Rn)|].
      constructor; [exact R0|].
      eapply Forall_impl; [|exact Fn]. intros st. apply renamed_trans. exact R0. }
    destruct pluginFailed.
    + apply K; [eexists; reflexivity|reflexivity].
    + destruct (AfterInit (Plugin_ np)) as [afterInit|].
      * destruct (invoke (CallAfterInit index) afterInit s0) as [err s1] eqn:Hi.
        destruct (@invoke_step _ _ _ _ _ Hi) as (R1 & A1 & _).
        destruct R1 as (_ & _ & _ & _ & N1). rewrite app_nil_r in N1.
        destruct err; apply K; simpl; try exact N1;
          eexists; simpl; rewrite A1; reflexivity.
      * apply K; [eexists; reflexivity|reflexivity].
Qed.

Lemma handleAfterInit_names (s : State World) :
  exists r s' st0 sn,
    handleAfterInit Duration_String s = Some (r, s') /\
    snapshots s' = snapshots s ++ st0 :: sn ++ [startup_ (agent s')] /\
    map currentlyProcessing sn = map (@PluginName World) (plugins (agent s)) /\
    Forall (fun st => MaxStartupTime st = MaxStartupTime (startup_ (agent s)) /\
                      initDuration st = initDuration (startup_ (agent s)) /\
                      afterInitDuration st = defaultTimerValue)
           (st0 :: sn).
Proof.
  unfold handleAfterInit.
  set (s0 := set_afterInitDuration defaultTimerValue s).
  destruct (handleAfterInit_loop_names (plugins (agent s)) 0 false None s0)
    as (we' & s1 & sn & HL & P & N & M & Rn & Fn).
  change (plugins (agent s0)) with (plugins (agent s)). rewrite HL.
  set (s2 := set_afterInitDuration (time_Since (time_Now s0) s1) s1).
  assert (N2 : snapshots s2 = snapshots s ++ startup_ (agent s0) :: sn ++ [startup_ (agent s2)]).
  { simpl. rewrite N. simpl. rewrite <- !app_assoc. reflexivity. }
  assert (F : Forall (fun st => MaxStartupTime st = MaxStartupTime (startup_ (agent s)) /\
                                initDuration st = initDuration (startup_ (agent s)) /\
                                afterInitDuration st = defaultTimerValue)
                (startup_ (agent s0) :: sn)).
  { constructor; [simpl; auto|].
    eapply Forall_impl; [|exact Fn]. unfold renamed. simpl. tauto. }
  destruct we' as [e|].
  - destruct (Stop_spec s2) as (s' & evs & HR & R & _ & HS & _).
    rewrite HR. destruct R as (_ & _ & _ & _ & N'). rewrite app_nil_r in N'.
    eexists _, s', (startup_ (agent s0)), sn.
    split; [reflexivity|]. split; [rewrite N', HS; exact N2|]. split; [exact M|exact F].
  - eexists _, s2, (startup_ (agent s0)), sn.
    split; [reflexivity|]. split; [exact N2|]. split; [exact M|exact F].
Qed.

Lemma measured_range (n : N) : (0 <= measured n <= maxDuration)%Z.
Proof. unfold measured, maxDuration. lia. Qed.

(** X13.  When every Init succeeded and the timer fires in phase 2, after
    the goroutine has written the name of plugin [i] to
    [currentlyProcessing] and before its next write, Start returns the
    timeout error that names plugin [i], and logs the duration initPlugins
    recorded, which is not negative, and that AfterInit took more than
    [MaxStartupTime]. *)
Theorem timeout_in_phase_2 (s : State World) (w1 : World) (i : nat)
  (np : NamedPlugin World) :
  allSucceed (inits (plugins (agent s)))
    (world (launch flag_Parsed flag_Parse BuildVersion BuildDate s)) = Some w1 ->
  nth_error (plugins (agent s)) i = Some np ->
  exists r s1 d,
    Start NamedPlugin_Close Duration_String NamedPlugin_String
          flag_Parsed flag_Parse BuildVersion BuildDate
          (DeadlineAt (List.length (plugins (agent s)) + 4 + i)) s = Some r /\
    returned r = Some (TimeoutError (PluginName np)) /\
    initPlugins NamedPlugin_Close Duration_String NamedPlugin_String
      (launch flag_Parsed flag_Parse BuildVersion BuildDate s) = Some (None, s1) /\
    d = initDuration (startup_ (agent s1)) /\
    (0 <= d <= maxDuration)%Z /\
    caller_log r =
      [mkLog InfoLevel (durationInNs d)
         (Sprintf "Agent Init took %v" [Duration_String d]);
       mkLog InfoLevel []
         (Sprintf "Agent AfterInit took > %v"
            [Duration_String (MaxStartupTime (startup_ (agent s)))])].
Proof.
  intros H1 Hn.
  destruct (launch_keeps s) as (Pl & Sl & _).
  set (s0 := launch flag_Parsed flag_Parse BuildVersion BuildDate s) in *.
  rewrite <- Pl in H1.
  destruct (initPlugins_names s0) as (r1 & s1 & st0 & sn1 & HI & P1 & N1 & M1 & _ & X1).
  destruct (initPlugins_duration s0 H1) as (s1' & HI' & D1).
  rewrite HI in HI'. inversion HI'; subst r1 s1'. clear HI'.
  destruct (handleAfterInit_names s1) as (r2 & s2 & st0' & sn2 & HA & N2 & M2 & F2).
  assert (HP : pipeline NamedPlugin_Close Duration_String NamedPlugin_String s0
               = Some (r2, s2)) by (unfold pipeline; rewrite HI, HA; destruct r2; reflexivity).
  rewrite P1, Pl in M2. rewrite Pl in M1, D1.
  assert (L1 : List.length sn1 = List.length (plugins (agent s))).
  { rewrite <- (length_map currentlyProcessing), M1, length_map. reflexivity. }
  assert (Hm : nth_error (map currentlyProcessing sn2) i = Some (PluginName np))
    by (rewrite M2; now apply map_nth_error).
  destruct (nth_error sn2 i) as [st|] eqn:Hst.
  2:{ rewrite nth_error_map, Hst in Hm. discriminate Hm. }
  rewrite nth_error_map, Hst in Hm. inversion Hm as [Hcp].
  assert (Hi : nth_error (instants s0 s2) (List.length (plugins (agent s)) + 4 + i)
               = Some st).
  { unfold instants. rewrite N2, N1.
    rewrite <- app_assoc, skipn_length_app.
    replace (List.length (plugins (agent s)) + 4 + i)
      with (S (List.length (st0 :: sn1 ++ [startup_ (agent s1)]) + S i))
      by (simpl; rewrite length_app; simpl; lia).
    cbn [nth_error].
    rewrite nth_error_app2 by lia.
    replace (List.length (st0 :: sn1 ++ [startup_ (agent s1)]) + S i
             - List.length (st0 :: sn1 ++ [startup_ (agent s1)])) with (S i) by lia.
    cbn [nth_error].
    rewrite nth_error_app1 by (apply nth_error_Some; congruence). exact Hst. }
  destruct (Start_deadline_log s _ HP Hi) as (r & HS & Hr & _ & Hl).
  pose proof (measured_range (elapsed (inits (plugins (agent s))) (world s0))) as Hr0.
  rewrite <- D1 in Hr0.
  exists r, s1, (initDuration (startup_ (agent s1))).
  split; [exact HS|]. split; [rewrite Hr, Hcp; reflexivity|].
  split; [exact HI|]. split; [reflexivity|]. split; [exact Hr0|].
  rewrite Hl.
  assert (Hin : In st (st0' :: sn2)) by (right; eapply nth_error_In; exact Hst).
  rewrite Forall_forall in F2. destruct (F2 st Hin) as (Fm & Fi & Fa).
  rewrite Fi, Fa, Fm, X1, Sl.
  destruct (Z.eqb_spec (initDuration (startup_ (agent s1))) defaultTimerValue) as [Heq|_].
  { unfold defaultTimerValue in Heq. lia. }
  reflexivity.
Qed.

(** *** The log is only written *)

Lemma alike_refl (s : State World) : alike s s.
Proof. unfold alike. auto 10. Qed.

Lemma alike_write_log (e e' : LogEntry) (s t : State World) :
  alike s t -> alike (write_log e s) (write_log e' t).
Proof. unfold alike. simpl. tauto. Qed.

Lemma alike_set_currentlyProcessing (name : string) (s t : State World) :
  alike s t -> alike (set_currentlyProcessing name s) (set_currentlyProcessing name t).
Proof. unfold alike. simpl. intros (P & U & W & C & E & N). rewrite U, N. auto 10. Qed.

Lemma alike_set_initDuration (d : Duration) (s t : State World) :
  alike s t -> alike (set_initDuration d s) (set_initDuration d t).
Proof. unfold alike. simpl. intros (P & U & W & C & E & N). rewrite U, N. auto 10. Qed.

Lemma alike_set_afterInitDuration (d : Duration) (s t : State World) :
  alike s t -> alike (set_afterInitDuration d s) (set_afterInitDuration d t).
Proof. unfold alike. simpl. intros (P & U & W & C & E & N). rewrite U, N. auto 10. Qed.

Lemma alike_invoke (c : Call) (op : Op World) (s t : State World) :
  alike s t ->
  exists err s1 t1,
    invoke c op s = (err, s1) /\ invoke c op t = (err, t1) /\ alike s1 t1.
Proof.
  unfold alike, invoke. intros (P & U & W & C & E & N).
  eexists _, _, _. split; [reflexivity|]. split; [rewrite W; reflexivity|].
  simpl. rewrite P, U, W, C, E, N. auto 10.
Qed.

Lemma alike_safeclose (c : Call) (closer : option (Op World)) (s t : State World) :
  alike s t ->
  exists err s1 t1,
    safeclose_Close c closer s = (err, s1) /\ safeclose_Close c closer t = (err, t1) /\
    alike s1 t1.
Proof.
  intros H. destruct closer as [op|]; simpl.
  - now apply alike_invoke.
  - eexists _, _, _. split; [reflexivity|]. split; [reflexivity|].
    unfold alike in *. simpl. destruct H as (P & U & W & C & E & N).
    rewrite E. auto 10.
Qed.

Lemma Stop_loop_alike (n : nat) : forall (errMsg : string) (s t : State World),
  alike s t -> alikeResults (Stop_loop n errMsg s) (Stop_loop n errMsg t).
Proof.
  induction n as [|i IH]; intros errMsg s t H.
  - simpl. auto.
  - cbn [Stop_loop]. destruct H as (P & H'). rewrite <- P.
    assert (H : alike s t) by (split; assumption). clear H'.
    destruct (nth_error (plugins (agent s)) i) as [np|]; [|exact I].
    match goal with |- context [safeclose_Close ?c ?cl (Debug ?f ?m s)] =>
      destruct (@alike_safeclose c cl (Debug f m s) (Debug f m t))
        as (err & s1 & t1 & E1 & E2 & A1); [now apply alike_write_log|]
    end.
    rewrite E1, E2. apply IH. now apply alike_write_log.
Qed.

Lemma Stop_alike (s t : State World) : alike s t -> alikeResults (Stop s) (Stop t).
Proof.
  intros H. unfold Stop.
  assert (P : plugins (agent s) = plugins (agent t)) by (destruct H; assumption).
  simpl plugins. rewrite <- P.
  pose proof (@Stop_loop_alike (List.length (plugins (agent s))) EmptyString
                (Info [] "Stopping agent..." s) (Info [] "Stopping agent..." t)
                (alike_write_log _ _ H)) as K.
  unfold alikeResults in K.
  destruct (Stop_loop _ _ (Info [] "Stopping agent..." s)) as [[m s']|];
    destruct (Stop_loop _ _ (Info [] "Stopping agent..." t)) as [[m' t']|];
    try contradiction; [|exact I].
  destruct K as (-> & A).
  destruct (0 <? String.length m')%nat; simpl; (split; [reflexivity|]);
    now apply alike_write_log.
Qed.

Lemma initPlugins_loop_alike (rest : list (NamedPlugin World)) :
  forall (index c : nat) (f : bool) (we : option error) (s t : State World),
  alike s t ->
  exists c' we' s' t',
    initPlugins_loop Duration_String index rest c f we s = (c', we', s') /\
    initPlugins_loop Duration_String index rest c f we t = (c', we', t') /\
    alike s' t'.
Proof.
  induction rest as [|np rest IH]; intros index c f we s t H.
  - exists c, we, s, t. auto.
  - cbn [initPlugins_loop].
    pose proof (alike_set_currentlyProcessing (PluginName np) H) as H0.
    destruct f.
    + apply IH. now apply alike_write_log.
    + destruct (alike_invoke (CallInit index) (Init (Plugin_ np)) H0)
        as (err & s1 & t1 & E1 & E2 & A1).
      rewrite E1, E2.
      assert (C0 : time_Now (set_currentlyProcessing (PluginName np) s)
                   = time_Now (set_currentlyProcessing (PluginName np) t))
        by (destruct H0 as (_ & _ & _ & C & _); exact C).
      assert (C1 : forall x, time_Since x s1 = time_Since x t1)
        by (intros x; unfold time_Since; destruct A1 as (_ & _ & _ & C & _); now rewrite C).
      rewrite C0, C1.
      destruct err; apply IH; now apply alike_write_log.
Qed.

Lemma rollback_loop_alike (n : nat) : forall (we : option error) (s t : State World),
  alike s t ->
  alikeResults (rollback_loop NamedPlugin_Close NamedPlugin_String n we s)
               (rollback_loop NamedPlugin_Close NamedPlugin_String n we t).
Proof.
  induction n as [|i IH]; intros we s t H.
  - simpl. auto.
  - cbn [rollback_loop]. destruct H as (P & H'). rewrite <- P.
    assert (H : alike s t) by (split; assumption). clear H'.
    destruct (nth_error (plugins (agent s)) i) as [np|]; [|exact I].
    match goal with |- context [safeclose_Close ?c ?cl (Debug ?f ?m s)] =>
      destruct (@alike_safeclose c cl (Debug f m s) (Debug f m t))
        as (err & s1 & t1 & E1 & E2 & A1); [now apply alike_write_log|]
    end.
    rewrite E1, E2. now apply IH.
Qed.

Lemma initPlugins_alike (s t : State World) :
  alike s t ->
  alikeResults (initPlugins NamedPlugin_Close Duration_String NamedPlugin_String s)
               (initPlugins NamedPlugin_Close Duration_String NamedPlugin_String t).
Proof.
  intros H. unfold initPlugins.
  pose proof (alike_set_initDuration defaultTimerValue H) as H0.
  assert (P : plugins (agent s) = plugins (agent t)) by (destruct H; assumption).
  simpl plugins. rewrite <- P.
  destruct (initPlugins_loop_alike (plugins (agent s)) 0 0 false None H0)
    as (c' & we' & s1 & t1 & E1 & E2 & A1).
  rewrite E1, E2.
  assert (C0 : time_Now (set_initDuration defaultTimerValue s)
               = time_Now (set_initDuration defaultTimerValue t))
    by (destruct H0 as (_ & _ & _ & C & _); exact C).
  assert (C1 : forall x, time_Since x s1 = time_Since x t1)
    by (intros x; unfold time_Since; destruct A1 as (_ & _ & _ & C & _); now rewrite C).
  rewrite C0, C1.
  pose proof (alike_set_initDuration
                (time_Since (time_Now (set_initDuration defaultTimerValue t)) t1) A1) as A2.
  destruct we'; [now apply rollback_loop_alike|].
  simpl. auto.
Qed.

Lemma handleAfterInit_loop_alike (rest : list (NamedPlugin World)) :
  forall (index : nat) (f : bool) (we : option error) (s t : State World),
  alike s t ->
  exists we' s' t',
    handleAfterInit_loop Duration_String index rest f we s = (we', s') /\
    handleAfterInit_loop Duration_String index rest f we t = (we', t') /\
    alike s' t'.
Proof.
  induction rest as [|np rest IH]; intros index f we s t H.
  - exists we, s, t. auto.
  - cbn [handleAfterInit_loop].
    pose proof (alike_set_currentlyProcessing (PluginName np) H) as H0.
    destruct f.
    + apply IH. now apply alike_write_log.
    + destruct (AfterInit (Plugin_ np)) as [afterInit|].
      * destruct (alike_invoke (CallAfterInit index) afterInit H0)
          as (err & s1 & t1 & E1 & E2 & A1).
        rewrite E1, E2.
        assert (C0 : time_Now (set_currentlyProcessing (PluginName np) s)
                     = time_Now (set_currentlyProcessing (PluginName np) t))
          by (destruct H0 as (_ & _ & _ & C & _); exact C).
        assert (C1 : forall x, time_Since x s1 = time_Since x t1)
          by (intros x; unfold time_Since; destruct A1 as (_ & _ & _ & C & _);
              now rewrite C).
        rewrite C0, C1.
        destruct err; apply IH; now apply alike_write_log.
      * apply IH. now apply alike_write_log.
Qed.

Lemma handleAfterInit_alike (s t : State World) :
  alike s t ->
  alikeResults (handleAfterInit Duration_String s) (handleAfterInit Duration_String t).
Proof.
  intros H. unfold handleAfterInit.
  pose proof (alike_set_afterInitDuration defaultTimerValue H) as H0.
  assert (P : plugins (agent s) = plugins (agent t)) by (destruct H; assumption).
  simpl plugins. rewrite <- P.
  destruct (handleAfterInit_loop_alike (plugins (agent s)) 0 false None H0)
    as (we' & s1 & t1 & E1 & E2 & A1).
  rewrite E1, E2.
  assert (C0 : time_Now (set_afterInitDuration defaultTimerValue s)
               = time_Now (set_afterInitDuration defaultTimerValue t))
    by (destruct H0 as (_ & _ & _ & C & _); exact C).
  assert (C1 : forall x, time_Since x s1 = time_Since x t1)
    by (intros x; unfold time_Since; destruct A1 as (_ & _ & _ & C & _); now rewrite C).
  rewrite C0, C1.
  pose proof (alike_set_afterInitDuration
                (time_Since (time_Now (set_afterInitDuration defaultTimerValue t)) t1) A1)
    as A2.
  destruct we'; [|simpl; auto].
  pose proof (Stop_alike A2) as K. unfold alikeResults in K |- *.
  destruct (Stop (set_afterInitDuration _ s1)) as [[r1 s2]|];
    destruct (Stop (set_afterInitDuration _ t1)) as [[r2 t2]|]; try contradiction; [|exact I].
  destruct K as (_ & A). auto.
Qed.

Lemma pipeline_alike (s t : State World) :
  alike s t ->
  alikeResults (pipeline NamedPlugin_Close Duration_String NamedPlugin_String s)
               (pipeline NamedPlugin_Close Duration_String NamedPlugin_String t).
Proof.
  intros H. unfold pipeline.
  pose proof (initPlugins_alike H) as K. unfold alikeResults in K.
  destruct (initPlugins _ _ _ s) as [[r1 s1]|];
    destruct (initPlugins _ _ _ t) as [[r2 t1]|]; try contradiction; [|exact I].
  destruct K as (-> & A). destruct r2; [simpl; auto|].
  pose proof (handleAfterInit_alike A) as K2. unfold alikeResults in K2.
  destruct (handleAfterInit _ s1) as [[r3 s2]|];
    destruct (handleAfterInit _ t1) as [[r4 t2]|]; try contradiction; [|exact I].
  destruct K2 as (-> & A2). destruct r4; simpl; auto.
Qed.

(** X14.  The agent only writes to its log: started from two states that
    differ in nothing but what has been logged, Start returns the same
    error, logs the same lines and makes the same calls, and so does
    Stop. *)
Theorem the_log_is_never_read (race : Race) (s t : State World) :
  alike s t ->
  match Start NamedPlugin_Close Duration_String NamedPlugin_String
              flag_Parsed flag_Parse BuildVersion BuildDate race s,
        Start NamedPlugin_Close Duration_String NamedPlugin_String
              flag_Parsed flag_Parse BuildVersion BuildDate race t with
  | Some r, Some r' =>
      returned r = returned r' /\ caller_log r = caller_log r' /\
      alike (pipeline_end r) (pipeline_end r')
  | None, None => True
  | _, _ => False
  end /\
  alikeResults (Stop s) (Stop t).
Proof.
  intros H. split; [|now apply Stop_alike].
  unfold Start.
  assert (H0 : alike (launch flag_Parsed flag_Parse BuildVersion BuildDate s)
                     (launch flag_Parsed flag_Parse BuildVersion BuildDate t)).
  { unfold launch. simpl. destruct H as (P & U & W & C & E & N). rewrite W.
    destruct (flag_Parsed (world t)); unfold alike; simpl; auto 10. }
  set (s0 := launch flag_Parsed flag_Parse BuildVersion BuildDate s) in *.
  set (t0 := launch flag_Parsed flag_Parse BuildVersion BuildDate t) in *.
  pose proof (pipeline_alike H0) as K. unfold alikeResults in K.
  destruct (pipeline _ _ _ s0) as [[sig s']|];
    destruct (pipeline _ _ _ t0) as [[sig' t']|]; try contradiction; [|exact I].
  destruct K as (-> & A).
  assert (D : deadline race s0 s' = deadline race t0 t').
  { unfold deadline, instants.
    destruct H0 as (_ & U0 & _ & _ & _ & N0). destruct A as (_ & _ & _ & _ & _ & N').
    rewrite U0, N0, N'. reflexivity. }
  rewrite D.
  assert (U : startup_ (agent s') = startup_ (agent t')) by (destruct A as (_ & U & _); exact U).
  destruct (deadline race t0 t').
  - simpl. auto.
  - rewrite U. destruct sig'; simpl; auto.
Qed.

(** *** Start again *)

Lemma pipeline_first_call (s : State World) :
  plugins (agent s) <> [] ->
  exists signal s' e evs,
    pipeline NamedPlugin_Close Duration_String NamedPlugin_String s = Some (signal, s') /\
    calls s' = calls s ++ mkEvent (CallInit 0) e :: evs.
Proof.
  intros Hne.
  assert (Hseq : exists n, List.length (plugins (agent s)) = S n).
  { destruct (plugins (agent s)); [congruence|]. simpl. eauto. }
  destruct Hseq as (n & Hlen).
  destruct (inits_dichotomy (plugins (agent s)) (world s))
    as [(w1 & H1)|(l1 & np & l2 & w1 & e & P & H1 & He)].
  - destruct (afterInits_dichotomy (plugins (agent s)) w1)
      as [(w2 & H2)|(l1 & np & l2 & f & w2 & e & P & H2 & Hf & He)].
    + destruct (pipeline_ok s H1 H2) as (s' & mid1 & st1 & mid2 & HP & R & _).
      destruct R as (_ & _ & _ & E & _). rewrite Hlen in E. simpl in E.
      eexists _, s', _, _. split; [exact HP|exact E].
    + destruct (pipeline_after_fail s l1 l2 np P H1 H2 Hf He)
        as (s' & mid1 & st1 & mid2 & evs & HP & R & _).
      destruct R as (_ & _ & _ & E & _). rewrite Hlen in E. simpl in E.
      eexists _, s', _, _. split; [exact HP|exact E].
  - destruct (pipeline_init_fail s l1 l2 np P H1 He) as (s' & mid & evs & HP & R & _).
    destruct R as (_ & _ & _ & E & _).
    destruct l1 as [|a l1]; simpl in E; eexists _, s', _, _; (split; [exact HP|exact E]).
Qed.

(** X15.  Start keeps no record of having run: a second Start on the same
    agent goes through the registry again, in order, after the calls of the
    first, and calls Init on the first plugin again, whatever the first
    Start did. *)
Theorem second_Start_initializes_again (s : State World) :
  exists r1 r2 evs1 evs2,
    Start NamedPlugin_Close Duration_String NamedPlugin_String
          flag_Parsed flag_Parse BuildVersion BuildDate SignalFirst s = Some r1 /\
    Start NamedPlugin_Close Duration_String NamedPlugin_String
          flag_Parsed flag_Parse BuildVersion BuildDate SignalFirst (pipeline_end r1)
      = Some r2 /\
    calls (pipeline_end r1) = calls s ++ evs1 /\
    calls (pipeline_end r2) = calls (pipeline_end r1) ++ evs2 /\
    orderly (List.length (plugins (agent s))) (map ev_call evs1) /\
    orderly (List.length (plugins (agent s))) (map ev_call evs2) /\
    (plugins (agent s) <> [] -> exists e rest, evs2 = mkEvent (CallInit 0) e :: rest).
Proof.
  destruct (launch_keeps s) as (Pl & _ & Cl & _).
  destruct (pipeline_cases (launch flag_Parsed flag_Parse BuildVersion BuildDate s))
    as (sig1 & s1 & evs1 & mid1 & rest1 & HP1 & R1 & O1 & _).
  destruct (Start_signal s HP1) as (r1 & HS1 & _ & He1).
  destruct (launch_keeps s1) as (Pl2 & _ & Cl2 & _).
  destruct (pipeline_cases (launch flag_Parsed flag_Parse BuildVersion BuildDate s1))
    as (sig2 & s2 & evs2 & mid2 & rest2 & HP2 & R2 & O2 & _).
  destruct (Start_signal s1 HP2) as (r2 & HS2 & _ & He2).
  destruct R1 as (P1 & _ & _ & E1 & _). destruct R2 as (P2 & _ & _ & E2 & _).
  rewrite Pl in P1, O1. rewrite Pl2, P1 in O2.
  exists r1, r2, evs1, evs2. rewrite He1, He2.
  split; [exact HS1|]. split; [exact HS2|].
  split; [rewrite E1, Cl; reflexivity|].
  split; [rewrite E2, Cl2; reflexivity|].
  split; [exact O1|]. split; [exact O2|].
  intros Hne.
  destruct (@pipeline_first_call (launch flag_Parsed flag_Parse BuildVersion BuildDate s1))
    as (sig & s' & e & rest & HP & E).
  { rewrite Pl2, P1. exact Hne. }
  rewrite HP2 in HP. inversion HP; subst sig s'. clear HP.
  rewrite E2 in E. apply app_inv_head in E. eauto.
Qed.

End Properties.

(** ** The claims on the sample registries *)

Import Sample.

(** C1, where the code departs from it.  On a registry of two plugins whose
    first fails Init, Init is not called on the second, yet the rollback
    invokes release on the second, which was never initialized, before the
    first: started with 5 resources held, the run ends with 4. *)
Theorem C1_rollback_releases_plugins_never_initialized :
  firstInitFailure initFailsFirst (world (launched 5 initFailsFirst))
                   0 (badInit "a") 5 "boom" /\
  outcome (start promoted SignalFirst 5 initFailsFirst) =
  Some (Some (InitError nanos "a" "boom" 3%Z),
        [mkEvent (CallInit 0) (Some "boom");
         mkEvent (CallClose OnWrapper 1) None;
         mkEvent (CallClose OnWrapper 0) None],
        4).
Proof. split; [repeat split|]; vm_compute; reflexivity. Qed.

(** C2 on a registry of two plugins that both succeed. *)
Lemma C2_witness :
  allSucceed (inits allGood) (world (launched 0 allGood)) = Some 2 /\
  allSucceed (afterInits allGood) 2 = Some 2 /\
  exists r,
    start promoted SignalFirst 0 allGood = Some r /\
    returned r = None /\
    initDuration (startup_ (agent (pipeline_end r))) <> defaultTimerValue /\
    afterInitDuration (startup_ (agent (pipeline_end r))) <> defaultTimerValue.
Proof.
  assert (H1 : allSucceed (inits allGood) (world (launched 0 allGood)) = Some 2)
    by reflexivity.
  assert (H2 : allSucceed (afterInits allGood) 2 = Some 2) by reflexivity.
  split; [exact H1|]. split; [exact H2|].
  destruct (C2_Start_succeeds promoted nanos render parsed parse "v" "d"
              (fresh 0 allGood) H1 H2)
    as (r & i & a & HS & Hr & _ & Hi & Ha & Ni & Na & _).
  exists r. subst i a. auto.
Defined.

(** C3 on a registry of three plugins whose second fails AfterInit: the
    three resources Init acquired are returned by the teardown. *)
Lemma C3_witness :
  allSucceed (inits afterInitFails) (world (launched 0 afterInitFails)) = Some 3 /\
  firstAfterInitFailure afterInitFails 3 1 (badAfter "b") (ko "late" 2) 3 "late" /\
  exists r evs,
    start promoted SignalFirst 0 afterInitFails = Some r /\
    returned r = Some (AfterInitError nanos "b" "late" (measured 2%N)) /\
    evs = [mkEvent (CallClose OnPlugin 2) None;
           mkEvent (CallClose OnPlugin 1) None;
           mkEvent (CallClose OnPlugin 0) None] /\
    world (pipeline_end r) = 0.
Proof.
  assert (H1 : allSucceed (inits afterInitFails) (world (launched 0 afterInitFails))
               = Some 3) by reflexivity.
  assert (H2 : firstAfterInitFailure afterInitFails 3 1 (badAfter "b") (ko "late" 2)
                 3 "late") by (repeat split).
  split; [exact H1|]. split; [exact H2|].
  destruct (@C3_AfterInit_failure_stops_everything _ promoted nanos render parsed parse
              "v" "d" (fresh 0 afterInitFails) 1 (badAfter "b") (ko "late" 2) 3 3
              "late" H1 H2)
    as (r & evs & HS & Hr & _ & _ & HK & HW & _).
  exists r, evs.
  split; [exact HS|]. split; [exact Hr|]. split; [exact HK|exact HW].
Defined.

(** C7 on a registry whose second plugin fails Init and whose first two
    fail Close: the error of the last release is what Start returns. *)
Lemma C7_witness :
  firstInitFailure closeFails (world (launched 0 closeFails))
                   1 (badBoth "b" "socket busy") 1 "boom" /\
  exists r,
    start promoted SignalFirst 0 closeFails = Some r /\
    calls (pipeline_end r) =
      [mkEvent (CallInit 0) None;
       mkEvent (CallInit 1) (Some "boom");
       mkEvent (CallClose OnWrapper 2) None;
       mkEvent (CallClose OnWrapper 1) (Some "socket busy");
       mkEvent (CallClose OnWrapper 0) (Some "disk full")] /\
    returned r = Some "disk full".
Proof.
  assert (H : firstInitFailure closeFails (world (launched 0 closeFails))
                1 (badBoth "b" "socket busy") 1 "boom") by (repeat split).
  split; [exact H|].
  destruct (@C7_release_error_replaces_init_error _ promoted nanos render parsed parse
              "v" "d" (fresh 0 closeFails) 1 (badBoth "b" "socket busy") 1 "boom" H)
    as (r & evs & HS & HC & _ & HK & HL & _).
  subst evs. exists r.
  split; [exact HS|]. split; [exact HC|exact HL].
Defined.



(** C6, where the code departs from it.  When the timer fires before the
    goroutine's first write, phase 1 has not completed and [initDuration]
    holds 0, the value it was built with, not the sentinel. *)
Lemma C6_sentinel_not_yet_set :
  option_map (@returned held) (start bare (DeadlineAt 0) 0 allGood)
    = Some (Some (TimeoutError EmptyString)) /\
  option_map initDuration (instant bare 0 0 allGood) = Some 0%Z /\
  0%Z <> defaultTimerValue.
Proof. split; [|split]; [vm_compute; reflexivity ..|discriminate]. Qed.

(** C8, where the code departs from it.  After a failed Init whose rollback
    has two releases that fail, the error of the first of them is neither
    returned nor logged; after a failed AfterInit the error of a release
    that fails in Stop is not in what Start returns. *)
Lemma C8_release_errors_dropped :
  (exists r,
     start promoted SignalFirst 0 twoClosesFail = Some r /\
     In (mkEvent (CallClose OnWrapper 1) (Some "socket busy")) (calls (pipeline_end r)) /\
     returned r = Some "disk full" /\
     surfaced "socket busy" r = false) /\
  (exists r,
     start promoted SignalFirst 0 lateAndStuck = Some r /\
     In (mkEvent (CallClose OnPlugin 0) (Some "disk full")) (calls (pipeline_end r)) /\
     returned r = Some (AfterInitError nanos "b" "late" 2%Z) /\
     match returned r with Some m => contains "disk full" m | None => false end = false).
Proof.
  split.
  - destruct (start promoted SignalFirst 0 twoClosesFail) as [r|] eqn:E;
      [|vm_compute in E; discriminate E].
    exists r. split; [reflexivity|].
    vm_compute in E. inversion E; subst r. clear E.
    split; [right; left; reflexivity|]. split; vm_compute; reflexivity.
  - destruct (start promoted SignalFirst 0 lateAndStuck) as [r|] eqn:E;
      [|vm_compute in E; discriminate E].
    exists r. split; [reflexivity|].
    vm_compute in E. inversion E; subst r. clear E.
    split; [simpl; tauto|]. split; vm_compute; reflexivity.
Qed.

(** C9, where the code departs from it.  After a Stop that succeeded, a
    second Stop invokes release on the plugin again. *)
Lemma C9_released_twice :
  stopTwice (fresh 1 [good "a"]) =
  Some (None, [mkEvent (CallClose OnPlugin 0) None],
        None, [mkEvent (CallClose OnPlugin 0) None; mkEvent (CallClose OnPlugin 0) None]).
Proof. vm_compute. reflexivity. Qed.

(** ** The further properties on sample registries *)

(** X1 on a registry whose second plugin fails Init. *)
Lemma X1_witness :
  firstInitFailure secondFails (world (launched 0 secondFails)) 1 (badInit "b") 1 "boom" /\
  exists r evs,
    start promoted SignalFirst 0 secondFails = Some r /\
    map ev_call evs = releases OnWrapper 2 /\
    In (CallClose OnWrapper 1) (map ev_call evs).
Proof.
  assert (H : firstInitFailure secondFails (world (launched 0 secondFails))
                1 (badInit "b") 1 "boom") by (repeat split).
  split; [exact H|].
  destruct (rollback_covers_the_registry promoted nanos render parsed parse
              "v" "d" (fresh 0 secondFails) H)
    as (r & evs & HS & _ & HR & Hin & _).
  exists r, evs. split; [exact HS|]. split; [exact HR|].
  apply Hin. simpl. lia.
Defined.

(** X2 on a registry of two plugins that both succeed. *)
Lemma X2_witness :
  allSucceed (inits allGood) (world (launched 0 allGood)) = Some 2 /\
  allSucceed (afterInits allGood) 2 = Some 2 /\
  exists r,
    start promoted SignalFirst 0 allGood = Some r /\
    returned r = None /\
    world (pipeline_end r) = 2.
Proof.
  assert (H1 : allSucceed (inits allGood) (world (launched 0 allGood)) = Some 2)
    by reflexivity.
  assert (H2 : allSucceed (afterInits allGood) 2 = Some 2) by reflexivity.
  split; [exact H1|]. split; [exact H2|].
  destruct (successful_Start_calls promoted nanos render parsed parse "v" "d"
              (fresh 0 allGood) H1 H2)
    as (r & HS & Hr & _ & HW & _).
  exists r. split; [exact HS|]. split; [exact Hr|exact HW].
Defined.

(** X3 on a registry of two plugins, neither of which has AfterInit. *)
Lemma X3_witness :
  (forall q, In q twoClosesFail -> AfterInit (Plugin_ q) = None) /\
  exists s',
    handleAfterInit nanos (fresh 0 twoClosesFail) = Some (None, s') /\
    calls s' = [] /\
    world s' = 0.
Proof.
  assert (H : forall q, In q (plugins (agent (fresh 0 twoClosesFail))) ->
                        AfterInit (Plugin_ q) = None).
  { intros q [<-|[<-|[]]]; reflexivity. }
  split; [exact H|].
  destruct (handleAfterInit_without_PostInit nanos (fresh 0 twoClosesFail) H)
    as (s' & HS & HC & HW & _).
  exists s'. split; [exact HS|]. split; [exact HC|exact HW].
Defined.

(** X5 on the empty registry. *)
Lemma X5_witness :
  plugins (agent (fresh 3 [])) = [] /\
  exists r,
    start promoted SignalFirst 3 [] = Some r /\
    returned r = None /\
    calls (pipeline_end r) = [] /\
    world (pipeline_end r) = 3.
Proof.
  assert (H : plugins (agent (fresh 3 [])) = []) by reflexivity.
  split; [exact H|].
  destruct (Start_on_empty_registry promoted nanos render parsed parse "v" "d"
              (fresh 3 []) H)
    as (r & HS & Hr & HC & HW & _).
  exists r. split; [exact HS|]. split; [exact Hr|]. split; [exact HC|exact HW].
Defined.

(** X8 on a registry of two plugins that both succeed: what Init acquired
    Stop returns. *)
Lemma X8_witness :
  allSucceed (inits allGood) (world (launched 0 allGood)) = Some 2 /\
  allSucceed (afterInits allGood) 2 = Some 2 /\
  exists r r2 s2,
    start promoted SignalFirst 0 allGood = Some r /\
    Stop (pipeline_end r) = Some (r2, s2) /\
    world s2 = 0.
Proof.
  assert (H1 : allSucceed (inits allGood) (world (launched 0 allGood)) = Some 2)
    by reflexivity.
  assert (H2 : allSucceed (afterInits allGood) 2 = Some 2) by reflexivity.
  split; [exact H1|]. split; [exact H2|].
  destruct (Start_then_Stop promoted nanos render parsed parse "v" "d"
              (fresh 0 allGood) H1 H2)
    as (r & r2 & s2 & evs & HS & _ & HT & _ & _ & HW).
  exists r, r2, s2. split; [exact HS|]. split; [exact HT|exact HW].
Defined.

(** X9 on a registry of three plugins whose second fails AfterInit. *)
Lemma X9_witness :
  allSucceed (inits afterInitFails) (world (launched 0 afterInitFails)) = Some 3 /\
  firstAfterInitFailure afterInitFails 3 1 (badAfter "b") (ko "late" 2) 3 "late" /\
  exists r r2 s2 evs1 evs2,
    start promoted SignalFirst 0 afterInitFails = Some r /\
    Stop (pipeline_end r) = Some (r2, s2) /\
    map ev_call evs1 = releases OnPlugin 3 /\
    map ev_call evs2 = releases OnPlugin 3.
Proof.
  assert (H1 : allSucceed (inits afterInitFails) (world (launched 0 afterInitFails))
               = Some 3) by reflexivity.
  assert (H2 : firstAfterInitFailure afterInitFails 3 1 (badAfter "b") (ko "late" 2)
                 3 "late") by (repeat split).
  split; [exact H1|]. split; [exact H2|].
  destruct (Stop_after_failed_AfterInit_releases_twice promoted nanos render parsed
              parse "v" "d" (fresh 0 afterInitFails) H1 H2)
    as (r & r2 & s2 & evs1 & evs2 & HS & HT & _ & HR1 & HR2).
  exists r, r2, s2, evs1, evs2.
  split; [exact HS|]. split; [exact HT|]. split; [exact HR1|exact HR2].
Defined.

(** X10 on a registry whose first plugin fails Init. *)
Lemma X10_witness :
  firstInitFailure initFailsFirst (world (launched 5 initFailsFirst))
                   0 (badInit "a") 5 "boom" /\
  exists r,
    start promoted SignalFirst 5 initFailsFirst = Some r /\
    afterInitDuration (startup_ (agent (pipeline_end r))) = 0%Z.
Proof.
  assert (H : firstInitFailure initFailsFirst (world (launched 5 initFailsFirst))
                0 (badInit "a") 5 "boom") by (repeat split).
  split; [exact H|].
  destruct (failed_Init_skips_phase_2 promoted nanos render parsed parse "v" "d"
              (fresh 5 initFailsFirst) H)
    as (r & evs & HS & _ & _ & HA & _).
  exists r. split; [exact HS|exact HA].
Defined.

(** X11 on a registry of two plugins, the timer firing while the second
    is in Init. *)
Lemma X11_witness :
  nth_error (plugins (agent (fresh 0 allGood))) 1 = Some (good "b") /\
  exists r,
    start promoted (DeadlineAt 3) 0 allGood = Some r /\
    returned r = Some (TimeoutError "b").
Proof.
  assert (H : nth_error (plugins (agent (fresh 0 allGood))) 1 = Some (good "b"))
    by reflexivity.
  split; [exact H|].
  destruct (timeout_in_phase_1_names_the_plugin promoted nanos render parsed parse
              "v" "d" (fresh 0 allGood) 1 H)
    as (r & HS & Hr).
  exists r. split; [exact HS|exact Hr].
Defined.

(** X12 on a registry of two plugins, the timer firing while the first
    is in Init. *)
Lemma X12_witness :
  1 <= 2 <= S (List.length (plugins (agent (fresh 0 allGood)))) /\
  exists r,
    start promoted (DeadlineAt 2) 0 allGood = Some r /\
    map message (caller_log r) =
      [Sprintf "Agent Init took > %v" [nanos 100%Z];
       Sprintf "Agent AfterInit took %v" [nanos 0%Z]].
Proof.
  assert (H : 1 <= 2 <= S (List.length (plugins (agent (fresh 0 allGood)))))
    by (simpl; lia).
  split; [exact H|].
  destruct (timeout_in_phase_1_log promoted nanos render parsed parse "v" "d"
              (fresh 0 allGood) H)
    as (r & HS & HL).
  exists r. split; [exact HS|]. rewrite HL. reflexivity.
Defined.

(** X13 on a registry of two plugins, the timer firing while the second
    is in AfterInit. *)
Lemma X13_witness :
  allSucceed (inits allGood) (world (launched 0 allGood)) = Some 2 /\
  nth_error (plugins (agent (fresh 0 allGood))) 1 = Some (good "b") /\
  exists r d,
    start promoted (DeadlineAt 7) 0 allGood = Some r /\
    returned r = Some (TimeoutError "b") /\
    (0 <= d <= maxDuration)%Z /\
    map message (caller_log r) =
      [Sprintf "Agent Init took %v" [nanos d];
       Sprintf "Agent AfterInit took > %v" [nanos 100%Z]].
Proof.
  assert (H1 : allSucceed (inits allGood) (world (launched 0 allGood)) = Some 2)
    by reflexivity.
  assert (H2 : nth_error (plugins (agent (fresh 0 allGood))) 1 = Some (good "b"))
    by reflexivity.
  split; [exact H1|]. split; [exact H2|].
  destruct (@timeout_in_phase_2 _ promoted nanos render parsed parse "v" "d"
              (fresh 0 allGood) 2 1 (good "b") H1 H2)
    as (r & s1 & d & HS & Hr & _ & _ & Hd & HL).
  exists r, d. split; [exact HS|]. split; [exact Hr|]. split; [exact Hd|].
  rewrite HL. reflexivity.
Defined.

(** X14 on an agent and the same agent with one more entry in its log. *)
Lemma X14_witness :
  alike (fresh 0 allGood) (launched 0 allGood) /\
  Logger (agent (fresh 0 allGood)) <> Logger (agent (launched 0 allGood)) /\
  alikeResults (Stop (fresh 0 allGood)) (Stop (launched 0 allGood)).
Proof.
  assert (H : alike (fresh 0 allGood) (launched 0 allGood)) by (repeat split).
  split; [exact H|]. split; [discriminate|].
  destruct (@the_log_is_never_read _ promoted nanos render parsed parse "v" "d"
              SignalFirst (fresh 0 allGood) (launched 0 allGood) H) as [_ HS].
  exact HS.
Defined.
